(** * aa-moonmining: background jobs and views, embedded and verified

    The development embeds the Python code of the repository as Rocq
    functions.  Database tables are finite maps or row lists, the external
    API (ESI) and the library helpers that the repository only imports are
    fields of an environment record, and code that can raise runs in a
    state-and-exception monad whose failure outcome keeps the database as
    it was when the exception left the function (Django runs in autocommit
    mode outside [transaction.atomic]). *)

From Stdlib Require Import ZArith QArith Qround List Ascii String Permutation
  Sorted Lia.
From stdpp Require Import gmap strings list fin_maps.

Local Open Scope Z_scope.
Local Open Scope string_scope.

(** ** Python exceptions and the state-and-exception monad *)

Module Py.

Inductive exn : Type :=
  | OSError
  | KeyError
  | IndexError
  | ValueError
  | AttributeError
  | AssertionError
  | YAMLError
  | DoesNotExist
  | MultipleObjectsReturned
  | ZeroDivisionError.

#[global] Instance exn_eq_dec : EqDecision exn.
Proof. solve_decision. Defined.

(** The outcome of running a piece of Python code from a state [S]. *)
Inductive outcome (S A : Type) : Type :=
  | Ok (a : A) (s : S)
  | Raise (e : exn) (s : S).
Arguments Ok {S A} a s.
Arguments Raise {S A} e s.

Definition M (S A : Type) : Type := S -> outcome S A.

Definition ret {S A} (a : A) : M S A := fun s => Ok a s.

Definition bind {S A B} (m : M S A) (k : A -> M S B) : M S B :=
  fun s => match m s with
           | Ok a s' => k a s'
           | Raise e s' => Raise e s'
           end.

Definition raise {S A} (e : exn) : M S A := fun s => Raise e s.
Definition get {S} : M S S := fun s => Ok s s.
Definition modify {S} (f : S -> S) : M S unit := fun s => Ok tt (f s).

(** A call whose result is decided outside the program (external API,
    library helper): the exception it raises, or its value. *)
Definition call {S A} (r : exn + A) : M S A :=
  match r with inl e => raise e | inr a => ret a end.

(** Subscripting a dictionary with a key that may be absent. *)
Definition subscript {S A} (o : option A) : M S A :=
  match o with Some a => ret a | None => raise KeyError end.

(** [try: m  except Exception as ex: h ex] *)
Definition try_except {S A} (m : M S A) (h : exn -> M S A) : M S A :=
  fun s => match m s with
           | Ok a s' => Ok a s'
           | Raise e s' => h e s'
           end.

(** [with transaction.atomic(): m]: an exception leaving the block rolls
    the database back to the state at its entry and is raised again. *)
Definition atomic {S A} (m : M S A) : M S A :=
  fun s => match m s with
           | Ok a s' => Ok a s'
           | Raise e _ => Raise e s
           end.

(** [for x in l: f x] *)
Fixpoint for_each {S A} (f : A -> M S unit) (l : list A) : M S unit :=
  match l with
  | [] => ret tt
  | x :: l' => bind (f x) (fun _ => for_each f l')
  end.

Definition final_state {S A} (o : outcome S A) : S :=
  match o with Ok _ s => s | Raise _ s => s end.

Definition raised {S A} (o : outcome S A) : option exn :=
  match o with Ok _ _ => None | Raise e _ => Some e end.

Definition returned {S A} (o : outcome S A) : option A :=
  match o with Ok a _ => Some a | Raise _ _ => None end.

(** [keeps R m]: running [m] relates the state before it to the state
    after it, whether [m] returns or raises. *)
Record keeps {S A} (R : S -> S -> Prop) (m : M S A) : Prop := {
  keeps_run : forall s, R s (final_state (m s));
}.
Arguments keeps_run {S A R m} _ s.

End Py.

Import Py.

#[global] Instance M_ret {S} : MRet (M S) := fun A a => ret a.
#[global] Instance M_bind {S} : MBind (M S) := fun A B k m => bind m k.

(** ** moonplanner/tasks.py: [run_refineries_update] *)

Module Planner.

(** *** Stored records *)

(** A row of eveuniverse's [EveType]: its group and whether the type
    materials section has been loaded. *)
Record EveTypeRow := {
  eve_group_id : Z;
  type_materials : bool;
}.

Record MiningCorporationRow := {
  corporation_id : Z;
  character : option Z;          (* character_id of the corporation's character *)
}.

Record RefineryRow := {
  ref_name : string;
  ref_eve_type : Z;
  ref_moon : option Z;           (* the Moon, named by its eve_moon id *)
  ref_corporation : Z;           (* pk of the mining corporation *)
}.

Record ExtractionRow := {
  ext_refinery : Z;
  ext_ready_time : Z;
  ext_auto_time : Z;
}.

#[global] Instance EveTypeRow_eq_dec : EqDecision EveTypeRow.
Proof. solve_decision. Defined.
#[global] Instance MiningCorporationRow_eq_dec : EqDecision MiningCorporationRow.
Proof. solve_decision. Defined.
#[global] Instance RefineryRow_eq_dec : EqDecision RefineryRow.
Proof. solve_decision. Defined.
#[global] Instance ExtractionRow_eq_dec : EqDecision ExtractionRow.
Proof. solve_decision. Defined.

Record DB := {
  eve_types : gmap Z EveTypeRow;
  eve_solar_systems : gset Z;
  eve_moons : gset Z;
  moons : gset Z;                              (* Moon rows, by eve_moon id *)
  mining_corporations : gmap Z MiningCorporationRow;
  refineries : gmap Z RefineryRow;             (* by structure id *)
  extractions : gmap Z ExtractionRow;          (* by primary key *)
  extraction_products : gmap (Z * Z) Q;        (* (extraction pk, type id) to volume *)
}.

Definition set_eve_types f (d : DB) : DB :=
  {| eve_types := f (eve_types d); eve_solar_systems := eve_solar_systems d;
     eve_moons := eve_moons d; moons := moons d;
     mining_corporations := mining_corporations d; refineries := refineries d;
     extractions := extractions d; extraction_products := extraction_products d |}.
Definition set_eve_solar_systems f (d : DB) : DB :=
  {| eve_types := eve_types d; eve_solar_systems := f (eve_solar_systems d);
     eve_moons := eve_moons d; moons := moons d;
     mining_corporations := mining_corporations d; refineries := refineries d;
     extractions := extractions d; extraction_products := extraction_products d |}.
Definition set_eve_moons f (d : DB) : DB :=
  {| eve_types := eve_types d; eve_solar_systems := eve_solar_systems d;
     eve_moons := f (eve_moons d); moons := moons d;
     mining_corporations := mining_corporations d; refineries := refineries d;
     extractions := extractions d; extraction_products := extraction_products d |}.
Definition set_moons f (d : DB) : DB :=
  {| eve_types := eve_types d; eve_solar_systems := eve_solar_systems d;
     eve_moons := eve_moons d; moons := f (moons d);
     mining_corporations := mining_corporations d; refineries := refineries d;
     extractions := extractions d; extraction_products := extraction_products d |}.
Definition set_refineries f (d : DB) : DB :=
  {| eve_types := eve_types d; eve_solar_systems := eve_solar_systems d;
     eve_moons := eve_moons d; moons := moons d;
     mining_corporations := mining_corporations d; refineries := f (refineries d);
     extractions := extractions d; extraction_products := extraction_products d |}.
Definition set_extractions f (d : DB) : DB :=
  {| eve_types := eve_types d; eve_solar_systems := eve_solar_systems d;
     eve_moons := eve_moons d; moons := moons d;
     mining_corporations := mining_corporations d; refineries := refineries d;
     extractions := f (extractions d); extraction_products := extraction_products d |}.
Definition set_extraction_products f (d : DB) : DB :=
  {| eve_types := eve_types d; eve_solar_systems := eve_solar_systems d;
     eve_moons := eve_moons d; moons := moons d;
     mining_corporations := mining_corporations d; refineries := refineries d;
     extractions := extractions d; extraction_products := f (extraction_products d) |}.

(** *** What the external API returns *)

Record Structure := {
  type_id : Z;
  structure_id : Z;
}.

Record StructureInfo := {
  info_name : string;
  info_type_id : Z;
  solar_system_id : Z;
  position : Z * Z * Z;
}.

(** The result of [solar_system.nearest_celestial]: the type of the
    celestial and the id of the object itself. *)
Record NearestCelestial := {
  celestial_type_id : Z;
  eve_object : Z;
}.

(** The dictionary that [yaml.safe_load] makes of a notification's text,
    with the keys the task reads; a key that is absent is [None]. *)
Record ParsedText := {
  structureID : option Z;
  moonID : option Z;
  readyTime : option Z;
  autoTime : option Z;
  oreVolumeByType : option (list (Z * Q));
}.

(** A notification as the API returns it.  [text] holds what
    [yaml.safe_load] makes of the text: the exception it raises or the
    dictionary. *)
Record Notification := {
  timestamp : Z;
  type : string;
  text : exn + ParsedText;
}.

(** The world outside the task: the API client, eveuniverse's loaders and
    the constants of the [constants] module. *)
Record Env := {
  EVE_GROUP_ID_REFINERY : Z;
  EVE_GROUP_ID_MOON : Z;
  EVE_TYPE_ID_MOON : Z;
  fetch_token : MiningCorporationRow -> exn + unit;
  valid_access_token : exn + unit;
  get_corporations_corporation_id_structures : Z -> exn + list Structure;
  get_universe_structures_structure_id : Z -> exn + StructureInfo;
  get_characters_character_id_notifications : Z -> exn + list Notification;
  esi_type : Z -> exn + Z;                 (* the group of a type *)
  esi_solar_system : Z -> exn + unit;
  esi_moon : Z -> exn + unit;
  nearest_celestial : Z -> Z * Z * Z -> Z -> Z -> exn + option NearestCelestial;
}.

(** *** The ORM calls of the task *)

Definition MAX_DISTANCE_TO_MOON_METERS : Z := 3000000.

(** [ldap_time_2_datetime] of app_utils: 100 ns ticks since 1601 to a point
    in time, here in microseconds since 1970. *)
Definition ldap_time_2_datetime (ldap_dt : Z) : Z :=
  ldap_dt / 10 - 11644473600 * 1000000.

Section Orm.
Variable env : Env.

(** [EveType.objects.get_or_create_esi(id=.., enabled_sections=..)]: the
    stored row when it has the sections asked for, else loaded from the
    API and stored. *)
Definition EveType_get_or_create_esi (id : Z) (materials : bool)
  : M DB EveTypeRow :=
  d ← get;
  let load :=
    g ← call (esi_type env id);
    let row := {| eve_group_id := g; type_materials := materials |} in
    modify (set_eve_types <[id := row]>);;
    ret row in
  match eve_types d !! id with
  | Some row => if materials && negb (type_materials row) then load else ret row
  | None => load
  end.

Definition EveSolarSystem_get_or_create_esi (id : Z) : M DB unit :=
  d ← get;
  if bool_decide (id ∈ eve_solar_systems d) then ret tt
  else call (esi_solar_system env id);;
       modify (set_eve_solar_systems (union {[id]})).

Definition EveMoon_get_or_create_esi (id : Z) : M DB unit :=
  d ← get;
  if bool_decide (id ∈ eve_moons d) then ret tt
  else call (esi_moon env id);;
       modify (set_eve_moons (union {[id]})).

(** [Moon.objects.get_or_create(eve_moon=eve_moon)] *)
Definition Moon_get_or_create (eve_moon : Z) : M DB unit :=
  modify (set_moons (union {[eve_moon]})).

(** [Refinery.objects.update_or_create(id=.., defaults=..)] and
    [refinery.save()] both write the whole row under its id. *)
Definition Refinery_save (id : Z) (row : RefineryRow) : M DB unit :=
  modify (set_refineries <[id := row]>).

(** The primary key that the database gives to the next row of a table. *)
Definition max_pk {A} (m : gmap Z A) : Z :=
  map_fold (fun k _ acc => Z.max k acc) 0 m.
Definition next_pk {A} (m : gmap Z A) : Z := max_pk m + 1.

(** [Extraction.objects.get_or_create(refinery=.., ready_time=..,
    defaults={"auto_time": ..})], returning the primary key. *)
Definition Extraction_get_or_create (refinery ready_time auto_time : Z)
  : M DB Z :=
  d ← get;
  let found :=
    filter (fun kv => bool_decide (ext_refinery kv.2 = refinery
                                   ∧ ext_ready_time kv.2 = ready_time))
           (map_to_list (extractions d)) in
  match found with
  | [] =>
      let pk := next_pk (extractions d) in
      let row := {| ext_refinery := refinery; ext_ready_time := ready_time;
                    ext_auto_time := auto_time |} in
      modify (set_extractions <[pk := row]>);;
      ret pk
  | [kv] => ret kv.1
  | _ => raise MultipleObjectsReturned
  end.

(** [ExtractionProduct.objects.get_or_create(extraction=.., eve_type=..,
    defaults={"volume": ..})] *)
Definition ExtractionProduct_get_or_create (extraction eve_type : Z)
  (volume : Q) : M DB unit :=
  d ← get;
  match extraction_products d !! (extraction, eve_type) with
  | Some _ => ret tt
  | None =>
      modify (set_extraction_products <[(extraction, eve_type) := volume]>)
  end.

(** [extraction.delete()]: the row and, by cascade, its products. *)
Definition Extraction_delete (pk : Z) : M DB unit :=
  modify (set_extractions (delete pk));;
  modify (set_extraction_products
            (filter (fun kv => kv.1.1 ≠ pk))).

End Orm.

(** *** The notification loop *)

(** A key of the dictionary [last_extraction_started]: an integer read
    from a notification, or the builtin function [id], which the task uses
    as a key when it stores a started extraction. *)
Inductive dict_key : Type :=
  | builtin_id
  | int_key (z : Z).

#[global] Instance dict_key_eq_dec : EqDecision dict_key.
Proof. solve_decision. Defined.

#[global] Instance dict_key_countable : Countable dict_key.
Proof.
  refine (inj_countable'
            (fun k => match k with builtin_id => None | int_key z => Some z end)
            (fun o => match o with None => builtin_id | Some z => int_key z end)
            _).
  intros []; reflexivity.
Defined.

(** The local variables of the loop together with the database.  A value
    of [last_extraction_started] is an [Extraction] instance, held by its
    [pk] attribute, which Django sets to [None] when the instance is
    deleted. *)
Record LoopState := {
  db : DB;
  last_extraction_started : gmap dict_key (option Z);
  moon_updated : bool;
}.

Definition set_db f (st : LoopState) : LoopState :=
  {| db := f (db st); last_extraction_started := last_extraction_started st;
     moon_updated := moon_updated st |}.
Definition set_last_extraction_started f (st : LoopState) : LoopState :=
  {| db := db st; last_extraction_started := f (last_extraction_started st);
     moon_updated := moon_updated st |}.
Definition set_moon_updated (b : bool) (st : LoopState) : LoopState :=
  {| db := db st; last_extraction_started := last_extraction_started st;
     moon_updated := b |}.

(** An ORM call made from inside the loop. *)
Definition on_db {A} (m : M DB A) : M LoopState A :=
  fun st => match m (db st) with
            | Ok a d => Ok a (set_db (fun _ => d) st)
            | Raise e d => Raise e (set_db (fun _ => d) st)
            end.

Definition extraction_types : list string :=
  [ "MoonminingAutomaticFracture";
    "MoonminingExtractionCancelled";
    "MoonminingExtractionFinished";
    "MoonminingExtractionStarted";
    "MoonminingLaserFired" ].

Section Task.
Variable env : Env.

(** Lines 258 to 267: the refinery's moon is corrected from the
    notification, while the flag [moon_updated] is still unset. *)
Definition update_moon_once (parsed_text : ParsedText) (structure_id : Z)
  (refinery : option RefineryRow) : M LoopState unit :=
  st ← get;
  match refinery with
  | Some r =>
      if negb (moon_updated st) then
        modify (set_moon_updated true);;
        moon_id ← subscript (moonID parsed_text);
        on_db (EveMoon_get_or_create_esi env moon_id);;
        on_db (Moon_get_or_create moon_id);;
        if bool_decide (ref_moon r ≠ Some moon_id) then
          on_db (Refinery_save structure_id
                   {| ref_name := ref_name r; ref_eve_type := ref_eve_type r;
                      ref_moon := Some moon_id;
                      ref_corporation := ref_corporation r |})
        else ret tt
      else ret tt
  | None => ret tt
  end.

(** Lines 269 to 290.  The [continue] for an unknown refinery skips only
    the two tests that follow, which are false for a started
    notification. *)
Definition on_started (parsed_text : ParsedText) (structure_id : Z)
  (refinery : option RefineryRow) : M LoopState unit :=
  match refinery with
  | None => ret tt
  | Some _ =>
      ready_time ← subscript (readyTime parsed_text);
      auto_time ← subscript (autoTime parsed_text);
      extraction ← on_db (Extraction_get_or_create structure_id
                            (ldap_time_2_datetime ready_time)
                            (ldap_time_2_datetime auto_time));
      modify (set_last_extraction_started <[builtin_id := Some extraction]>);;
      ore_volume_by_type ← subscript (oreVolumeByType parsed_text);
      for_each (fun item =>
                  on_db (EveType_get_or_create_esi env item.1 true);;
                  on_db (ExtractionProduct_get_or_create
                           extraction item.1 item.2))
               ore_volume_by_type
  end.

(** Lines 292 to 297. *)
Definition on_cancelled (structure_id : Z) : M LoopState unit :=
  st ← get;
  match last_extraction_started st !! int_key structure_id with
  | Some (Some pk) =>
      on_db (Extraction_delete pk);;
      modify (set_last_extraction_started <[int_key structure_id := None]>)
  | Some None => raise AssertionError
  | None => ret tt
  end.

(** Lines 299 to 301. *)
Definition on_finished (structure_id : Z) : M LoopState unit :=
  modify (set_last_extraction_started (delete (int_key structure_id))).

(** The body of [for notification in sorted(...)], lines 245 to 301. *)
Definition process_notification (notification : Notification)
  : M LoopState unit :=
  parsed_text ← call (text notification);
  if bool_decide (type notification ∈ extraction_types) then
    structure_id ← subscript (structureID parsed_text);
    st ← get;
    let refinery := refineries (db st) !! structure_id in
    update_moon_once parsed_text structure_id refinery;;
    (if bool_decide (type notification = "MoonminingExtractionStarted")
     then on_started parsed_text structure_id refinery else ret tt);;
    (if bool_decide (type notification = "MoonminingExtractionCancelled")
     then on_cancelled structure_id else ret tt);;
    (if bool_decide (type notification = "MoonminingExtractionFinished")
     then on_finished structure_id else ret tt)
  else ret tt.

(** [sorted(notifications, key=lambda k: k["timestamp"])]: Python's sort
    is stable, so notifications with equal timestamps keep the order in
    which the API returned them. *)
Fixpoint insert_by_timestamp (n : Notification) (l : list Notification)
  : list Notification :=
  match l with
  | [] => [n]
  | m :: l' =>
      if (timestamp n <=? timestamp m)%Z then n :: m :: l'
      else m :: insert_by_timestamp n l'
  end.

Fixpoint sorted_by_timestamp (l : list Notification) : list Notification :=
  match l with
  | [] => []
  | n :: l' => insert_by_timestamp n (sorted_by_timestamp l')
  end.

Definition initial_loop_state (d : DB) : LoopState :=
  {| db := d; last_extraction_started := ∅; moon_updated := false |}.

(** Lines 242 to 301: the loop, run on the database. *)
Definition process_notifications (notifications : list Notification)
  : M DB unit :=
  fun d =>
    match for_each process_notification (sorted_by_timestamp notifications)
            (initial_loop_state d) with
    | Ok _ st => Ok tt (db st)
    | Raise e st => Raise e (db st)
    end.

(** Lines 184 to 228: one structure of the corporation. *)
Definition update_refinery (mining_corp_pk : Z) (refinery : Structure)
  : M DB unit :=
  eve_type ← EveType_get_or_create_esi env (type_id refinery) false;
  if (eve_group_id eve_type =? EVE_GROUP_ID_REFINERY env)%Z then
    call (valid_access_token env);;
    structure_info ←
      call (get_universe_structures_structure_id env (structure_id refinery));
    EveSolarSystem_get_or_create_esi env (solar_system_id structure_info);;
    nearest ← call (nearest_celestial env (solar_system_id structure_info)
                      (position structure_info) (EVE_GROUP_ID_MOON env)
                      MAX_DISTANCE_TO_MOON_METERS);
    moon ← match nearest with
           | Some c =>
               if (celestial_type_id c =? EVE_TYPE_ID_MOON env)%Z then
                 Moon_get_or_create (eve_object c);;
                 ret (Some (eve_object c))
               else ret None
           | None => ret None
           end;
    EveType_get_or_create_esi env (info_type_id structure_info) false;;
    Refinery_save (structure_id refinery)
      {| ref_name := info_name structure_info;
         ref_eve_type := info_type_id structure_info;
         ref_moon := moon;
         ref_corporation := mining_corp_pk |}
  else ret tt.

(** [run_refineries_update(mining_corp_pk)].  The list [user_report] is
    built and never read, so it is left out. *)
Definition run_refineries_update (mining_corp_pk : Z) : M DB unit :=
  d ← get;
  match mining_corporations d !! mining_corp_pk with
  | None => raise DoesNotExist
  | Some mining_corp =>
      match character mining_corp with
      | None => ret tt
      | Some character_id =>
          call (fetch_token env mining_corp);;
          call (valid_access_token env);;
          all_structures ←
            call (get_corporations_corporation_id_structures env
                    (corporation_id mining_corp));
          for_each (update_refinery mining_corp_pk) all_structures;;
          call (valid_access_token env);;
          notifications ←
            call (get_characters_character_id_notifications env character_id);
          process_notifications notifications
      end
  end.

End Task.

(** *** Predicates used in the statements *)

(** [matches refs n]: the loop acts on [n] (its type is one of the five
    extraction types and its text names a structure) and the structure is
    a refinery stored in [refs]. *)
Definition matches (refs : gmap Z RefineryRow) (n : Notification) : bool :=
  bool_decide (type n ∈ extraction_types) &&
  match text n with
  | inr parsed_text =>
      match structureID parsed_text with
      | Some structure_id => bool_decide (is_Some (refs !! structure_id))
      | None => false
      end
  | inl _ => false
  end.


(** No mining corporation row is written. *)
Definition same_corporations (d d' : DB) : Prop :=
  mining_corporations d' = mining_corporations d.

(** No refinery row is written. *)
Definition same_refineries (d d' : DB) : Prop :=
  refineries d' = refineries d.

(** Every extraction row is still there, unchanged. *)
Definition extractions_kept (d d' : DB) : Prop :=
  extractions d ⊆ extractions d'.

(** The dictionary [last_extraction_started] has no integer key. *)
Definition no_int_key (st : LoopState) : Prop :=
  forall z, last_extraction_started st !! int_key z = None.

(** Relations between a state of the loop and a later one. *)
Definition loop_same (st st' : LoopState) : Prop :=
  refineries (db st') = refineries (db st)
  /\ moon_updated st' = moon_updated st.

Definition same_flag (st st' : LoopState) : Prop :=
  moon_updated st' = moon_updated st.

Definition loop_flagged (st st' : LoopState) : Prop :=
  moon_updated st = true -> loop_same st st'.

Definition loop_keeps_extractions (st st' : LoopState) : Prop :=
  no_int_key st -> no_int_key st' /\ extractions_kept (db st) (db st').

Definition loop_corporations (st st' : LoopState) : Prop :=
  same_corporations (db st) (db st').

(** The state of the loop after the notifications [l], in this order,
    from the database [d]. *)
Definition loop_state_after (env : Env) (d : DB) (l : list Notification)
  : LoopState :=
  final_state (for_each (process_notification env) l (initial_loop_state d)).

(** *** Sample data: one corporation, two refineries *)

Module Sample.

Definition athanor : Z := 35835.
Definition refinery_1 : Z := 1000000000001.
Definition refinery_2 : Z := 1000000000002.
Definition moon_1 : Z := 40161708.
Definition moon_2 : Z := 40161709.

Definition env (structures : exn + list Structure)
  (notifications : exn + list Notification) : Env :=
  {| EVE_GROUP_ID_REFINERY := 1406;
     EVE_GROUP_ID_MOON := 8;
     EVE_TYPE_ID_MOON := 14;
     fetch_token := fun _ => inr tt;
     valid_access_token := inr tt;
     get_corporations_corporation_id_structures := fun _ => structures;
     get_universe_structures_structure_id := fun _ =>
       inr {| info_name := "Auga - Paradise Alpha"; info_type_id := athanor;
              solar_system_id := 30002542; position := (0, 0, 0) |};
     get_characters_character_id_notifications := fun _ => notifications;
     esi_type := fun _ => inr 1406;
     esi_solar_system := fun _ => inr tt;
     esi_moon := fun _ => inr tt;
     nearest_celestial := fun _ _ _ _ =>
       inr (Some {| celestial_type_id := 14; eve_object := moon_1 |}) |}.

Definition corporation : MiningCorporationRow :=
  {| corporation_id := 2001; character := Some 1001 |}.

Definition refinery_row (moon : option Z) : RefineryRow :=
  {| ref_name := "Auga - Paradise Alpha"; ref_eve_type := athanor;
     ref_moon := moon; ref_corporation := 1 |}.

(** A database with the corporation and no refinery. *)
Definition empty_db : DB :=
  {| eve_types := ∅; eve_solar_systems := ∅; eve_moons := ∅; moons := ∅;
     mining_corporations := {[ 1 := corporation ]};
     refineries := ∅; extractions := ∅; extraction_products := ∅ |}.

(** A database with the corporation and its two refineries, the first
    next to [moon_1], the second without a moon. *)
Definition db : DB :=
  {| eve_types := ∅; eve_solar_systems := ∅; eve_moons := {[ moon_1 ]};
     moons := {[ moon_1 ]};
     mining_corporations := {[ 1 := corporation ]};
     refineries := {[ refinery_1 := refinery_row (Some moon_1);
                      refinery_2 := refinery_row None ]};
     extractions := ∅; extraction_products := ∅ |}.

Definition started (ts structure moon : Z) : Notification :=
  {| timestamp := ts;
     type := "MoonminingExtractionStarted";
     text := inr {| structureID := Some structure; moonID := Some moon;
                    readyTime := Some 132000000000000000;
                    autoTime := Some 132000108000000000;
                    oreVolumeByType := Some [(45506, (1288475 # 1)%Q)] |} |}.

Definition cancelled (ts structure moon : Z) : Notification :=
  {| timestamp := ts;
     type := "MoonminingExtractionCancelled";
     text := inr {| structureID := Some structure; moonID := Some moon;
                    readyTime := None; autoTime := None;
                    oreVolumeByType := None |} |}.

Definition started_row : ExtractionRow :=
  {| ext_refinery := refinery_1;
     ext_ready_time := ldap_time_2_datetime 132000000000000000;
     ext_auto_time := ldap_time_2_datetime 132000108000000000 |}.

End Sample.

End Planner.

(** ** Moon surveys: [process_survey_input] of moonplanner/tasks.py and
    [MoonManager.update_moons_from_survey] of moonmining/managers.py *)

Module Survey.

(** *** Python string and list operations used by the parser *)

Definition LF : ascii := ascii_of_nat 10.
Definition CR : ascii := ascii_of_nat 13.
Definition TAB : ascii := ascii_of_nat 9.

(** [s.split(sep)] for a separator of one character: never empty. *)
Fixpoint split (sep : ascii) (s : string) : list string :=
  match s with
  | EmptyString => [EmptyString]
  | String c s' =>
      if Ascii.eqb c sep then EmptyString :: split sep s'
      else match split sep s' with
           | piece :: pieces => String c piece :: pieces
           | [] => [String c EmptyString]
           end
  end.

Fixpoint lstrip (c : ascii) (s : string) : string :=
  match s with
  | EmptyString => EmptyString
  | String a s' => if Ascii.eqb a c then lstrip c s' else s
  end.

Fixpoint rstrip (c : ascii) (s : string) : string :=
  match s with
  | EmptyString => EmptyString
  | String a s' =>
      match rstrip c s' with
      | EmptyString => if Ascii.eqb a c then EmptyString
                       else String a EmptyString
      | r => String a r
      end
  end.

(** [s.strip(c)] for a set of one character. *)
Definition strip (c : ascii) (s : string) : string := rstrip c (lstrip c s).

(** [l.index(x)]: the first position of an element equal to [x]. *)
Fixpoint index {A} `{EqDecision A} (x : A) (l : list A) : option nat :=
  match l with
  | [] => None
  | y :: l' => if decide (y = x) then Some 0%nat else S <$> index x l'
  end.

(** [l[a:b]] and [l[a:]] for indices that are not negative. *)
Definition slice {A} (a b : nat) (l : list A) : list A :=
  take (b - a) (drop a l).
Definition slice_from {A} (a : nat) (l : list A) : list A := drop a l.

(** [l[i]] *)
Definition item {A} (l : list A) (i : nat) : exn + A :=
  match l !! i with Some x => inr x | None => inl IndexError end.

(** *** The parser, which the two functions have word for word *)

(** A line of the input, split at tabs; a survey is the lines of one
    moon. *)
Definition Line := list string.
Abbreviation Survey := (list (list string)).

(** Lines 54 to 59 (tasks.py), 104 to 109 (managers.py). *)
Definition split_lines (scans : string) : list Line :=
  (fun line => split TAB (strip CR line)) <$> split LF scans.

(** Lines 61 to 63: the header line is dropped. *)
Definition drop_header (lines : list Line) : exn + list Line :=
  match lines with
  | [] => inl IndexError
  | first :: rest =>
      if bool_decide (length first = 0%nat) then inr rest
      else match first with
           | [] => inl IndexError
           | cell :: _ => if bool_decide (cell = "Moon") then inr rest
                          else inr lines
           end
  end.

(** Lines 64 to 70: the positions of the lines that start a survey. *)
Fixpoint find_sublists (lines rest : list Line) : exn + list nat :=
  match rest with
  | [] => inr []
  | line :: rest' =>
      match line with
      | [] => inl IndexError
      | cell :: _ =>
          if bool_decide (cell = "") then find_sublists lines rest'
          else match index line lines with
               | None => inl ValueError
               | Some i =>
                   match find_sublists lines rest' with
                   | inl e => inl e
                   | inr l => inr (i :: l)
                   end
               end
      end
  end.

(** Lines 72 to 85: survey [i] runs from [sublists[i]] to [sublists[i+1]],
    the last one ([i + 2 > len(sublists)]) to the end. *)
Fixpoint separate (lines : list Line) (sublists : list nat) : list Survey :=
  match sublists with
  | [] => []
  | a :: rest =>
      match rest with
      | [] => slice_from a lines
      | b :: _ => slice a b lines
      end :: separate lines rest
  end.

(** The [try] block of tasks.py, lines 53 to 85. *)
Definition tasks_parse (scans : string) : exn + list Survey :=
  match drop_header (split_lines scans) with
  | inl e => inl e
  | inr lines =>
      match find_sublists lines lines with
      | inl e => inl e
      | inr sublists => inr (separate lines sublists)
      end
  end.

(** [MoonManager._parse_scans]: the surveys and the name of the error, or
    no error.  The list [surveys] is filled by the last loop only, which
    cannot raise, so it is empty when an error is caught. *)
Definition _parse_scans (scans : string) : list Survey * option exn :=
  match drop_header (split_lines scans) with
  | inl e => ([], Some e)
  | inr lines =>
      match find_sublists lines lines with
      | inl e => ([], Some e)
      | inr sublists => (separate lines sublists, None)
      end
  end.

(** *** Stored records *)

Record MoonRow := {
  value : option Q;
  products_updated_by : option Z;
  products_updated_at : option Z;
}.

Record MoonProductRow := {
  product_moon : Z;
  product_type : Z;
  amount : Q;
}.

(** One line of the report that is sent to the user. *)
Record ReportLine := {
  report_num : nat;
  report_moon_name : option string;
  report_ok : bool;
  report_error_name : option exn;
}.

Inductive Message : Type :=
  | report (lines : list ReportLine)
  | processing_failed (error_name : option exn).

(** What [notify] stores for the user: the title ends in OK or FAILED,
    the level is "success" or "danger" accordingly. *)
Record NotificationRow := {
  notified_user : Z;
  title_ok : bool;
  message : Message;
}.

Record DB := {
  eve_moons : gset Z;
  eve_types : gset Z;
  moons : gmap Z MoonRow;             (* Moon rows, by eve_moon id *)
  products : list MoonProductRow;
  users : gset Z;
  notifications : list NotificationRow;
}.

Definition set_eve_moons f (d : DB) : DB :=
  {| eve_moons := f (eve_moons d); eve_types := eve_types d; moons := moons d;
     products := products d; users := users d;
     notifications := notifications d |}.
Definition set_eve_types f (d : DB) : DB :=
  {| eve_moons := eve_moons d; eve_types := f (eve_types d); moons := moons d;
     products := products d; users := users d;
     notifications := notifications d |}.
Definition set_moons f (d : DB) : DB :=
  {| eve_moons := eve_moons d; eve_types := eve_types d; moons := f (moons d);
     products := products d; users := users d;
     notifications := notifications d |}.
Definition set_products f (d : DB) : DB :=
  {| eve_moons := eve_moons d; eve_types := eve_types d; moons := moons d;
     products := f (products d); users := users d;
     notifications := notifications d |}.
Definition set_notifications f (d : DB) : DB :=
  {| eve_moons := eve_moons d; eve_types := eve_types d; moons := moons d;
     products := products d; users := users d;
     notifications := f (notifications d) |}.

(** The world outside: the conversions that Django makes of the text of a
    cell, the API behind eveuniverse, the clock, and the two methods of
    [Moon] in models.py that compute and save a moon's figures. *)
Record Env := {
  to_int : string -> exn + Z;
  to_float : string -> exn + Q;
  esi_moon : Z -> exn + unit;
  esi_type : Z -> exn + unit;
  now : Z;
  update_income_estimate :
    Z -> MoonRow -> list MoonProductRow -> exn + MoonRow;
  update_calculated_properties :
    Z -> MoonRow -> list MoonProductRow -> exn + MoonRow;
}.

(** The result of one survey: a dictionary in tasks.py, the named tuple
    [SurveyProcessResult] in managers.py. *)
Record SurveyProcessResult := {
  moon_name : option string;
  success : bool;
  error_name : option exn;
}.

(** [mapM]: a loop that collects one value for each element. *)
Fixpoint map_m {S A B} (f : A -> M S B) (l : list A) : M S (list B) :=
  match l with
  | [] => ret []
  | x :: l' => y ← f x; ys ← map_m f l'; ret (y :: ys)
  end.

(** *** The ORM calls *)

Section Orm.
Variable env : Env.

(** [EveMoon.objects.get_or_create_esi(id=moon_id)], with the id as the
    text of a cell. *)
Definition EveMoon_get_or_create_esi (id : string) : M DB Z :=
  moon_id ← call (to_int env id);
  d ← get;
  if bool_decide (moon_id ∈ eve_moons d) then ret moon_id
  else call (esi_moon env moon_id);;
       modify (set_eve_moons (union {[moon_id]}));;
       ret moon_id.

(** [EveType.objects.get_or_create_esi(id=..)] of tasks.py and
    [EveOreType.objects.get_or_create_esi(id=..)] of managers.py. *)
Definition EveType_get_or_create_esi (id : string) : M DB Z :=
  type_id ← call (to_int env id);
  d ← get;
  if bool_decide (type_id ∈ eve_types d) then ret type_id
  else call (esi_type env type_id);;
       modify (set_eve_types (union {[type_id]}));;
       ret type_id.

(** [Moon.objects.get_or_create(eve_moon=eve_moon)] *)
Definition Moon_get_or_create (eve_moon : Z) : M DB MoonRow :=
  d ← get;
  match moons d !! eve_moon with
  | Some row => ret row
  | None =>
      let row := {| value := None; products_updated_by := None;
                    products_updated_at := None |} in
      modify (set_moons <[eve_moon := row]>);;
      ret row
  end.

Definition products_of (moon : Z) (rows : list MoonProductRow)
  : list MoonProductRow :=
  filter (fun row => product_moon row = moon) rows.

(** [moon.products.all().delete()] *)
Definition delete_products (moon : Z) : M DB unit :=
  modify (set_products (filter (fun row => product_moon row ≠ moon))).

(** [MoonProduct.objects.create(moon=.., amount=.., eve_type=..)], with
    the amount as the text of a cell. *)
Definition MoonProduct_create (moon : Z) (amount_text : string)
  (eve_type : Z) : M DB unit :=
  a ← call (to_float env amount_text);
  modify (set_products
            (fun rows => (rows ++ [ {| product_moon := moon;
                                        product_type := eve_type;
                                        amount := a |} ])%list)).

(** [MoonProduct.objects.bulk_create(moon_products, batch_size=500)], the
    instances given by moon, text of the amount and type. *)
Definition MoonProduct_bulk_create (moon_products : list (Z * string * Z))
  : M DB unit :=
  for_each (fun p => MoonProduct_create p.1.1 p.1.2 p.2) moon_products.

(** [moon.update_income_estimate()] *)
Definition Moon_update_income_estimate (id : Z) (moon : MoonRow)
  : M DB unit :=
  d ← get;
  row ← call (update_income_estimate env id moon (products_of id (products d)));
  modify (set_moons <[id := row]>).

(** [moon.update_calculated_properties()] *)
Definition Moon_update_calculated_properties (id : Z) (moon : MoonRow)
  : M DB unit :=
  d ← get;
  row ← call (update_calculated_properties env id moon
                (products_of id (products d)));
  modify (set_moons <[id := row]>).

(** [notify(user=.., title=.., message=.., level=..)] *)
Definition notify (user : Z) (ok : bool) (msg : Message) : M DB unit :=
  modify (set_notifications
            (fun rows => (rows ++ [ {| notified_user := user;
                                        title_ok := ok;
                                        message := msg |} ])%list)).

Definition report_lines (process_results : list SurveyProcessResult)
  : list ReportLine :=
  imap (fun n result =>
          {| report_num := S n;
             report_moon_name := moon_name result;
             report_ok := success result;
             report_error_name :=
               if success result then None else error_name result |})
       process_results.

(** *** tasks.py: [process_survey_input] *)

(** The local variables of the task next to the database: a rollback of
    the database does not undo an assignment. *)
Record TaskState := {
  task_db : DB;
  task_moon_name : option string;
  task_success : bool;
  task_error_name : option exn;
  task_process_results : list SurveyProcessResult;
}.

Definition set_task_db f (st : TaskState) : TaskState :=
  {| task_db := f (task_db st); task_moon_name := task_moon_name st;
     task_success := task_success st; task_error_name := task_error_name st;
     task_process_results := task_process_results st |}.
Definition set_task_moon_name (v : option string) (st : TaskState) : TaskState :=
  {| task_db := task_db st; task_moon_name := v;
     task_success := task_success st; task_error_name := task_error_name st;
     task_process_results := task_process_results st |}.
Definition set_task_outcome (ok : bool) (e : option exn) (st : TaskState)
  : TaskState :=
  {| task_db := task_db st; task_moon_name := task_moon_name st;
     task_success := ok; task_error_name := e;
     task_process_results := task_process_results st |}.
Definition append_task_result (st : TaskState) : TaskState :=
  {| task_db := task_db st; task_moon_name := task_moon_name st;
     task_success := task_success st; task_error_name := task_error_name st;
     task_process_results :=
       (task_process_results st ++
        [ {| moon_name := task_moon_name st; success := task_success st;
             error_name := task_error_name st |} ])%list |}.

Definition on_task_db {A} (m : M DB A) : M TaskState A :=
  fun st => match m (task_db st) with
            | Ok a d => Ok a (set_task_db (fun _ => d) st)
            | Raise e d => Raise e (set_task_db (fun _ => d) st)
            end.

(** [with transaction.atomic():] inside the task: the database is rolled
    back, the local variables are not. *)
Definition task_atomic {A} (m : M TaskState A) : M TaskState A :=
  fun st => match m st with
            | Ok a st' => Ok a st'
            | Raise e st' => Raise e (set_task_db (fun _ => task_db st) st')
            end.

(** Lines 107 to 116: one line of the survey. *)
Definition tasks_store_product (eve_moon : Z) (product_data : Line)
  : M DB unit :=
  let product_data := drop 1 product_data in
  type_text ← call (item product_data 2);
  eve_type ← EveType_get_or_create_esi type_text;
  amount_text ← call (item product_data 1);
  MoonProduct_create eve_moon amount_text eve_type.

(** Lines 100 to 118: the transaction. *)
Definition tasks_store_survey (survey : Survey) : M TaskState unit :=
  task_atomic (
    first ← call (item survey 0);
    name ← call (item first 0);
    modify (set_task_moon_name (Some name));;
    second ← call (item survey 1);
    moon_id ← call (item second 6);
    eve_moon ← on_task_db (EveMoon_get_or_create_esi moon_id);
    moon ← on_task_db (Moon_get_or_create eve_moon);
    on_task_db (delete_products eve_moon);;
    for_each (fun product_data =>
                on_task_db (tasks_store_product eve_moon product_data))
             (drop 1 survey);;
    on_task_db (Moon_update_income_estimate eve_moon moon)).

(** Lines 98 to 134: the body of [for survey in surveys]. *)
Definition tasks_process_survey (survey : Survey) : M TaskState unit :=
  try_except
    (tasks_store_survey survey;;
     modify (set_task_outcome true None))
    (fun ex => modify (set_task_outcome false (Some ex)));;
  modify append_task_result.

(** [if user_pk:] holds for an id that is neither [None] nor 0. *)
Definition given (user_pk : option Z) : option Z :=
  match user_pk with
  | Some pk => if bool_decide (pk = 0) then None else Some pk
  | None => None
  end.

(** Lines 136 to 164: the report to the user and the value returned. *)
Definition tasks_report (user_pk : option Z) : M TaskState bool :=
  st ← get;
  match given user_pk with
  | Some pk =>
      let process_results := task_process_results st in
      let success :=
        match process_results with
        | [] => task_success st
        | _ => task_success st && forallb success process_results
        end in
      let msg :=
        match process_results with
        | [] => processing_failed (task_error_name st)
        | _ => report (report_lines process_results)
        end in
      (if bool_decide (pk ∈ users (task_db st)) then ret tt
       else raise DoesNotExist);;
      on_task_db (notify pk success msg);;
      ret success
  | None => ret (task_success st)
  end.

Definition initial_task_state (d : DB) : TaskState :=
  {| task_db := d; task_moon_name := None; task_success := false;
     task_error_name := None; task_process_results := [] |}.

(** [process_survey_input(scans, user_pk)] *)
Definition process_survey_input (scans : string) (user_pk : option Z)
  : M DB bool :=
  fun d =>
    let task :=
      match tasks_parse scans with
      | inl ex => modify (set_task_outcome false (Some ex))
      | inr surveys =>
          modify (set_task_outcome true None);;
          for_each tasks_process_survey surveys
      end;;
      tasks_report user_pk in
    match task (initial_task_state d) with
    | Ok b st => Ok b (task_db st)
    | Raise e st => Raise e (task_db st)
    end.

(** *** managers.py: [MoonManager.update_moons_from_survey] *)

(** Lines 162 to 172: one line of the survey gives one instance. *)
Definition managers_make_product (eve_moon : Z) (product_data : Line)
  : M DB (Z * string * Z) :=
  let product_data := drop 1 product_data in
  type_text ← call (item product_data 2);
  ore_type ← EveType_get_or_create_esi type_text;
  amount_text ← call (item product_data 1);
  ret (eve_moon, amount_text, ore_type).

(** Lines 154 to 172: everything before the transaction. *)
Definition managers_prepare (user : option Z) (survey : Survey)
  : M DB (Z * MoonRow * list (Z * string * Z)) :=
  first ← call (item survey 0);
  _ ← call (item first 0);
  second ← call (item survey 1);
  moon_id ← call (item second 6);
  eve_moon ← EveMoon_get_or_create_esi moon_id;
  moon ← Moon_get_or_create eve_moon;
  let moon := {| value := value moon; products_updated_by := user;
                 products_updated_at := Some (now env) |} in
  moon_products ← map_m (managers_make_product eve_moon) (drop 1 survey);
  ret (eve_moon, moon, moon_products).

(** Lines 174 to 176: the transaction. *)
Definition managers_replace_products (eve_moon : Z)
  (moon_products : list (Z * string * Z)) : M DB unit :=
  atomic (delete_products eve_moon;;
          MoonProduct_bulk_create moon_products).

(** Lines 153 to 179: the [try] block. *)
Definition managers_store_survey (user : option Z) (survey : Survey)
  : M DB unit :=
  prepared ← managers_prepare user survey;
  managers_replace_products prepared.1.1 prepared.2;;
  Moon_update_calculated_properties prepared.1.1 prepared.1.2.

(** The value of [moon_name] when the result is appended: the first cell
    of the survey if the [try] block got that far, else the empty
    string. *)
Definition managers_moon_name (survey : Survey) : string :=
  match item survey 0 with
  | inr first => match item first 0 with inr name => name | inl _ => "" end
  | inl _ => ""
  end.

(** Lines 151 to 197: the body of [for survey in surveys]. *)
Definition managers_process_survey (user : option Z) (survey : Survey)
  : M DB SurveyProcessResult :=
  try_except
    (managers_store_survey user survey;;
     ret {| moon_name := Some (managers_moon_name survey); success := true;
            error_name := None |})
    (fun ex =>
       ret {| moon_name := Some (managers_moon_name survey); success := false;
              error_name := Some ex |}).

(** [MoonManager._process_surveys] *)
Definition _process_surveys (surveys : list Survey) (user : option Z)
  : M DB (list SurveyProcessResult * bool) :=
  process_results ← map_m (managers_process_survey user) surveys;
  ret (process_results, forallb success process_results).

(** [MoonManager._send_survey_process_report_to_user] *)
Definition _send_survey_process_report_to_user
  (process_results : option (list SurveyProcessResult))
  (error_name : option exn) (user : Z) (success_so_far : bool) : M DB bool :=
  let results := default [] process_results in
  let ok :=
    match results with
    | [] => success_so_far
    | _ => success_so_far && forallb success results
    end in
  let msg :=
    match results with
    | [] => processing_failed None
    | _ => report (report_lines results)
    end in
  notify user ok msg;;
  ret ok.

(** [MoonManager.update_moons_from_survey(scans, user)] *)
Definition update_moons_from_survey (scans : string) (user : option Z)
  : M DB bool :=
  let parsed := _parse_scans scans in
  r ← match parsed.1 with
      | [] => ret (None, false)
      | surveys =>
          r ← _process_surveys surveys user;
          ret (Some r.1, r.2)
      end;
  match user with
  | Some u => _send_survey_process_report_to_user r.1 parsed.2 u r.2
  | None => ret r.2
  end.

End Orm.

(** *** Predicates used in the statements *)

(** No product row is written. *)
Definition same_products (d d' : DB) : Prop := products d' = products d.

(** The rows that [bulk_create] stores for the instances it is given, or
    the error of the first amount that is no number. *)
Fixpoint converted (env : Env) (moon_products : list (Z * string * Z))
  : exn + list MoonProductRow :=
  match moon_products with
  | [] => inr []
  | p :: rest =>
      match to_float env p.1.2 with
      | inl e => inl e
      | inr a =>
          match converted env rest with
          | inl e => inl e
          | inr rows =>
              inr ({| product_moon := p.1.1; product_type := p.2;
                      amount := a |} :: rows)
          end
      end
  end.

(** After a survey the variable [success] of the task holds the success
    of that survey; before the first one it is [True]. *)
Definition last_agrees (st : TaskState) : Prop :=
  task_success st
  = default true (success <$> last (task_process_results st)).

(** [Moon.update_calculated_properties] never raises. *)
Definition figures_never_fail (env : Env) : Prop :=
  forall id moon rows,
    exists row, update_calculated_properties env id moon rows = inr row.

(** *** Sample data *)

Module Sample.

(** Text of digits to a number, as [int] does for such text. *)
Fixpoint digits (s : string) (acc : Z) : option Z :=
  match s with
  | EmptyString => Some acc
  | String c s' =>
      let n := Z.of_nat (nat_of_ascii c) - 48 in
      if bool_decide (0 <= n <= 9) then digits s' (10 * acc + n) else None
  end.

Definition int (s : string) : exn + Z :=
  match s with
  | EmptyString => inl ValueError
  | _ => match digits s 0 with Some z => inr z | None => inl ValueError end
  end.

(** Text such as 0.25 to a number, as [float] does for such text. *)
Definition float (s : string) : exn + Q :=
  match split (ascii_of_nat 46) s with
  | [whole] =>
      match int whole with inr z => inr (inject_Z z) | inl e => inl e end
  | [whole; fraction] =>
      match int whole, int fraction with
      | inr w, inr f =>
          inr (Qred (inject_Z w
                     + Qmake f (Pos.pow 10 (Pos.of_nat (String.length fraction)))))
      | _, _ => inl ValueError
      end
  | _ => inl ValueError
  end.

Fixpoint join (sep : ascii) (cells : list string) : string :=
  match cells with
  | [] => EmptyString
  | [cell] => cell
  | cell :: rest => cell +:+ String sep (join sep rest)
  end.

Definition header : string :=
  join TAB ["Moon"; "Moon Product"; "Quantity"; "Ore TypeID";
            "SolarSystemID"; "PlanetID"; "MoonID"].

Definition moon_line (name : string) : string := name.

Definition product_line (product quantity type_id moon_id : string) : string :=
  join TAB [""; product; quantity; type_id; "30002542"; "40161705"; moon_id].

(** A survey of a moon that the API knows, with two ores. *)
Definition good_survey : list string :=
  [ moon_line "Auga V - Moon 1";
    product_line "Cinnabar" "0.25" "45506" "40161708";
    product_line "Cubic Bistot" "0.75" "46676" "40161708" ].

(** A survey of a moon that the API does not know. *)
Definition bad_survey : list string :=
  [ moon_line "Nowhere I - Moon 1";
    product_line "Cinnabar" "1.0" "45506" "40169999" ].

Definition scans (surveys : list (list string)) : string :=
  join LF (header :: concat surveys).

(** The API knows the moon 40161708 and every type; the two methods of
    [Moon] store the sum of the amounts as the value, or raise. *)
Definition env (figures_fail : bool) : Env :=
  let figures := fun (_ : Z) (moon : MoonRow) (rows : list MoonProductRow) =>
    if figures_fail then inl ValueError
    else inr {| value := Some (Qred (foldr Qplus 0%Q (amount <$> rows)));
                products_updated_by := products_updated_by moon;
                products_updated_at := products_updated_at moon |} in
  {| to_int := int;
     to_float := float;
     esi_moon := fun id => if bool_decide (id = 40161708) then inr tt
                           else inl OSError;
     esi_type := fun _ => inr tt;
     now := 1617278400;
     update_income_estimate := figures;
     update_calculated_properties := figures |}.

(** The moon 40161708 with one product from an earlier survey, and the
    user 1001. *)
Definition old_product : MoonProductRow :=
  {| product_moon := 40161708; product_type := 45492; amount := 1 |}.

Definition db : DB :=
  {| eve_moons := {[ 40161708 ]};
     eve_types := {[ 45492 ]};
     moons := {[ 40161708 := {| value := None; products_updated_by := None;
                                products_updated_at := None |} ]};
     products := [ old_product ];
     users := {[ 1001 ]};
     notifications := [] |}.

End Sample.

End Survey.

(** ** moonmining/managers.py: [UpdateCalculatedPropertiesMixin] *)

Module Managers.

Definition MAX_THREAD_WORKERS : nat := 20.

(** The executor inside the [with] block: the primary keys that
    [executor.map] has queued, the ones that worker threads are running
    [_thread_update_obj] for, and the ones that are done. *)
Record Executor := {
  queued : list Z;
  running : list Z;
  completed : list Z;
}.

(** What can happen next: a worker thread, of which there are at most
    [max_workers], takes the next primary key from the queue, or the
    worker at some position finishes its object. *)
Inductive event : Type :=
  | worker_takes_next
  | worker_finishes (position : nat).

Definition handle (e : event) (s : Executor) : option Executor :=
  match e with
  | worker_takes_next =>
      match queued s with
      | pk :: rest =>
          if decide (length (running s) < MAX_THREAD_WORKERS)%nat
          then Some {| queued := rest; running := running s ++ [pk];
                       completed := completed s |}
          else None
      | [] => None
      end
  | worker_finishes position =>
      match running s !! position with
      | Some pk => Some {| queued := queued s;
                           running := delete position (running s);
                           completed := completed s ++ [pk] |}
      | None => None
      end
  end.

(** The executor after a sequence of events, if each can happen. *)
Fixpoint after (events : list event) (s : Executor) : option Executor :=
  match events with
  | [] => Some s
  | e :: rest => match handle e s with
                 | Some s' => after rest s'
                 | None => None
                 end
  end.

(** [executor.map(self._thread_update_obj, list(obj_pks))] submits every
    primary key at once. *)
Definition submitted (obj_pks : list Z) : Executor :=
  {| queued := obj_pks; running := []; completed := [] |}.

(** Leaving the [with] block waits until nothing is queued or running. *)
Definition shut_down (s : Executor) : bool :=
  bool_decide (queued s = [] /\ running s = []).

(** [update_calculated_properties] under a given order of events: the
    primary keys in the order in which their objects were done, if the
    events are a run of the executor to its shutdown. *)
Definition update_calculated_properties (obj_pks : list Z)
  (events : list event) : option (list Z) :=
  match after events (submitted obj_pks) with
  | Some s => if shut_down s then Some (completed s) else None
  | None => None
  end.




End Managers.

(** ** moonmining/views.py *)

Module Views.

(** *** Requests and responses *)

Record Settings := {
  MOONMINING_EXTRACTIONS_HOURS_UNTIL_STALE : Z;
}.

(** A request: who asks, with which permissions, and the time that
    [now()] gives while it is served, in microseconds. *)
Record Request := {
  is_authenticated : bool;
  permissions : list string;
  now : Z;
}.

Definition has_perm (request : Request) (perm : string) : bool :=
  bool_decide (perm ∈ permissions request).

Inductive Response (A : Type) : Type :=
  | redirect_to_login
  | JsonResponse (data : A)
  | HttpResponseNotFound
  | HttpResponseUnauthorized
  | render (template : string) (context : A).
Arguments redirect_to_login {A}.
Arguments JsonResponse {A} data.
Arguments HttpResponseNotFound {A}.
Arguments HttpResponseUnauthorized {A}.
Arguments render {A} template context.

(** [@login_required]: an anonymous user is sent to the login page. *)
Definition login_required {A} (view : Request -> exn + Response A)
  (request : Request) : exn + Response A :=
  if is_authenticated request then view request else inr redirect_to_login.

(** [@permission_required(perms)]: so is a user who lacks one of the
    permissions. *)
Definition permission_required {A} (perms : list string)
  (view : Request -> exn + Response A) (request : Request)
  : exn + Response A :=
  if forallb (has_perm request) perms then view request
  else inr redirect_to_login.

(** [for x in l: data.append(f(x))], where [f] may raise. *)
Fixpoint collect {A B} (f : A -> exn + B) (l : list A) : exn + list B :=
  match l with
  | [] => inr []
  | x :: l' =>
      match f x with
      | inl e => inl e
      | inr y => match collect f l' with
                 | inl e => inl e
                 | inr ys => inr (y :: ys)
                 end
      end
  end.

(** *** Rows as the queries of the views return them, with the related
    rows that [select_related] joins *)

Record OwnerRow := {
  owner_name : string;
  alliance_name : string;
}.

Record MoonRef := {
  moon_pk : Z;
  moon_str : string;
}.

Record RefineryRow := {
  refinery_pk : Z;
  refinery_moon : option MoonRef;
  refinery_owner : OwnerRow;
}.

Record ExtractionProductRow := {
  product_ore_type : string;
  product_group_id : Z;
  product_volume : Q;
  product_value : option Q;       (* what [calc_value()] gives *)
}.

Record ExtractionRow := {
  extraction_pk : Z;
  refinery : RefineryRow;
  ready_time : Z;
  auto_time : Z;
  extraction_value : option Q;
  is_jackpot : option bool;
  products : list ExtractionProductRow;
}.

Record MoonProductRow := {
  ore_type : string;
  ore_group_id : Z;
  amount : Q;
  value_of_product : option Q;    (* what [calc_value()] gives *)
}.

Record MoonRow := {
  pk : Z;
  name : string;
  region_name : string;
  rarity_class : Z;
  value : option Q;
  moon_refinery : option RefineryRow;
  moon_products : list MoonProductRow;
}.

(** *** [extractions_data] *)

(** One element of the JSON list.  The HTML cells are kept as the data
    they show: the jackpot label as a flag, the details button as the
    primary key of the moon it links to. *)
Record ExtractionData := {
  data_id : Z;
  data_ready_time : Z;
  data_jackpot_label : bool;
  data_moon : string;
  data_corporation_name : string;
  data_alliance_name : string;
  data_volume : option Q;
  data_value : option Q;
  data_details : Z;
  data_is_ready : bool;
}.

(** [Sum("products__volume")]: [None] for no product. *)
Definition Sum (volumes : list Q) : option Q :=
  match volumes with
  | [] => None
  | _ => Some (foldl Qplus 0%Q volumes)
  end.

Definition truthy_value (v : option Q) : option Q :=
  match v with
  | Some q => if Qeq_bool q 0%Q then None else Some q
  | None => None
  end.

(** [moon_details_button_html(moon)] reads [moon.pk]. *)
Definition moon_details_button_html (moon : option MoonRef) : exn + Z :=
  match moon with
  | Some m => inr (moon_pk m)
  | None => inl AttributeError
  end.

(** Lines 107 to 134: the element for one extraction. *)
Definition extraction_data (request : Request) (extraction : ExtractionRow)
  : exn + ExtractionData :=
  match moon_details_button_html (refinery_moon (refinery extraction)) with
  | inl e => inl e
  | inr details =>
      inr {| data_id := extraction_pk extraction;
             data_ready_time := ready_time extraction;
             data_jackpot_label := default false (is_jackpot extraction);
             data_moon := match refinery_moon (refinery extraction) with
                          | Some m => moon_str m
                          | None => "None"
                          end;
             data_corporation_name :=
               owner_name (refinery_owner (refinery extraction));
             data_alliance_name :=
               alliance_name (refinery_owner (refinery extraction));
             data_volume := Sum (product_volume <$> products extraction);
             data_value := truthy_value (extraction_value extraction);
             data_details := details;
             data_is_ready := bool_decide (ready_time extraction <= now request)
          |}
  end.

(** [dt.timedelta(hours=h)] in microseconds. *)
Definition timedelta_hours (h : Z) : Z := h * 3600 * 1000000.

(** Lines 91 to 135, below the decorators. *)
Definition extractions_data_view (settings : Settings)
  (all_extractions : list ExtractionRow) (category : string)
  (request : Request) : exn + Response (list ExtractionData) :=
  let cutover_dt :=
    now request
    - timedelta_hours (MOONMINING_EXTRACTIONS_HOURS_UNTIL_STALE settings) in
  let extractions :=
    if bool_decide (category = "past") then
      filter (fun e => ready_time e < cutover_dt) all_extractions
    else if bool_decide (category = "upcoming") then
      filter (fun e => cutover_dt <= ready_time e) all_extractions
    else [] in
  match collect (extraction_data request) extractions with
  | inl e => inl e
  | inr data => inr (JsonResponse data)
  end.

(** Lines 89 to 91: the view with its decorators. *)
Definition extractions_data (settings : Settings)
  (all_extractions : list ExtractionRow) (category : string)
  : Request -> exn + Response (list ExtractionData) :=
  login_required
    (permission_required
       ["moonmining.extractions_access"; "moonmining.basic_access"]
       (extractions_data_view settings all_extractions category)).

(** *** [moon_details] *)

Definition default_if_none {A} (value : option A) (default : A) : A :=
  match value with
  | None => default
  | Some v => v
  end.

(** [queryset.order_by("-key")] for a key that is an integer; rows with
    equal keys stay in the order of the table. *)
Fixpoint insert_desc {A} (key : A -> Z) (x : A) (l : list A) : list A :=
  match l with
  | [] => [x]
  | y :: l' => if (key y <=? key x)%Z then x :: y :: l'
               else y :: insert_desc key x l'
  end.
Definition order_by_desc {A} (key : A -> Z) (l : list A) : list A :=
  foldr (insert_desc key) [] l.

(** [queryset.first()] of a query without an order: the row with the
    least primary key. *)
Definition first (l : list ExtractionRow) : option ExtractionRow :=
  foldr (fun e best =>
           match best with
           | Some b => if (extraction_pk e <=? extraction_pk b)%Z
                       then Some e else Some b
           | None => Some e
           end) None l.

(** [int(round(x))]: to the nearest integer, a tie to the even one. *)
Definition round (x : Q) : Z :=
  let lower := Qfloor x in
  let rest := (x - inject_Z lower)%Q in
  match Qcompare rest (1 # 2) with
  | Lt => lower
  | Gt => lower + 1
  | Eq => if Z.even lower then lower else lower + 1
  end.

Record ProductData := {
  shown_ore_type : string;
  shown_amount : Z;
  shown_value : option Q;
}.

Record PullProductData := {
  pull_ore_type : string;
  pull_volume : Q;
  pull_value : option Q;
}.

Record NextPullData := {
  pull_ready_time : Z;
  pull_auto_time : Z;
  total_value : Q;
  total_volume : Q;
  pull_products : list PullProductData;
}.

Record MoonDetailsContext := {
  context_moon : MoonRow;
  product_rows : list ProductData;
  next_pull : option NextPullData;
  ppulls : option (list ExtractionRow);
}.

(** Lines 150 to 213: the context of the page. *)
Definition moon_details_context (all_extractions : list ExtractionRow)
  (request : Request) (moon : MoonRow) : MoonDetailsContext :=
  let product_rows :=
    (fun product =>
       {| shown_ore_type := ore_type product;
          shown_amount := round (amount product * 100);
          shown_value := value_of_product product |})
    <$> order_by_desc ore_group_id (moon_products moon) in
  let pulls :=
    match moon_refinery moon with
    | Some r =>
        let of_refinery :=
          filter (fun e => refinery_pk (refinery e) = refinery_pk r)
                 all_extractions in
        match first (filter (fun e => now request <= ready_time e)
                            of_refinery) with
        | Some next_pull =>
            let shown := order_by_desc product_group_id (products next_pull) in
            (Some {| pull_ready_time := ready_time next_pull;
                     pull_auto_time := auto_time next_pull;
                     total_value :=
                       foldl (fun acc product =>
                                acc + default_if_none (product_value product) 0)%Q
                             0%Q shown;
                     total_volume :=
                       foldl (fun acc product => acc + product_volume product)%Q
                             0%Q shown;
                     pull_products :=
                       (fun product =>
                          {| pull_ore_type := product_ore_type product;
                             pull_volume := product_volume product;
                             pull_value := product_value product |})
                       <$> shown |},
             Some (filter (fun e => ready_time e < now request) of_refinery))
        | None => (None, None)
        end
    | None => (None, None)
    end in
  {| context_moon := moon; product_rows := product_rows;
     next_pull := pulls.1; ppulls := pulls.2 |}.

(** Lines 140 to 213, below the decorators:
    [Moon.objects.select_related("eve_moon").get(pk=moon_pk)] raises
    [Moon.DoesNotExist] when the table has no such row. *)
Definition moon_details_view (all_moons : list MoonRow)
  (all_extractions : list ExtractionRow) (moon_pk : Z) (request : Request)
  : exn + Response MoonDetailsContext :=
  match filter (fun m => pk m = moon_pk) all_moons with
  | [] => inr HttpResponseNotFound
  | moon :: _ =>
      if negb (has_perm request "moonmining.view_all_moons")
         && negb (has_perm request "moonmining.extractions_access")
      then inr HttpResponseUnauthorized
      else inr (render "moonmining/moon_details.html"
                  (moon_details_context all_extractions request moon))
  end.

(** Lines 138 to 140: the view with its decorators. *)
Definition moon_details (all_moons : list MoonRow)
  (all_extractions : list ExtractionRow) (moon_pk : Z)
  : Request -> exn + Response MoonDetailsContext :=
  login_required
    (permission_required ["moonmining.basic_access"]
       (moon_details_view all_moons all_extractions moon_pk)).

(** *** [report_owned_value_data] *)

(** [queryset.order_by("eve_moon__name")]; rows with equal names stay in
    the order of the table. *)
Fixpoint insert_by_name (x : MoonRow) (l : list MoonRow) : list MoonRow :=
  match l with
  | [] => [x]
  | y :: l' => if String.leb (name x) (name y) then x :: y :: l'
               else y :: insert_by_name x l'
  end.
Definition order_by_name (l : list MoonRow) : list MoonRow :=
  foldr insert_by_name [] l.

(** [queryset.filter(value__isnull=False).order_by("-value")] *)
Fixpoint insert_by_value (x : MoonRow) (l : list MoonRow) : list MoonRow :=
  match l with
  | [] => [x]
  | y :: l' =>
      if Qle_bool (default_if_none (value y) 0%Q) (default_if_none (value x) 0%Q)
      then x :: y :: l'
      else y :: insert_by_value x l'
  end.
Definition order_by_value_desc (l : list MoonRow) : list MoonRow :=
  foldr insert_by_value [] l.

(** An entry of the dictionary [corporation_moons]. *)
Record CorporationMoons := {
  moons : list MoonRow;
  total : Q;
}.

(** Lines 381 to 383: [corporation_moons] is a [defaultdict]; a dictionary
    keeps its keys in the order in which they were first set. *)
Fixpoint add_moon (corporation_name : string) (moon : MoonRow)
  (corporation_moons : list (string * CorporationMoons))
  : list (string * CorporationMoons) :=
  match corporation_moons with
  | [] =>
      [ (corporation_name,
         {| moons := [moon];
            total := (0 + default_if_none (value moon) 0)%Q |}) ]
  | (key, details) :: rest =>
      if bool_decide (key = corporation_name) then
        (key, {| moons := (moons details ++ [moon])%list;
                 total := (total details + default_if_none (value moon) 0)%Q |})
        :: rest
      else (key, details) :: add_moon corporation_name moon rest
  end.

(** [a / b] *)
Definition truediv (a b : Q) : exn + Q :=
  if Qeq_bool b 0%Q then inl ZeroDivisionError else inr (a / b)%Q.

(** [len(l)] positions before the first element equal to [x]. *)
Fixpoint rank_of (x : Z) (l : list Z) : option nat :=
  match l with
  | [] => None
  | y :: l' => if bool_decide (y = x) then Some 0%nat else S <$> rank_of x l'
  end.

Record ReportData := {
  report_corporation : string * nat;      (* the name and the number of moons *)
  report_moon : string;
  report_sort : nat;
  report_region : option string;
  report_value : option Q;
  report_rank : option nat;
  report_total : option Q;
  is_total : bool;
  grand_total_percent : option Q;
}.

(** Lines 401 to 405 *)
Definition percent_of (grand_total : Q) (moon : MoonRow)
  : exn + option Q :=
  if Qlt_le_dec 0 grand_total then
    match truediv (default_if_none (value moon) 0%Q) grand_total with
    | inl e => inl e
    | inr share => inr (Some (share * 100)%Q)
    end
  else inr None.

(** Lines 400 to 420: the row of one moon. *)
Definition moon_data (grand_total : Q) (moon_ranks : list Z)
  (corporation : string * nat) (counter : nat) (moon : MoonRow)
  : exn + ReportData :=
  match percent_of grand_total moon with
  | inl e => inl e
  | inr percent =>
      inr {| report_corporation := corporation;
             report_moon := name moon;
             report_sort := counter;
             report_region := Some (region_name moon);
             report_value := value moon;
             report_rank := (fun rank => S rank) <$> rank_of (pk moon) moon_ranks;
             report_total := None;
             is_total := false;
             grand_total_percent := percent |}
  end.

Fixpoint moons_data (grand_total : Q) (moon_ranks : list Z)
  (corporation : string * nat) (counter : nat) (l : list MoonRow)
  : exn + list ReportData :=
  match l with
  | [] => inr []
  | moon :: l' =>
      match moon_data grand_total moon_ranks corporation counter moon with
      | inl e => inl e
      | inr row =>
          match moons_data grand_total moon_ranks corporation (S counter) l' with
          | inl e => inl e
          | inr rows => inr (row :: rows)
          end
      end
  end.

(** Lines 397 to 433: the rows of one corporation, its total last. *)
Definition corporation_data (grand_total : Q) (moon_ranks : list Z)
  (entry : string * CorporationMoons) : exn + list ReportData :=
  let corporation := (entry.1, length (moons entry.2)) in
  match moons_data grand_total moon_ranks corporation 0 (moons entry.2) with
  | inl e => inl e
  | inr rows =>
      inr (rows ++
           [ {| report_corporation := corporation;
                report_moon := "TOTAL";
                report_sort := length (moons entry.2);
                report_region := None;
                report_value := None;
                report_rank := None;
                report_total := Some (total entry.2);
                is_total := true;
                grand_total_percent := None |} ])%list
  end.

(** [moon.refinery.owner.name] *)
Definition corporation_name_of (moon : MoonRow) : exn + string :=
  match moon_refinery moon with
  | Some r => inr (owner_name (refinery_owner r))
  | None => inl AttributeError
  end.

(** Lines 379 to 383 *)
Fixpoint group_by_corporation (l : list MoonRow)
  (corporation_moons : list (string * CorporationMoons))
  : exn + list (string * CorporationMoons) :=
  match l with
  | [] => inr corporation_moons
  | moon :: l' =>
      match corporation_name_of moon with
      | inl e => inl e
      | inr corporation_name =>
          group_by_corporation l' (add_moon corporation_name moon corporation_moons)
      end
  end.

Definition owned (all_moons : list MoonRow) : list MoonRow :=
  filter (fun m => is_Some (moon_refinery m)) all_moons.

(** [sum([corporation["total"] for corporation in ...])] *)
Definition grand_total_of (corporation_moons : list (string * CorporationMoons))
  : Q :=
  foldl Qplus 0%Q ((fun entry => total entry.2) <$> corporation_moons).

(** Lines 369 to 434, below the decorators. *)
Definition report_owned_value_data_view (all_moons : list MoonRow)
  (request : Request) : exn + Response (list ReportData) :=
  let moon_query := owned all_moons in
  match group_by_corporation (order_by_name moon_query) [] with
  | inl e => inl e
  | inr corporation_moons =>
      let moon_ranks :=
        pk <$> order_by_value_desc
                 (filter (fun m => is_Some (value m)) moon_query) in
      let grand_total := grand_total_of corporation_moons in
      match collect (corporation_data grand_total moon_ranks)
              corporation_moons with
      | inl e => inl e
      | inr data => inr (JsonResponse (concat data))
      end
  end.

(** Lines 367 to 369: the view with its decorators. *)
Definition report_owned_value_data (all_moons : list MoonRow)
  : Request -> exn + Response (list ReportData) :=
  login_required
    (permission_required
       ["moonmining.basic_access"; "moonmining.reports_access"]
       (report_owned_value_data_view all_moons)).

(** *** Predicates used in the statements *)




(** What lines 401 to 405 give for a moon with the value [v]. *)
Definition expected_percent (grand_total : Q) (v : option Q) : option Q :=
  if Qlt_le_dec 0 grand_total
  then Some (default_if_none v 0 / grand_total * 100)%Q
  else None.


(** *** Sample data *)

Module Sample.

Definition settings : Settings :=
  {| MOONMINING_EXTRACTIONS_HOURS_UNTIL_STALE := 12 |}.

(** A member with every permission of the app, at a time of 100 hours. *)
Definition member : Request :=
  {| is_authenticated := true;
     permissions := [ "moonmining.basic_access";
                      "moonmining.extractions_access";
                      "moonmining.reports_access";
                      "moonmining.view_all_moons" ];
     now := timedelta_hours 100 |}.


Definition owner : OwnerRow :=
  {| owner_name := "Wayne Technologies"; alliance_name := "Wayne Enterprises" |}.

Definition athanor : RefineryRow :=
  {| refinery_pk := 1000000000001;
     refinery_moon := Some {| moon_pk := 40161708;
                              moon_str := "Auga V - Moon 1" |};
     refinery_owner := owner |}.

Definition extraction (id hours : Z) : ExtractionRow :=
  {| extraction_pk := id; refinery := athanor;
     ready_time := timedelta_hours hours;
     auto_time := timedelta_hours (hours + 3);
     extraction_value := None; is_jackpot := None; products := [] |}.

(** An extraction of a refinery for which no moon was found. *)
Definition extraction_without_moon : ExtractionRow :=
  {| extraction_pk := 4;
     refinery := {| refinery_pk := 1000000000002; refinery_moon := None;
                    refinery_owner := owner |};
     ready_time := timedelta_hours 105;
     auto_time := timedelta_hours 108;
     extraction_value := None; is_jackpot := None; products := [] |}.

(** Ready 20 hours ago, 12 hours ago and in 5 hours. *)
Definition extractions : list ExtractionRow :=
  [ extraction 1 80; extraction 2 88; extraction 3 105 ].

Definition moon (id : Z) (moon_name : string) (moon_value : option Q)
  (r : option RefineryRow) : MoonRow :=
  {| pk := id; name := moon_name; region_name := "Heimatar";
     rarity_class := 0; value := moon_value; moon_refinery := r;
     moon_products := [] |}.

(** Two moons with a refinery, one of them without a value, and a moon
    without a refinery. *)
Definition moons : list MoonRow :=
  [ moon 40161708 "Auga V - Moon 1" (Some (3 # 1)%Q) (Some athanor);
    moon 40161709 "Auga V - Moon 2" None (Some athanor);
    moon 40131695 "Helgatild IX - Moon 12" (Some (5 # 1)%Q) None ].


End Sample.

End Views.

(** ** moonmining/views.py: [moons_data] *)

Module MoonViews.
Import Views.

(** A moon as the query of [moons_data] returns it: the row with its
    refinery, the name of its solar system and the primary key of the
    user who uploaded its products. *)
Record MoonEntry := {
  moon : MoonRow;
  solar_system_name : string;
  products_updated_by : option Z;
}.

(** One element of the JSON list.  The HTML cells are kept as the data
    they show: the details button as the primary key of the moon it links
    to, [None] for the empty string. *)
Record MoonData := {
  moon_id : Z;
  moon_name : string;
  moon_corporation_name : string;
  moon_alliance_name : string;
  moon_solar_system_name : string;
  moon_region_name : string;
  moon_value : option Q;
  moon_rarity_class : Z;
  rarity_class_label : string;
  details : option Z;
  has_refinery : bool;
}.

Section MoonsData.

(** [OreRarityClass(value).label] of models.py. *)
Variable OreRarityClass_label : Z -> exn + string.

(** The primary key of [request.user]. *)
Variable user : Z.

(** Lines 284 to 323: the element for one moon. *)
Definition moon_data (request : Request) (entry : MoonEntry)
  : exn + MoonData :=
  let has_refinery := bool_decide (is_Some (moon_refinery (moon entry))) in
  let names :=
    match moon_refinery (moon entry) with
    | Some r => (owner_name (refinery_owner r),
                 alliance_name (refinery_owner r))
    | None => ("", "")
    end in
  let has_details_access :=
    match moon_refinery (moon entry) with
    | Some _ => has_perm request "moonmining.extractions_access"
                || has_perm request "moonmining.view_all_moons"
    | None => has_perm request "moonmining.view_all_moons"
    end in
  let details_html :=
    if has_details_access then Some (pk (moon entry)) else None in
  match OreRarityClass_label (rarity_class (moon entry)) with
  | inl e => inl e
  | inr label =>
      inr {| moon_id := pk (moon entry);
             moon_name := name (moon entry);
             moon_corporation_name := names.1;
             moon_alliance_name := names.2;
             moon_solar_system_name := solar_system_name entry;
             moon_region_name := region_name (moon entry);
             moon_value := value (moon entry);
             moon_rarity_class := rarity_class (moon entry);
             rarity_class_label := label;
             details := details_html;
             has_refinery := has_refinery |}
  end.

(** Lines 257 to 324, below the decorators. *)
Definition moons_data_view (all_moons : list MoonEntry) (category : string)
  (request : Request) : exn + Response (list MoonData) :=
  let listed (moon_query : list MoonEntry) :=
    match collect (moon_data request) moon_query with
    | inl e => inl e
    | inr data => inr (JsonResponse data)
    end in
  if bool_decide (category = "all_moons")
     && has_perm request "moonmining.view_all_moons"
  then listed all_moons
  else if bool_decide (category = "our_moons")
          && has_perm request "moonmining.extractions_access"
  then listed (filter (fun e => is_Some (moon_refinery (moon e))) all_moons)
  else if bool_decide (category = "uploads")
          && has_perm request "moonmining.upload_moon_scan"
  then listed (filter (fun e => products_updated_by e = Some user) all_moons)
  else inr (JsonResponse []).

(** Lines 255 to 257: the view with its decorators. *)
Definition moons_data (all_moons : list MoonEntry) (category : string)
  : Request -> exn + Response (list MoonData) :=
  login_required
    (permission_required ["moonmining.basic_access"]
       (moons_data_view all_moons category)).

End MoonsData.

(** *** Predicates used in the statements *)

(** What lets a user see a moon in a category of the list. *)
Definition permitted (user : Z) (category : string) (request : Request)
  (entry : MoonEntry) : Prop :=
  (category = "all_moons"
   /\ has_perm request "moonmining.view_all_moons" = true)
  \/ (category = "our_moons"
      /\ has_perm request "moonmining.extractions_access" = true
      /\ is_Some (moon_refinery (moon entry)))
  \/ (category = "uploads"
      /\ has_perm request "moonmining.upload_moon_scan" = true
      /\ products_updated_by entry = Some user).

(** *** Sample data *)

Module Sample.

Definition label (rarity : Z) : exn + string :=
  if bool_decide (rarity = 0) then inr "(none)"
  else if bool_decide (rarity = 4) then inr "R4"
  else inl ValueError.

(** The moons of [Views.Sample.moons]; the first was uploaded by user
    1001. *)
Definition moons : list MoonEntry :=
  [ {| moon := Views.Sample.moon 40161708 "Auga V - Moon 1" (Some (3 # 1)%Q)
                 (Some Views.Sample.athanor);
       solar_system_name := "Auga"; products_updated_by := Some 1001 |};
    {| moon := Views.Sample.moon 40131695 "Helgatild IX - Moon 12"
                 (Some (5 # 1)%Q) None;
       solar_system_name := "Helgatild"; products_updated_by := None |} ].

(** A user who may see the extractions but not all moons. *)
Definition miner : Request :=
  {| is_authenticated := true;
     permissions := [ "moonmining.basic_access";
                      "moonmining.extractions_access" ];
     now := timedelta_hours 100 |}.

End Sample.

End MoonViews.

(** ** moonmining/views.py: further predicates on the answers *)

Module ViewsSpec.
Import Views.

Definition sumQ (l : list Q) : Q := foldr Qplus 0%Q l.


(** The name of the corporation that owns the refinery of a moon. *)
Definition owner_of (moon : MoonRow) : string :=
  match moon_refinery moon with
  | Some r => owner_name (refinery_owner r)
  | None => ""
  end.


(** The dictionary [corporation_moons] after the moons [l]: one key for
    each corporation, holding its moons in the order of [l]. *)
Definition grouped (l : list MoonRow)
  (corporation_moons : list (string * CorporationMoons)) : Prop :=
  NoDup corporation_moons.*1
  /\ Forall (fun entry =>
               moons entry.2 = filter (fun m => owner_of m = entry.1) l)
            corporation_moons
  /\ concat ((fun entry => moons entry.2) <$> corporation_moons) ≡ₚ l.

(** The row that the report shows for a moon. *)
Definition shows (moon_ranks : list Z) (corporation : string * nat)
  (moon : MoonRow) (row : ReportData) : Prop :=
  report_corporation row = corporation
  /\ report_moon row = name moon
  /\ report_value row = value moon
  /\ report_rank row = S <$> rank_of (pk moon) moon_ranks
  /\ is_total row = false.

(** [a] does not come below [b] in the order of the ranks: its value is
    not smaller. *)
Definition not_below (a b : MoonRow) : Prop :=
  (default_if_none (value b) 0 <= default_if_none (value a) 0)%Q.

(** The extraction belongs to the refinery of the moon. *)
Definition of_moon (moon : MoonRow) (extraction : ExtractionRow) : Prop :=
  exists r, moon_refinery moon = Some r
            /\ refinery_pk (refinery extraction) = refinery_pk r.

(** *** Sample data *)

Module Sample.

(** Three moons of one corporation with the values 3, 5 and none. *)
Definition ranked_moons : list MoonRow :=
  [ Views.Sample.moon 40161708 "Auga V - Moon 1" (Some (3 # 1)%Q)
      (Some Views.Sample.athanor);
    Views.Sample.moon 40161709 "Auga V - Moon 2" (Some (5 # 1)%Q)
      (Some Views.Sample.athanor);
    Views.Sample.moon 40161710 "Auga V - Moon 3" None
      (Some Views.Sample.athanor) ].

End Sample.

End ViewsSpec.

(** ** Moon surveys: further predicates *)

Module SurveySpec.
Import Survey.

(** The line starts a survey: its first cell is not empty. *)
Definition starts_survey (line : Line) : bool :=
  match line with
  | cell :: _ => negb (bool_decide (cell = ""))
  | [] => false
  end.

(** The lines before the next one that starts a survey. *)
Fixpoint products_after (lines : list Line) : list Line :=
  match lines with
  | [] => []
  | line :: rest =>
      if starts_survey line then [] else line :: products_after rest
  end.

(** The grouping that the parser is after: each line that starts a survey
    together with the lines that follow it, up to the next such line. *)
Fixpoint groups (lines : list Line) : list Survey :=
  match lines with
  | [] => []
  | line :: rest =>
      if starts_survey line then (line :: products_after rest) :: groups rest
      else groups rest
  end.

(** The positions of the lines of [rest] that start a survey, counted
    from [offset]. *)
Fixpoint positions (offset : nat) (rest : list Line) : list nat :=
  match rest with
  | [] => []
  | line :: rest' =>
      if starts_survey line then offset :: positions (S offset) rest'
      else positions (S offset) rest'
  end.

(** The moon that a survey names: the seventh cell of its second line,
    read as a number. *)
Definition named_moon (env : Env) (survey : Survey) : option Z :=
  match item survey 1 with
  | inr second =>
      match item second 6 with
      | inr cell => match to_int env cell with
                    | inr id => Some id
                    | inl _ => None
                    end
      | inl _ => None
      end
  | inl _ => None
  end.

(** No notification is written, and no user. *)
Definition same_notifications (d d' : DB) : Prop :=
  notifications d' = notifications d /\ users d' = users d.

Definition task_same_notifications (st st' : TaskState) : Prop :=
  same_notifications (task_db st) (task_db st').

(** The products of the moon are left as they are. *)
Definition same_products_of (moon : Z) (d d' : DB) : Prop :=
  products_of moon (products d') = products_of moon (products d).

Definition task_same_products_of (moon : Z) (st st' : TaskState) : Prop :=
  same_products_of moon (task_db st) (task_db st').

End SurveySpec.

(** ** moonplanner/tasks.py: further predicates on the database *)

Module PlannerSpec.
Import Planner.

(** The loop has written nothing and its dictionary has no integer key. *)
Definition loop_untouched (st st' : LoopState) : Prop :=
  no_int_key st -> no_int_key st' /\ db st' = db st.

(** No extraction row is written. *)
Definition same_extractions (d d' : DB) : Prop :=
  extractions d' = extractions d.

(** No two extractions have the same refinery and the same ready time. *)
Definition unique_extractions (d : DB) : Prop :=
  forall k1 k2 r1 r2,
    extractions d !! k1 = Some r1 -> extractions d !! k2 = Some r2 ->
    ext_refinery r1 = ext_refinery r2 ->
    ext_ready_time r1 = ext_ready_time r2 ->
    k1 = k2.

Definition keeps_unique (d d' : DB) : Prop :=
  unique_extractions d -> unique_extractions d'.

Definition loop_keeps_unique (st st' : LoopState) : Prop :=
  keeps_unique (db st) (db st').

(** Every refinery that is stored stays stored. *)
Definition refineries_stay (d d' : DB) : Prop :=
  dom (refineries d) ⊆ dom (refineries d').

Definition loop_refineries_stay (st st' : LoopState) : Prop :=
  refineries_stay (db st) (db st').

(** The same refineries are stored, whatever their rows. *)
Definition same_refinery_ids (d d' : DB) : Prop :=
  dom (refineries d') = dom (refineries d).

Definition loop_same_refinery_ids (st st' : LoopState) : Prop :=
  same_refinery_ids (db st) (db st').

(** The database has an extraction of the refinery with the ready
    time. *)
Definition has_extraction (d : DB) (refinery ready_time : Z) : Prop :=
  exists pk row,
    extractions d !! pk = Some row
    /\ ext_refinery row = refinery /\ ext_ready_time row = ready_time.

(** A notification that an extraction has started at a refinery. *)
Definition started_at (n : Notification) (structure_id ready_time : Z)
  : Prop :=
  type n = "MoonminingExtractionStarted"
  /\ exists parsed_text,
       text n = inr parsed_text
       /\ structureID parsed_text = Some structure_id
       /\ readyTime parsed_text = Some ready_time.

(** The group of a type as the task gets it: from the stored row, and
    from the API when no row is stored. *)
Definition group_of (env : Env) (d : DB) (id : Z) : exn + Z :=
  match eve_types d !! id with
  | Some row => inr (eve_group_id row)
  | None => esi_type env id
  end.

(** The task gets the same group for every type. *)
Definition same_groups (env : Env) (d d' : DB) : Prop :=
  forall id, group_of env d' id = group_of env d id.

(** The structure is of a type of the refinery group. *)
Definition is_refinery (env : Env) (d : DB) (s : Structure) : Prop :=
  group_of env d (type_id s) = inr (EVE_GROUP_ID_REFINERY env).

(** The refinery is stored as the API describes the structure, for the
    corporation. *)
Definition stored_as (info : StructureInfo) (corporation : Z) (d : DB)
  (id : Z) : Prop :=
  exists row,
    refineries d !! id = Some row
    /\ ref_name row = info_name info
    /\ ref_eve_type row = info_type_id info
    /\ ref_corporation row = corporation.

(** Every refinery is still stored, with its name, type and
    corporation. *)
Definition fields_kept (d d' : DB) : Prop :=
  forall id row,
    refineries d !! id = Some row ->
    exists row',
      refineries d' !! id = Some row'
      /\ ref_name row' = ref_name row
      /\ ref_eve_type row' = ref_eve_type row
      /\ ref_corporation row' = ref_corporation row.

Definition loop_fields_kept (st st' : LoopState) : Prop :=
  fields_kept (db st) (db st').

(** The refinery with the moon of a notification. *)
Definition with_moon (r : RefineryRow) (moon : Z) : RefineryRow :=
  {| ref_name := ref_name r; ref_eve_type := ref_eve_type r;
     ref_moon := Some moon; ref_corporation := ref_corporation r |}.

(** A refinery that is stored as the API describes it stays so. *)
Definition stays_stored (info : StructureInfo) (corporation id : Z)
  (d d' : DB) : Prop :=
  stored_as info corporation d id -> stored_as info corporation d' id.

(** The only refineries added are among [ids]. *)
Definition adds_only (ids : Z -> Prop) (d d' : DB) : Prop :=
  forall id, is_Some (refineries d' !! id) ->
             is_Some (refineries d !! id) \/ ids id.

(** The extraction with the key [k] is the only one of the refinery with
    the ready time. *)
Definition only_extraction (d : DB) (refinery ready_time k : Z) : Prop :=
  exists row,
    extractions d !! k = Some row
    /\ ext_refinery row = refinery /\ ext_ready_time row = ready_time
    /\ forall k' row',
         extractions d !! k' = Some row' ->
         ext_refinery row' = refinery -> ext_ready_time row' = ready_time ->
         k' = k.

(** The type is stored with its materials. *)
Definition has_materials (d : DB) (id : Z) : Prop :=
  exists row, eve_types d !! id = Some row /\ type_materials row = true.

(** Nothing is lost of what a second run of the loop looks up. *)
Definition grows (d d' : DB) : Prop :=
  eve_moons d ⊆ eve_moons d'
  /\ moons d ⊆ moons d'
  /\ (forall id, has_materials d id -> has_materials d' id)
  /\ (forall key, is_Some (extraction_products d !! key) ->
                  is_Some (extraction_products d' !! key))
  /\ (forall r t k, only_extraction d r t k -> only_extraction d' r t k).

Definition loop_grows (st st' : LoopState) : Prop :=
  no_int_key st -> no_int_key st' /\ grows (db st) (db st').

(** The database has what the loop stores for the notification: for a
    started extraction at a stored refinery the one extraction with its
    ready time, and for every ore the type with its materials and the
    product. *)
Definition settled (d : DB) (n : Notification) : Prop :=
  exists p,
    text n = inr p
    /\ (type n ∈ extraction_types ->
        exists sid,
          structureID p = Some sid
          /\ (type n = "MoonminingExtractionStarted" ->
              is_Some (refineries d !! sid) ->
              exists ready_time auto_time ores k,
                readyTime p = Some ready_time
                /\ autoTime p = Some auto_time
                /\ oreVolumeByType p = Some ores
                /\ only_extraction d sid (ldap_time_2_datetime ready_time) k
                /\ Forall (fun item : Z * Q =>
                             has_materials d item.1
                             /\ is_Some (extraction_products d !! (k, item.1)))
                          ores)).

(** The refinery of the notification has the moon of the notification,
    and the moon is stored. *)
Definition moon_settled (d : DB) (n : Notification) : Prop :=
  forall p sid r,
    text n = inr p -> structureID p = Some sid ->
    refineries d !! sid = Some r ->
    exists mid,
      moonID p = Some mid
      /\ mid ∈ eve_moons d /\ mid ∈ moons d /\ ref_moon r = Some mid.

(** A step of a second run: the database is as before, and the flag is
    set if it was or if the notification matched a stored refinery. *)
Definition rerun_step (matched : bool) (st st' : LoopState) : Prop :=
  db st' = db st
  /\ no_int_key st'
  /\ moon_updated st' = moon_updated st || matched.

End PlannerSpec.

(** * Verification *)

(** ** The monad *)

Lemma for_each_app {S A} (f : A -> M S unit) (l1 l2 : list A) (s : S) :
  for_each f (l1 ++ l2) s =
  match for_each f l1 s with
  | Ok _ s' => for_each f l2 s'
  | Raise e s' => Raise e s'
  end.
Proof.
  revert s; induction l1 as [|x l1 IH]; intros s; simpl; [reflexivity|].
  unfold bind. destruct (f x s); [apply IH | reflexivity].
Qed.

Section Keeps.
Context {S : Type} (R : S -> S -> Prop) `{!PreOrder R}.

Lemma keeps_ret {A} (a : A) : keeps R (ret a).
Proof. split; intros s; simpl; reflexivity. Qed.

Lemma keeps_raise {A} (e : exn) : keeps R (@raise S A e).
Proof. split; intros s; simpl; reflexivity. Qed.

Lemma keeps_call {A} (r : exn + A) : keeps R (call r).
Proof. destruct r; [apply keeps_raise | apply keeps_ret]. Qed.

Lemma keeps_subscript {A} (o : option A) : keeps R (subscript o).
Proof. destruct o; [apply keeps_ret | apply keeps_raise]. Qed.

Lemma keeps_modify (f : S -> S) : (forall s, R s (f s)) -> keeps R (modify f).
Proof. intros Hf; split; intros s; simpl; apply Hf. Qed.

Lemma keeps_bind {A B} (m : M S A) (k : A -> M S B) :
  keeps R m -> (forall a, keeps R (k a)) -> keeps R (m ≫= k).
Proof.
  intros [Hm] Hk; split; intros s. unfold mbind, M_bind, bind.
  specialize (Hm s). destruct (m s) as [a s'|e s']; simpl in *.
  - etransitivity; [exact Hm | apply (keeps_run (Hk a))].
  - exact Hm.
Qed.

Lemma keeps_get : keeps R (@get S).
Proof. split; intros s; simpl; reflexivity. Qed.

(** After [st ← get] the continuation runs from the state it was given. *)
Lemma keeps_get_bind {B} (k : S -> M S B) :
  (forall s, R s (final_state (k s s))) -> keeps R (get ≫= k).
Proof. intros Hk; split; intros s. unfold mbind, M_bind, bind, get. apply Hk. Qed.

Lemma keeps_for_each {A} (f : A -> M S unit) (l : list A) :
  (forall x, x ∈ l -> keeps R (f x)) -> keeps R (for_each f l).
Proof.
  induction l as [|x l IH]; intros Hf; simpl; [apply keeps_ret|].
  apply (keeps_bind (f x) (fun _ => for_each f l)).
  - apply Hf; left.
  - intros _; apply IH; intros y Hy; apply Hf; right; exact Hy.
Qed.

Lemma keeps_if {A} (b : bool) (m1 m2 : M S A) :
  keeps R m1 -> keeps R m2 -> keeps R (if b then m1 else m2).
Proof. destruct b; auto. Qed.

End Keeps.

Lemma final_state_bind {S A B} (m : M S A) (k : A -> M S B) (s : S) :
  final_state ((m ≫= k) s) =
  match m s with
  | Ok a s' => final_state (k a s')
  | Raise _ s' => s'
  end.
Proof. unfold mbind, M_bind, bind. destruct (m s); reflexivity. Qed.

Ltac k_ret := refine (keeps_ret _ _).
Ltac k_raise := refine (keeps_raise _ _).
Ltac k_call := refine (keeps_call _ _).
Ltac k_subscript := refine (keeps_subscript _ _).
Ltac k_get := refine (keeps_get _).
Ltac k_bind := refine (keeps_bind _ _ _ _ _).
Ltac k_get_bind := refine (keeps_get_bind _ _ _).
Ltac k_for_each := refine (keeps_for_each _ _ _ _).

Lemma keeps_atomic {S A} (R : S -> S -> Prop) `{!PreOrder R} (m : M S A) :
  keeps R m -> keeps R (atomic m).
Proof.
  intros [Hm]; split; intros s. unfold atomic. specialize (Hm s).
  destruct (m s); simpl in *; [exact Hm | reflexivity].
Qed.

Lemma keeps_try_except {S A} (R : S -> S -> Prop) `{!PreOrder R}
  (m : M S A) (h : exn -> M S A) :
  keeps R m -> (forall e, keeps R (h e)) -> keeps R (try_except m h).
Proof.
  intros [Hm] Hh; split; intros s. unfold try_except. specialize (Hm s).
  destruct (m s) as [a s'|e s']; simpl in *; [exact Hm|].
  etransitivity; [exact Hm | apply (keeps_run (Hh e))].
Qed.

Lemma keeps_bind_post {S A B} (R : S -> S -> Prop) `{!PreOrder R}
  (P : A -> Prop) (m : M S A) (k : A -> M S B) :
  (forall s a s', m s = Ok a s' -> P a) ->
  keeps R m -> (forall a, P a -> keeps R (k a)) -> keeps R (m ≫= k).
Proof.
  intros HP [Hm] Hk; split; intros s. unfold mbind, M_bind, bind.
  specialize (Hm s). destruct (m s) as [a s'|e s'] eqn:E; simpl in *;
    [|exact Hm].
  etransitivity; [exact Hm|]. apply (keeps_run (Hk a (HP _ _ _ E))).
Qed.

Lemma bind_inv {S A B} (m : M S A) (k : A -> M S B) (s s'' : S) (b : B) :
  (m ≫= k) s = Ok b s'' ->
  exists a s', m s = Ok a s' /\ k a s' = Ok b s''.
Proof.
  unfold mbind, M_bind, bind. destruct (m s) as [a s'|e s']; [eauto|].
  discriminate.
Qed.

Lemma call_inv {S A} (r : exn + A) (s s' : S) (a : A) :
  call r s = Ok a s' -> r = inr a.
Proof. destruct r; [discriminate|]. intros [= -> _]. reflexivity. Qed.

Lemma call_state {S A} (r : exn + A) (s s' : S) (a : A) :
  call r s = Ok a s' -> s' = s.
Proof. destruct r; [discriminate|]. intros [= _ ->]. reflexivity. Qed.

(** ** moonplanner/tasks.py *)

Module PlannerFacts.
Import Planner.

#[local] Instance same_corporations_preorder : PreOrder same_corporations.
Proof.
  split; [intros d; reflexivity|].
  intros d1 d2 d3 H1 H2; unfold same_corporations in *; congruence.
Qed.

#[local] Instance same_refineries_preorder : PreOrder same_refineries.
Proof.
  split; [intros d; reflexivity|].
  intros d1 d2 d3 H1 H2; unfold same_refineries in *; congruence.
Qed.

#[local] Instance extractions_kept_preorder : PreOrder extractions_kept.
Proof.
  split; [intros d; unfold extractions_kept; reflexivity|].
  intros d1 d2 d3 H1 H2; unfold extractions_kept in *; etransitivity; eauto.
Qed.

(** *** Primary keys *)

Lemma max_pk_ge {A} (m : gmap Z A) (k : Z) :
  is_Some (m !! k) -> k <= max_pk m.
Proof.
  unfold max_pk. revert k.
  apply (map_fold_weak_ind
           (fun r (m : gmap Z A) => forall k, is_Some (m !! k) -> k <= r)).
  - intros k [x Hx]. rewrite lookup_empty in Hx. discriminate.
  - intros i x m' r _ IH k Hk.
    destruct (decide (k = i)) as [->|Hne]; [lia|].
    rewrite lookup_insert_ne in Hk by congruence.
    specialize (IH k Hk). lia.
Qed.

Lemma next_pk_fresh {A} (m : gmap Z A) : m !! next_pk m = None.
Proof.
  destruct (m !! next_pk m) eqn:E; [|reflexivity].
  assert (next_pk m <= max_pk m) by (apply max_pk_ge; eauto).
  unfold next_pk in *. lia.
Qed.

(** *** What each ORM call leaves alone *)

Ltac orm_unfold :=
  unfold EveType_get_or_create_esi, EveSolarSystem_get_or_create_esi,
    EveMoon_get_or_create_esi, Moon_get_or_create, Refinery_save,
    Extraction_get_or_create, ExtractionProduct_get_or_create,
    Extraction_delete;
  unfold mbind, M_bind, bind, get, call, modify, raise, ret.

Ltac orm_frame :=
  split; orm_unfold;
  unfold same_corporations, same_refineries, extractions_kept;
  intros d; simpl; try done;
  repeat (case_match; simplify_eq/=; try done).

Section Frame.
Variable env : Env.

Lemma EveType_corporations id b :
  keeps same_corporations (EveType_get_or_create_esi env id b).
Proof. orm_frame. Qed.
Lemma EveType_refineries id b :
  keeps same_refineries (EveType_get_or_create_esi env id b).
Proof. orm_frame. Qed.
Lemma EveType_extractions id b :
  keeps extractions_kept (EveType_get_or_create_esi env id b).
Proof. orm_frame. Qed.


Lemma EveMoon_corporations id :
  keeps same_corporations (EveMoon_get_or_create_esi env id).
Proof. orm_frame. Qed.
Lemma EveMoon_refineries id :
  keeps same_refineries (EveMoon_get_or_create_esi env id).
Proof. orm_frame. Qed.
Lemma EveMoon_extractions id :
  keeps extractions_kept (EveMoon_get_or_create_esi env id).
Proof. orm_frame. Qed.

Lemma Moon_corporations id : keeps same_corporations (Moon_get_or_create id).
Proof. orm_frame. Qed.
Lemma Moon_refineries id : keeps same_refineries (Moon_get_or_create id).
Proof. orm_frame. Qed.
Lemma Moon_extractions id : keeps extractions_kept (Moon_get_or_create id).
Proof. orm_frame. Qed.

Lemma Refinery_save_corporations id row :
  keeps same_corporations (Refinery_save id row).
Proof. orm_frame. Qed.
Lemma Refinery_save_extractions id row :
  keeps extractions_kept (Refinery_save id row).
Proof. orm_frame. Qed.

Lemma Extraction_get_or_create_corporations r t a :
  keeps same_corporations (Extraction_get_or_create r t a).
Proof. orm_frame. Qed.
Lemma Extraction_get_or_create_refineries r t a :
  keeps same_refineries (Extraction_get_or_create r t a).
Proof. orm_frame. Qed.
Lemma Extraction_get_or_create_extractions r t a :
  keeps extractions_kept (Extraction_get_or_create r t a).
Proof.
  split; orm_unfold; unfold extractions_kept; intros d; simpl.
  repeat (case_match; simplify_eq/=; try done).
  apply insert_subseteq, next_pk_fresh.
Qed.

Lemma ExtractionProduct_corporations e t v :
  keeps same_corporations (ExtractionProduct_get_or_create e t v).
Proof. orm_frame. Qed.
Lemma ExtractionProduct_refineries e t v :
  keeps same_refineries (ExtractionProduct_get_or_create e t v).
Proof. orm_frame. Qed.
Lemma ExtractionProduct_extractions e t v :
  keeps extractions_kept (ExtractionProduct_get_or_create e t v).
Proof. orm_frame. Qed.

Lemma Extraction_delete_corporations pk :
  keeps same_corporations (Extraction_delete pk).
Proof. orm_frame. Qed.
Lemma Extraction_delete_refineries pk :
  keeps same_refineries (Extraction_delete pk).
Proof. orm_frame. Qed.

End Frame.

(** *** The loop *)

#[local] Instance loop_same_preorder : PreOrder loop_same.
Proof.
  split; [intros st; split; reflexivity|].
  intros s1 s2 s3 [H1 H2] [H3 H4]; split; congruence.
Qed.

#[local] Instance loop_flagged_preorder : PreOrder loop_flagged.
Proof.
  split; [intros st _; reflexivity|].
  intros s1 s2 s3 H1 H2 Hf. specialize (H1 Hf).
  transitivity s2; [exact H1|]. apply H2. destruct H1 as [_ ->]. exact Hf.
Qed.

#[local] Instance loop_keeps_extractions_preorder :
  PreOrder loop_keeps_extractions.
Proof.
  split; [intros st H; split; [exact H | reflexivity]|].
  intros s1 s2 s3 H1 H2 Hk. destruct (H1 Hk) as [Hk2 Hs12].
  destruct (H2 Hk2) as [Hk3 Hs23]. split; [exact Hk3|].
  etransitivity; eauto.
Qed.

#[local] Instance loop_corporations_preorder : PreOrder loop_corporations.
Proof.
  split; [intros st; unfold loop_corporations; reflexivity|].
  intros s1 s2 s3 H1 H2; unfold loop_corporations in *; etransitivity; eauto.
Qed.

Lemma keeps_on_db {A} (Rdb : DB -> DB -> Prop)
  (R : LoopState -> LoopState -> Prop) (m : M DB A) :
  keeps Rdb m ->
  (forall st d', Rdb (db st) d' -> R st (set_db (fun _ => d') st)) ->
  keeps R (on_db m).
Proof.
  intros [Hm] HR; split; intros st. unfold on_db. specialize (Hm (db st)).
  destruct (m (db st)); simpl in *; apply HR, Hm.
Qed.

Lemma on_db_loop_same {A} (m : M DB A) :
  keeps same_refineries m -> keeps loop_same (on_db m).
Proof.
  intros H; apply (keeps_on_db same_refineries); [exact H|].
  intros st d' Hd; split; [exact Hd | reflexivity].
Qed.

Lemma on_db_loop_keeps_extractions {A} (m : M DB A) :
  keeps extractions_kept m -> keeps loop_keeps_extractions (on_db m).
Proof.
  intros H; apply (keeps_on_db extractions_kept); [exact H|].
  intros st d' Hd Hk; split; [exact Hk | exact Hd].
Qed.

Lemma on_db_loop_corporations {A} (m : M DB A) :
  keeps same_corporations m -> keeps loop_corporations (on_db m).
Proof.
  intros H; apply (keeps_on_db same_corporations); [exact H|].
  intros st d' Hd; exact Hd.
Qed.

#[local] Instance same_flag_preorder : PreOrder same_flag.
Proof.
  split; [intros st; reflexivity|].
  intros s1 s2 s3 H1 H2; unfold same_flag in *; congruence.
Qed.

(** An ORM call never writes a local variable of the loop. *)
Lemma on_db_same_flag {A} (m : M DB A) : keeps same_flag (on_db m).
Proof.
  split; intros st. unfold on_db. destruct (m (db st)); reflexivity.
Qed.

Lemma keeps_loop_flagged_of_same {A} (m : M LoopState A) :
  keeps loop_same m -> keeps loop_flagged m.
Proof. intros [H]; split; intros st _; apply H. Qed.

Section Loop.
Variable env : Env.

(** One rule for each shape of code in the loop body. *)
Ltac keeps_go :=
  repeat first
    [ apply EveType_corporations | apply EveType_refineries
    | apply EveType_extractions | apply EveMoon_corporations
    | apply EveMoon_refineries | apply EveMoon_extractions
    | apply Moon_corporations | apply Moon_refineries | apply Moon_extractions
    | apply Refinery_save_corporations | apply Refinery_save_extractions
    | apply Extraction_get_or_create_corporations
    | apply Extraction_get_or_create_refineries
    | apply Extraction_get_or_create_extractions
    | apply ExtractionProduct_corporations
    | apply ExtractionProduct_refineries
    | apply ExtractionProduct_extractions
    | apply Extraction_delete_corporations
    | apply Extraction_delete_refineries
    | apply on_db_loop_same | apply on_db_loop_keeps_extractions
    | apply on_db_loop_corporations
    | k_ret | k_raise | k_call | k_subscript | k_get
    | apply keeps_if
    | k_for_each; intros ? _
    | k_bind; [|intros ?] ].


Lemma update_moon_once_extractions p sid r :
  keeps loop_keeps_extractions (update_moon_once env p sid r).
Proof.
  unfold update_moon_once. k_bind; [k_get|intros st].
  destruct r; [apply keeps_if|]; keeps_go.
  - apply keeps_modify; intros s Hk; split; [exact Hk | reflexivity].
Qed.

Lemma update_moon_once_flagged p sid r :
  keeps loop_flagged (update_moon_once env p sid r).
Proof.
  unfold update_moon_once. k_get_bind; intros st.
  destruct r as [r|]; [|intros _; reflexivity].
  destruct (moon_updated st) eqn:E; simpl.
  - intros _; reflexivity.
  - intros Hf; congruence.
Qed.


Lemma on_started_same p sid r : keeps loop_same (on_started env p sid r).
Proof.
  unfold on_started. destruct r; keeps_go.
  apply keeps_modify; intros s; split; reflexivity.
Qed.

Lemma on_started_extractions p sid r :
  keeps loop_keeps_extractions (on_started env p sid r).
Proof.
  unfold on_started. destruct r; keeps_go.
  apply keeps_modify; intros s Hk; split; [|reflexivity].
  intros z; simpl. rewrite lookup_insert_ne by discriminate. apply Hk.
Qed.


Lemma on_cancelled_same sid : keeps loop_same (on_cancelled sid).
Proof.
  unfold on_cancelled. k_bind; [k_get|intros st].
  repeat case_match; keeps_go.
  apply keeps_modify; intros s; split; reflexivity.
Qed.

(** The dictionary never has the structure's id as a key, so a cancelled
    notification finds nothing to delete. *)
Lemma on_cancelled_extractions sid :
  keeps loop_keeps_extractions (on_cancelled sid).
Proof.
  unfold on_cancelled. k_get_bind; intros st Hk.
  rewrite (Hk sid). simpl. split; [exact Hk | reflexivity].
Qed.


Lemma on_finished_same sid : keeps loop_same (on_finished sid).
Proof. apply keeps_modify; intros s; split; reflexivity. Qed.

Lemma on_finished_extractions sid :
  keeps loop_keeps_extractions (on_finished sid).
Proof.
  apply keeps_modify; intros s Hk; split; [|reflexivity].
  intros z; simpl. destruct (decide (z = sid)) as [->|Hne].
  - apply lookup_delete_eq.
  - rewrite lookup_delete_ne by congruence. apply Hk.
Qed.

Ltac body_go :=
  unfold process_notification;
  k_bind; [k_call|intros p];
  apply keeps_if; [|k_ret];
  k_bind; [k_subscript|intros sid];
  k_bind; [k_get|intros st]; cbv zeta;
  k_bind;
  [|intros _; k_bind;
    [apply keeps_if; [|k_ret]
    |intros _; k_bind;
      [apply keeps_if; [|k_ret]
      |intros _; apply keeps_if; [|k_ret]]]].


Lemma process_notification_extractions n :
  keeps loop_keeps_extractions (process_notification env n).
Proof.
  body_go.
  - apply update_moon_once_extractions.
  - apply on_started_extractions.
  - apply on_cancelled_extractions.
  - apply on_finished_extractions.
Qed.

Lemma process_notification_flagged n :
  keeps loop_flagged (process_notification env n).
Proof.
  body_go.
  - apply update_moon_once_flagged.
  - apply keeps_loop_flagged_of_same, on_started_same.
  - apply keeps_loop_flagged_of_same, on_cancelled_same.
  - apply keeps_loop_flagged_of_same, on_finished_same.
Qed.

(** *** The order of processing *)

Lemma insert_by_timestamp_perm n l :
  Permutation (insert_by_timestamp n l) (n :: l).
Proof.
  induction l as [|m l IH]; simpl; [reflexivity|].
  destruct (timestamp n <=? timestamp m)%Z; [reflexivity|].
  rewrite IH. apply perm_swap.
Qed.

Lemma sorted_by_timestamp_perm l : Permutation (sorted_by_timestamp l) l.
Proof.
  induction l as [|n l IH]; simpl; [reflexivity|].
  rewrite insert_by_timestamp_perm. constructor. exact IH.
Qed.



Lemma StronglySorted_lookup_lt {A} (R : A -> A -> Prop) (l : list A)
  (i j : nat) (a b : A) :
  StronglySorted R l -> l !! i = Some a -> l !! j = Some b ->
  (i < j)%nat -> R a b.
Proof.
  intros Hs; revert i j; induction Hs as [|x l Hs IH Hx]; intros i j Hi Hj Hlt.
  - rewrite lookup_nil in Hi; discriminate.
  - destruct j as [|j]; [lia|]. simpl in Hj.
    destruct i as [|i]; simpl in Hi.
    + injection Hi as <-. rewrite Forall_forall in Hx.
      apply Hx. eapply list_elem_of_lookup_2; exact Hj.
    + apply (IH i j); [assumption..|lia].
Qed.


(** *** Steps of the loop *)

Lemma final_state_for_each_cons {S A} (f : A -> M S unit) x l (s : S) :
  final_state (for_each f (x :: l) s) =
  match f x s with
  | Ok _ s' => final_state (for_each f l s')
  | Raise _ s' => s'
  end.
Proof. simpl. unfold bind. destruct (f x s); reflexivity. Qed.

Lemma final_state_for_each_app {S A} (f : A -> M S unit) l1 l2 (s : S) :
  final_state (for_each f (l1 ++ l2) s) =
  match for_each f l1 s with
  | Ok _ s' => final_state (for_each f l2 s')
  | Raise _ s' => s'
  end.
Proof. rewrite for_each_app. destruct (for_each f l1 s); reflexivity. Qed.

Lemma matches_false_cases refs n :
  matches refs n = false ->
  (exists e, text n = inl e)
  \/ bool_decide (type n ∈ extraction_types) = false
  \/ (exists p, text n = inr p /\
       (structureID p = None \/
        exists sid, structureID p = Some sid /\ refs !! sid = None)).
Proof.
  unfold matches. intros H.
  destruct (bool_decide (type n ∈ extraction_types)); [|auto].
  destruct (text n) as [e|p]; [eauto|]. right; right. exists p; split; [done|].
  destruct (structureID p) as [sid|] eqn:Hs; [|auto].
  right. exists sid; split; [done|].
  simpl in H. apply bool_decide_eq_false in H.
  destruct (refs !! sid); [exfalso; eauto | done].
Qed.

Lemma matches_true_cases refs n :
  matches refs n = true ->
  exists p sid r, text n = inr p /\ structureID p = Some sid
                  /\ refs !! sid = Some r
                  /\ bool_decide (type n ∈ extraction_types) = true.
Proof.
  unfold matches. intros H.
  destruct (bool_decide (type n ∈ extraction_types)); [|done].
  destruct (text n) as [e|p]; [done|].
  destruct (structureID p) as [sid|] eqn:Hs; [|done].
  simpl in H. apply bool_decide_eq_true in H as [r Hr].
  exists p, sid, r. auto.
Qed.

Lemma rest_of_body_same p sid (b1 b2 b3 : bool) :
  keeps loop_same
    ((if b1 then on_started env p sid None else ret tt) ≫= fun _ =>
     (if b2 then on_cancelled sid else ret tt) ≫= fun _ =>
     (if b3 then on_finished sid else ret tt)).
Proof.
  k_bind; [apply keeps_if; [apply on_started_same | k_ret]|intros _].
  k_bind; [apply keeps_if; [apply on_cancelled_same | k_ret]|intros _].
  apply keeps_if; [apply on_finished_same | k_ret].
Qed.

(** A notification that does not match a stored refinery changes neither
    a refinery nor the flag. *)
Lemma process_notification_no_match n st :
  matches (refineries (db st)) n = false ->
  loop_same st (final_state (process_notification env n st)).
Proof.
  intros H. apply matches_false_cases in H.
  unfold process_notification. rewrite final_state_bind.
  destruct H as [[e He]|[Ht|(p & Hp & Hs)]].
  - rewrite He. simpl. reflexivity.
  - destruct (text n) as [e|p]; simpl; [reflexivity|]. rewrite Ht. reflexivity.
  - rewrite Hp. simpl.
    destruct (bool_decide (type n ∈ extraction_types)); [|reflexivity].
    rewrite final_state_bind.
    destruct Hs as [Hs|(sid & Hs & Hr)]; rewrite Hs; simpl; [reflexivity|].
    rewrite final_state_bind. simpl. rewrite Hr.
    match goal with
    | |- loop_same _ (final_state (?m st)) =>
        assert (Hk : keeps loop_same m); [|apply (keeps_run Hk)]
    end.
    k_bind; [|intros _; apply rest_of_body_same].
    unfold update_moon_once. k_bind; [k_get | intros _; k_ret].
Qed.

Lemma update_moon_once_sets_flag p sid r st :
  moon_updated st = false ->
  moon_updated (final_state (update_moon_once env p sid (Some r) st)) = true.
Proof.
  intros Hf. unfold update_moon_once. rewrite final_state_bind. simpl.
  rewrite Hf. simpl. rewrite final_state_bind. simpl.
  match goal with
  | |- moon_updated (final_state (?m ?s)) = true =>
      assert (Hk : keeps same_flag m); [|apply (keeps_run Hk s)]
  end.
  k_bind; [k_subscript|intros moon_id].
  k_bind; [apply on_db_same_flag|intros _].
  k_bind; [apply on_db_same_flag|intros _].
  apply keeps_if; [apply on_db_same_flag | k_ret].
Qed.

(** The first notification that matches a stored refinery sets the flag,
    whether its processing ends normally or not. *)
Lemma process_notification_match_sets_flag n st :
  matches (refineries (db st)) n = true ->
  moon_updated st = false ->
  moon_updated (final_state (process_notification env n st)) = true.
Proof.
  intros H Hf. apply matches_true_cases in H as (p & sid & r & Hp & Hs & Hr & Ht).
  unfold process_notification. rewrite final_state_bind, Hp. simpl.
  rewrite Ht, final_state_bind, Hs. simpl.
  rewrite final_state_bind. simpl. rewrite Hr.
  rewrite final_state_bind.
  pose proof (update_moon_once_sets_flag p sid r st Hf) as Hu.
  destruct (update_moon_once env p sid (Some r) st) as [[] st'|e st'];
    simpl in Hu; [|exact Hu].
  match goal with
  | |- moon_updated (final_state (?m st')) = true =>
      assert (Hk : keeps loop_flagged m);
      [|destruct (keeps_run Hk st' Hu) as [_ ->]; exact Hu]
  end.
  k_bind; [apply keeps_if; [|k_ret]|intros _].
  { apply keeps_loop_flagged_of_same, on_started_same. }
  k_bind; [apply keeps_if; [|k_ret]|intros _].
  { apply keeps_loop_flagged_of_same, on_cancelled_same. }
  apply keeps_if; [|k_ret].
  apply keeps_loop_flagged_of_same, on_finished_same.
Qed.

(** Once the flag is set, no later notification writes a refinery. *)
Lemma flagged_loop_same l st :
  moon_updated st = true ->
  loop_same st (final_state (for_each (process_notification env) l st)).
Proof.
  intros Hf.
  assert (Hk : keeps loop_flagged (for_each (process_notification env) l)).
  { k_for_each. intros n _. apply process_notification_flagged. }
  apply (keeps_run Hk st Hf).
Qed.

(** Notifications that match no stored refinery leave the refineries and
    the flag as they are. *)
Lemma unmatched_loop_same l st :
  Forall (fun m => matches (refineries (db st)) m = false) l ->
  loop_same st (final_state (for_each (process_notification env) l st)).
Proof.
  revert st; induction l as [|n l IH]; intros st Hl; [reflexivity|].
  apply Forall_cons in Hl as [Hn Hl].
  rewrite final_state_for_each_cons.
  pose proof (process_notification_no_match n st Hn) as Hs.
  destruct (process_notification env n st) as [[] st'|e st']; simpl in Hs;
    [|exact Hs].
  transitivity st'; [exact Hs|]. apply IH.
  destruct Hs as [-> _]. exact Hl.
Qed.

(** The loop deletes no extraction: its dictionary only ever gets the key
    [builtin_id]. *)
Lemma loop_deletes_no_extraction l d :
  extractions d ⊆ extractions (db (loop_state_after env d l)).
Proof.
  assert (Hk : keeps loop_keeps_extractions
                 (for_each (process_notification env) l)).
  { k_for_each. intros n _. apply process_notification_extractions. }
  apply (keeps_run Hk (initial_loop_state d)).
  intros z. apply lookup_empty.
Qed.

(** *** The job as a whole *)




End Loop.

(** C1.  The spec has a cancelled notification delete the extraction that
    the latest started notification of the same structure created.  The
    task does not: corporation 1 owns refinery 1000000000001, the API
    returns a cancelled notification (timestamp 20) and a started one
    (timestamp 10) for it, and after the run the extraction created by the
    started notification is still stored. *)
Theorem started_extraction_survives_cancellation :
  let env := Sample.env (inr [])
               (inr [ Sample.cancelled 20 Sample.refinery_1 Sample.moon_1;
                      Sample.started 10 Sample.refinery_1 Sample.moon_1 ]) in
  let result := run_refineries_update env 1 Sample.db in
  extractions Sample.db = ∅
  /\ raised result = None
  /\ extractions (final_state result) = {[ 1 := Sample.started_row ]}.
Proof. vm_compute. repeat split; reflexivity. Qed.

(** The reason, for every run: the loop stores a started extraction under
    the builtin [id], never under the structure's id, so no cancelled
    notification finds one and no extraction row is ever removed. *)
Lemma process_notifications_deletes_no_extraction
  (env : Env) (notifications : list Notification) (d : DB) :
  extractions d ⊆
  extractions (final_state (process_notifications env notifications d)).
Proof.
  pose proof (loop_deletes_no_extraction env
                (sorted_by_timestamp notifications) d) as H.
  unfold process_notifications, loop_state_after in *.
  destruct (for_each _ _ _); exact H.
Qed.



(** The refineries stored after [pre], one more notification [n] that
    matches a stored refinery, and then any further notifications are
    those stored right after [n]. *)
Lemma refineries_fixed_after_first_match
  (env : Env) (d : DB) (pre post : list Notification) (n : Notification) :
  Forall (fun m => matches (refineries d) m = false) pre ->
  matches (refineries d) n = true ->
  refineries (db (loop_state_after env d (pre ++ n :: post)))
  = refineries (db (loop_state_after env d (pre ++ [n]))).
Proof.
  intros Hpre Hn. unfold loop_state_after.
  rewrite !final_state_for_each_app.
  pose proof (unmatched_loop_same env pre (initial_loop_state d) Hpre) as Hs.
  destruct (for_each (process_notification env) pre (initial_loop_state d))
    as [[] s1|e s1]; [|reflexivity].
  simpl in Hs. destruct Hs as [Hrefs Hflag].
  rewrite !final_state_for_each_cons.
  assert (Hset : moon_updated
                   (final_state (process_notification env n s1)) = true).
  { apply process_notification_match_sets_flag.
    - rewrite Hrefs. exact Hn.
    - rewrite Hflag. reflexivity. }
  destruct (process_notification env n s1) as [[] s2|e s2]; [|reflexivity].
  simpl in Hset. simpl.
  apply (flagged_loop_same env post s2 Hset).
Qed.

(** C9.  In one run of the loop the refinery's moon is corrected from a
    notification at most once.  Let the order of processing be [pre],
    then [n], then [post], where [n] is the first notification that the
    loop acts on for a stored refinery.  The notifications before [n]
    write no refinery, and after [n] none does either, whichever refinery
    they name: at every point later in the run, and at its end, the
    refineries are those stored right after [n]. *)
Theorem moon_correction_applied_at_most_once
  (env : Env) (d : DB) (notifications pre post : list Notification)
  (n : Notification) :
  sorted_by_timestamp notifications = (pre ++ n :: post)%list ->
  Forall (fun m => matches (refineries d) m = false) pre ->
  matches (refineries d) n = true ->
  (forall pre' rest, pre = (pre' ++ rest)%list ->
     refineries (db (loop_state_after env d pre')) = refineries d)
  /\ (forall post' rest, post = (post' ++ rest)%list ->
       refineries (db (loop_state_after env d (pre ++ n :: post')))
       = refineries (db (loop_state_after env d (pre ++ [n]))))
  /\ refineries (final_state (process_notifications env notifications d))
     = refineries (db (loop_state_after env d (pre ++ [n]))).
Proof.
  intros Hsorted Hpre Hn. repeat split.
  - intros pre' k ->. apply Forall_app in Hpre as [Hpre' _].
    apply (unmatched_loop_same env pre' (initial_loop_state d) Hpre').
  - intros post' k _. apply refineries_fixed_after_first_match; assumption.
  - rewrite <- (refineries_fixed_after_first_match env d pre post n Hpre Hn).
    rewrite <- Hsorted. unfold process_notifications, loop_state_after.
    destruct (for_each _ _ _); reflexivity.
Qed.

(** Two started notifications, the first for refinery 1 with the moon it
    already has, the second for refinery 2, which has no moon: the second
    does not give refinery 2 its moon. *)
Lemma moon_correction_applied_at_most_once_witness :
  let first := Sample.started 10 Sample.refinery_1 Sample.moon_1 in
  let second := Sample.started 20 Sample.refinery_2 Sample.moon_2 in
  let env := Sample.env (inr []) (inr [second; first]) in
  refineries (final_state (process_notifications env [second; first] Sample.db))
  = refineries (db (loop_state_after env Sample.db ([] ++ [first])))
  /\ refineries (final_state
                   (process_notifications env [second; first] Sample.db))
       !! Sample.refinery_2 = Some (Sample.refinery_row None).
Proof.
  cbv zeta. split; [|vm_compute; reflexivity].
  apply (moon_correction_applied_at_most_once _ Sample.db _ []
           [Sample.started 20 Sample.refinery_2 Sample.moon_2]
           (Sample.started 10 Sample.refinery_1 Sample.moon_1)).
  - reflexivity.
  - constructor.
  - vm_compute; reflexivity.
Defined.




End PlannerFacts.

(** ** Moon surveys *)

Module SurveyFacts.
Import Survey.

#[local] Instance same_products_preorder : PreOrder same_products.
Proof.
  split; [intros d; reflexivity|].
  intros d1 d2 d3 H1 H2; unfold same_products in *; congruence.
Qed.

Lemma keeps_map_m {S A B} (R : S -> S -> Prop) `{!PreOrder R}
  (f : A -> M S B) (l : list A) :
  (forall x, keeps R (f x)) -> keeps R (map_m f l).
Proof.
  intros Hf. induction l as [|x l IH]; simpl; [k_ret|].
  k_bind; [apply Hf|intros y].
  k_bind; [apply IH|intros ys]. k_ret.
Qed.

Section Facts.
Variable env : Env.

Lemma EveMoon_products id : keeps same_products (EveMoon_get_or_create_esi env id).
Proof.
  unfold EveMoon_get_or_create_esi.
  k_bind; [k_call|intros moon_id]. k_bind; [k_get|intros d].
  apply keeps_if; [k_ret|].
  k_bind; [k_call|intros _].
  k_bind; [apply keeps_modify; intros s; reflexivity|intros _]. k_ret.
Qed.

Lemma EveType_products id : keeps same_products (EveType_get_or_create_esi env id).
Proof.
  unfold EveType_get_or_create_esi.
  k_bind; [k_call|intros type_id]. k_bind; [k_get|intros d].
  apply keeps_if; [k_ret|].
  k_bind; [k_call|intros _].
  k_bind; [apply keeps_modify; intros s; reflexivity|intros _]. k_ret.
Qed.

Lemma Moon_get_or_create_products id :
  keeps same_products (Moon_get_or_create id).
Proof.
  unfold Moon_get_or_create. k_bind; [k_get|intros d].
  destruct (moons d !! id); [k_ret|].
  k_bind; [apply keeps_modify; intros s; reflexivity|intros _]. k_ret.
Qed.

Lemma Moon_update_calculated_properties_products id moon :
  keeps same_products (Moon_update_calculated_properties env id moon).
Proof.
  unfold Moon_update_calculated_properties. k_bind; [k_get|intros d].
  k_bind; [k_call|intros row]. apply keeps_modify; intros s; reflexivity.
Qed.

Lemma managers_prepare_products user survey :
  keeps same_products (managers_prepare env user survey).
Proof.
  unfold managers_prepare.
  k_bind; [k_call|intros first]. k_bind; [k_call|intros _].
  k_bind; [k_call|intros second]. k_bind; [k_call|intros moon_id].
  k_bind; [apply EveMoon_products|intros eve_moon].
  k_bind; [apply Moon_get_or_create_products|intros moon].
  k_bind; [|intros moon_products; k_ret].
  apply keeps_map_m; [apply _|]. intros product_data.
  unfold managers_make_product.
  k_bind; [k_call|intros type_text].
  k_bind; [apply EveType_products|intros ore_type].
  k_bind; [k_call|intros amount_text]. k_ret.
Qed.

Lemma MoonProduct_create_spec moon amount_text eve_type d :
  MoonProduct_create env moon amount_text eve_type d =
  match to_float env amount_text with
  | inl e => Raise e d
  | inr a =>
      Ok tt (set_products
               (fun rows => rows ++ [ {| product_moon := moon;
                                          product_type := eve_type;
                                          amount := a |} ])%list d)
  end.
Proof.
  unfold MoonProduct_create, mbind, M_bind, bind, call.
  destruct (to_float env amount_text); reflexivity.
Qed.

(** [bulk_create] stores the converted rows after the others, or raises
    on an amount that is no number. *)
Lemma MoonProduct_bulk_create_spec moon_products d :
  match converted env moon_products with
  | inr rows =>
      MoonProduct_bulk_create env moon_products d
      = Ok tt (set_products (fun l => l ++ rows)%list d)
  | inl e => raised (MoonProduct_bulk_create env moon_products d) = Some e
  end.
Proof.
  unfold MoonProduct_bulk_create.
  revert d; induction moon_products as [|p rest IH]; intros d; simpl.
  - unfold ret, set_products. destruct d; simpl.
    rewrite (app_nil_r (A := MoonProductRow)). reflexivity.
  - unfold bind. rewrite MoonProduct_create_spec.
    destruct (to_float env p.1.2) as [e|a]; simpl; [reflexivity|].
    specialize (IH (set_products
                      (fun rows => rows ++ [ {| product_moon := p.1.1;
                                                 product_type := p.2;
                                                 amount := a |} ])%list d)).
    destruct (converted env rest) as [e|rows]; [exact IH|].
    rewrite IH. destruct d; simpl. unfold set_products; simpl.
    rewrite <- app_assoc. reflexivity.
Qed.

(** The transaction of managers.py replaces the moon's products by the
    new rows, or changes nothing. *)
Lemma managers_replace_products_spec eve_moon moon_products d :
  managers_replace_products env eve_moon moon_products d =
  match converted env moon_products with
  | inr rows =>
      Ok tt (set_products
               (fun l => filter (fun row => product_moon row ≠ eve_moon) l
                         ++ rows)%list d)
  | inl e => Raise e d
  end.
Proof.
  unfold managers_replace_products, atomic, mbind, M_bind, bind,
    delete_products, modify.
  pose proof (MoonProduct_bulk_create_spec moon_products
                (set_products
                   (filter (fun row => product_moon row ≠ eve_moon)) d)) as H.
  destruct (converted env moon_products) as [e|rows].
  - destruct (MoonProduct_bulk_create env moon_products _); simpl in H;
      [discriminate|]. congruence.
  - rewrite H. destruct d; reflexivity.
Qed.


Lemma Moon_update_calculated_properties_total id moon d :
  figures_never_fail env ->
  raised (Moon_update_calculated_properties env id moon d) = None.
Proof.
  intros Hf. unfold Moon_update_calculated_properties, mbind, M_bind, bind,
    get, call.
  destruct (Hf id moon (products_of id (products d))) as [row ->].
  reflexivity.
Qed.

(** In managers.py the transaction covers the replacement of the
    products only. *)
Lemma managers_process_survey_atomic user survey d :
  exists r d',
    managers_process_survey env user survey d = Ok r d'
    /\ (products d' = products d
        \/ exists eve_moon moon moon_products rows d1,
             managers_prepare env user survey d
               = Ok (eve_moon, moon, moon_products) d1
             /\ converted env moon_products = inr rows
             /\ products d'
                = (filter (fun row => product_moon row ≠ eve_moon) (products d)
                   ++ rows)%list)
    /\ (success r = false -> figures_never_fail env ->
        products d' = products d).
Proof.
  unfold managers_process_survey, try_except, managers_store_survey,
    mbind, M_bind, bind.
  pose proof (keeps_run (managers_prepare_products user survey) d) as Hp.
  destruct (managers_prepare env user survey d)
    as [[[eve_moon moon] moon_products] d1|e d1] eqn:Eprep; simpl in Hp;
    unfold same_products in Hp.
  - simpl. rewrite managers_replace_products_spec.
    destruct (converted env moon_products) as [e|rows] eqn:Econv.
    + eexists _, _. split; [reflexivity|]. split; [left; exact Hp|].
      intros _ _; exact Hp.
    + set (d2 := set_products _ d1).
      pose proof (keeps_run
                    (Moon_update_calculated_properties_products eve_moon moon)
                    d2) as Hc.
      pose proof (Moon_update_calculated_properties_total eve_moon moon d2)
        as Ht.
      unfold same_products in Hc.
      destruct (Moon_update_calculated_properties env eve_moon moon d2)
        as [[] d3|e d3]; simpl in Hc, Ht.
      * eexists _, _. split; [reflexivity|]. split; [|discriminate].
        right. exists eve_moon, moon, moon_products, rows, d1.
        split; [first [reflexivity | exact Eprep]|]. split; [exact Econv|].
        rewrite Hc. subst d2. simpl. rewrite Hp. reflexivity.
      * eexists _, _. split; [reflexivity|]. split.
        -- right. exists eve_moon, moon, moon_products, rows, d1.
           split; [first [reflexivity | exact Eprep]|]. split; [exact Econv|].
           rewrite Hc. subst d2. simpl. rewrite Hp. reflexivity.
        -- intros _ Hf. specialize (Ht Hf). discriminate.
  - eexists _, _. split; [reflexivity|]. split; [left; exact Hp|].
    intros _ _; exact Hp.
Qed.

End Facts.

(** *** The parser *)

Lemma parsers_agree (scans : string) :
  _parse_scans scans =
  match tasks_parse scans with
  | inr surveys => (surveys, None)
  | inl e => ([], Some e)
  end.
Proof.
  unfold _parse_scans, tasks_parse.
  destruct (drop_header (split_lines scans)) as [e|lines]; [reflexivity|].
  destruct (find_sublists lines lines); reflexivity.
Qed.

Lemma split_nonempty sep s : split sep s <> [].
Proof.
  destruct s as [|c s]; simpl; [discriminate|].
  destruct (Ascii.eqb c sep); [discriminate|].
  destruct (split sep s); discriminate.
Qed.

Lemma split_lines_cells scans :
  Forall (fun line : Line => line <> []) (split_lines scans).
Proof.
  unfold split_lines. apply Forall_fmap, Forall_true.
  intros line. apply split_nonempty.
Qed.

Lemma index_elem_of {A} `{EqDecision A} (x : A) (l : list A) :
  x ∈ l -> is_Some (index x l).
Proof.
  induction l as [|y l IH]; intros Hx; [inversion Hx|]. simpl.
  destruct (decide (y = x)); [eauto|].
  apply elem_of_cons in Hx as [Hx|Hx]; [congruence|].
  destruct (IH Hx) as [i ->]. simpl. eauto.
Qed.

Lemma find_sublists_total (lines rest : list Line) :
  Forall (fun line : Line => line <> []) rest -> rest ⊆ lines ->
  exists sublists, find_sublists lines rest = inr sublists.
Proof.
  induction rest as [|line rest IH]; intros Hne Hsub; [simpl; eauto|].
  apply Forall_cons in Hne as [Hline Hne].
  destruct line as [|cell cells]; [congruence|].
  destruct IH as [l Hl]; [exact Hne | set_solver |].
  cbn [find_sublists]. rewrite Hl.
  match goal with
  | |- context [@index ?A ?H ?x ?l] =>
      destruct (@index_elem_of A H x l) as [i ->]; [set_solver|]
  end.
  case_bool_decide; eauto.
Qed.

(** The parser raises on no text at all. *)
Lemma tasks_parse_total (scans : string) :
  exists surveys, tasks_parse scans = inr surveys.
Proof.
  unfold tasks_parse.
  pose proof (split_lines_cells scans) as Hcells.
  assert (Hne : split_lines scans <> []).
  { unfold split_lines. intros H. apply fmap_nil_inv in H.
    exact (split_nonempty _ _ H). }
  assert (exists lines, drop_header (split_lines scans) = inr lines
                        /\ Forall (fun line : Line => line <> []) lines)
    as (lines & -> & Hlines).
  { destruct (split_lines scans) as [|first rest]; [congruence|].
    apply Forall_cons in Hcells as [Hfirst Hrest]. simpl.
    case_bool_decide; [eauto|].
    destruct first as [|cell cells]; [congruence|].
    case_bool_decide; eauto. }
  destruct (find_sublists_total lines lines Hlines) as [sublists ->];
    [set_solver|].
  eauto.
Qed.

(** *** What the two functions return *)

Section Returns.
Variable env : Env.

Lemma managers_loop_total user surveys d :
  exists results d',
    map_m (managers_process_survey env user) surveys d = Ok results d'
    /\ length results = length surveys.
Proof.
  revert d; induction surveys as [|survey surveys IH]; intros d; simpl.
  - eexists _, _. split; reflexivity.
  - unfold mbind, M_bind, bind.
    destruct (managers_process_survey_atomic env user survey d)
      as (r & d1 & -> & _).
    destruct (IH d1) as (rs & d2 & -> & Hlen).
    eexists _, _. split; [reflexivity|]. simpl. congruence.
Qed.

(** [update_moons_from_survey] goes through every survey and returns
    [True] exactly when there is a survey and every survey succeeded. *)
Lemma update_moons_from_survey_returns scans user d :
  let surveys := (_parse_scans scans).1 in
  exists results d1 d',
    map_m (managers_process_survey env user) surveys d = Ok results d1
    /\ length results = length surveys
    /\ update_moons_from_survey env scans user d
       = Ok (bool_decide (surveys <> []) && forallb success results) d'.
Proof.
  cbv zeta. unfold update_moons_from_survey.
  destruct (managers_loop_total user (_parse_scans scans).1 d)
    as (results & d1 & Hloop & Hlen).
  exists results, d1.
  destruct ((_parse_scans scans).1) as [|survey surveys] eqn:E.
  - simpl in Hloop. injection Hloop as <- <-.
    destruct user as [u|]; eexists; (split; [reflexivity|]);
      (split; [reflexivity|]); reflexivity.
  - unfold _process_surveys, mbind, M_bind, bind. rewrite Hloop. simpl.
    destruct results as [|r results]; [discriminate|].
    destruct user as [u|]; eexists; (split; [reflexivity|]);
      (split; [exact Hlen|]).
    + unfold _send_survey_process_report_to_user, mbind, M_bind, bind, notify,
        modify, ret. simpl.
      rewrite andb_diag. reflexivity.
    + reflexivity.
Qed.

Lemma tasks_loop_total surveys st :
  last_agrees st ->
  exists st',
    for_each (tasks_process_survey env) surveys st = Ok tt st'
    /\ length (task_process_results st')
       = (length (task_process_results st) + length surveys)%nat
    /\ last_agrees st'.
Proof.
  revert st; induction surveys as [|survey surveys IH]; intros st Hst; simpl.
  - exists st. split; [reflexivity|]. split; [lia | exact Hst].
  - unfold bind.
    assert (exists ok e st1,
              tasks_process_survey env survey st
              = Ok tt (append_task_result (set_task_outcome ok e st1))
              /\ task_process_results st1 = task_process_results st)
      as (ok & e & st1 & -> & Hres).
    { unfold tasks_process_survey, tasks_store_survey.
      match goal with
      | |- context [task_atomic ?b] =>
          assert (Hb : keeps (fun s s' => task_process_results s'
                                          = task_process_results s) b);
          [|generalize dependent b]
      end.
      - assert (PreOrder (fun s s' : TaskState =>
                            task_process_results s' = task_process_results s)).
        { split; [intros s; reflexivity|]. intros s1 s2 s3; congruence. }
        assert (Hdb : forall A (m : M DB A),
                  keeps (fun s s' : TaskState =>
                           task_process_results s' = task_process_results s)
                        (on_task_db m)).
        { intros A m; split; intros s. unfold on_task_db.
          destruct (m (task_db s)); reflexivity. }
        repeat first
          [ apply Hdb | k_call | k_ret
          | apply keeps_modify; intros s; reflexivity
          | k_for_each; intros ? _
          | k_bind; [|intros ?] ].
      - intros body [Hb].
        unfold try_except, task_atomic, mbind, M_bind, bind, modify.
        specialize (Hb st).
        destruct (body st) as [a st1|ex st1]; simpl in *.
        + exists true, None, st1. split; [reflexivity | exact Hb].
        + exists false, (Some ex), (set_task_db (fun _ => task_db st) st1).
          split; [reflexivity | exact Hb]. }
    destruct (IH (append_task_result (set_task_outcome ok e st1)))
      as (st' & -> & Hlen & Hlast).
    { unfold last_agrees. simpl. rewrite last_snoc. reflexivity. }
    exists st'. split; [reflexivity|]. split; [|exact Hlast].
    rewrite Hlen. simpl. rewrite length_app, Hres. simpl. lia.
Qed.

Lemma forallb_last {A} (f : A -> bool) (l : list A) :
  default true (f <$> last l) && forallb f l = forallb f l.
Proof.
  destruct (forallb f l) eqn:E; [|apply andb_false_r].
  rewrite andb_true_r. destruct (last l) as [x|] eqn:El; [|reflexivity].
  simpl. rewrite forallb_forall in E. apply E.
  apply list_elem_of_In. apply last_Some_elem_of. exact El.
Qed.

(** [process_survey_input] goes through every survey too, but what it
    returns is the success of the last survey when no user is given, and
    whether every survey succeeded when one is: [True] in both cases when
    there is no survey. *)
Lemma process_survey_input_returns scans user_pk d surveys :
  tasks_parse scans = inr surveys ->
  exists st',
    for_each (tasks_process_survey env) surveys
      (set_task_outcome true None (initial_task_state d)) = Ok tt st'
    /\ length (task_process_results st') = length surveys
    /\ forall b,
         returned (process_survey_input env scans user_pk d) = Some b ->
         b = match given user_pk with
             | None => default true (success <$> last (task_process_results st'))
             | Some _ => forallb success (task_process_results st')
             end.
Proof.
  intros Hparse.
  destruct (tasks_loop_total surveys
              (set_task_outcome true None (initial_task_state d)))
    as (st' & Hloop & Hlen & Hlast); [reflexivity|].
  exists st'. split; [exact Hloop|]. split; [exact Hlen|].
  intros b. unfold process_survey_input. rewrite Hparse.
  unfold mbind, M_bind, bind, modify. rewrite Hloop.
  unfold tasks_report, mbind, M_bind, bind, get.
  destruct (given user_pk) as [pk|].
  - case_bool_decide; simpl; [|discriminate].
    intros [= <-]. unfold last_agrees in Hlast. rewrite Hlast.
    destruct (task_process_results st') as [|r rs] eqn:E; [reflexivity|].
    apply forallb_last.
  - simpl. intros [= <-]. exact Hlast.
Qed.

End Returns.

(** C8.  The spec has both functions return the same success value.  They
    do not.  For the header line alone, sent by user 1001, no survey is
    parsed: [process_survey_input] returns [True], and
    [update_moons_from_survey] returns [False].  For a survey that fails
    followed by one that succeeds, sent by no user,
    [process_survey_input] returns [True], the success of the last
    survey, and [update_moons_from_survey] returns [False]. *)
Theorem survey_functions_return_different_success :
  let env := Sample.env false in
  let two := Sample.scans [Sample.bad_survey; Sample.good_survey] in
  tasks_parse Sample.header = inr []
  /\ returned (process_survey_input env Sample.header (Some 1001) Sample.db)
     = Some true
  /\ returned (update_moons_from_survey env Sample.header (Some 1001) Sample.db)
     = Some false
  /\ match tasks_parse two with
     | inr surveys => length surveys
     | inl _ => 0%nat
     end = 2%nat
  /\ returned (process_survey_input env two None Sample.db) = Some true
  /\ returned (update_moons_from_survey env two None Sample.db) = Some false.
Proof. vm_compute. repeat split; reflexivity. Qed.




End SurveyFacts.

(** ** moonmining/managers.py: the thread pool *)

Module ManagersFacts.
Import Managers.







End ManagersFacts.

(** ** moonmining/views.py *)

Module ViewsFacts.
Import Views.



(** *** The decorators *)

Lemma gate_passed {A} (perms : list string)
  (view : Request -> exn + Response A) (request : Request) :
  is_authenticated request = true ->
  Forall (fun perm => has_perm request perm = true) perms ->
  login_required (permission_required perms view) request = view request.
Proof.
  intros Hauth Hperms. unfold login_required, permission_required.
  rewrite Hauth.
  assert (forallb (has_perm request) perms = true) as ->; [|reflexivity].
  apply forallb_forall. intros perm Hin.
  rewrite Forall_forall in Hperms. apply Hperms.
  apply list_elem_of_In. exact Hin.
Qed.

(** *** [extractions_data] *)





(** Why the moons are asked for: the details button of a row reads the
    primary key of the refinery's moon, and the view raises when an
    extraction of the category belongs to a refinery without one. *)
Lemma extractions_data_raises_without_moon :
  extractions_data Sample.settings
    (Sample.extraction_without_moon :: Sample.extractions) "upcoming"
    Sample.member
  = inl AttributeError.
Proof. reflexivity. Qed.


(** *** [moon_details] *)



(** *** [report_owned_value_data] *)

Lemma insert_by_name_perm x l : insert_by_name x l ≡ₚ x :: l.
Proof.
  induction l as [|y l IH]; simpl; [reflexivity|].
  destruct (String.leb (name x) (name y)); [reflexivity|].
  rewrite IH. apply perm_swap.
Qed.

Lemma order_by_name_perm l : order_by_name l ≡ₚ l.
Proof.
  unfold order_by_name. induction l as [|x l IH]; simpl; [reflexivity|].
  rewrite insert_by_name_perm, IH. reflexivity.
Qed.








Lemma percent_of_spec grand_total moon :
  percent_of grand_total moon
  = inr (expected_percent grand_total (value moon)).
Proof.
  unfold percent_of, expected_percent, truediv.
  destruct (Qlt_le_dec 0 grand_total) as [Hpos|Hneg]; [|reflexivity].
  destruct (Qeq_bool grand_total 0) eqn:E; [|reflexivity].
  apply Qeq_bool_eq in E. rewrite E in Hpos.
  exfalso. exact (Qlt_irrefl 0 Hpos).
Qed.






End ViewsFacts.

(** ** moonplanner/tasks.py: further properties of the task *)

Module PlannerMoreFacts.
Import Planner PlannerSpec PlannerFacts.

#[local] Instance loop_untouched_preorder : PreOrder loop_untouched.
Proof.
  split; [intros st H; split; [exact H | reflexivity]|].
  intros s1 s2 s3 H1 H2 Hk. destruct (H1 Hk) as [Hk2 H12].
  destruct (H2 Hk2) as [Hk3 H23]. split; [exact Hk3 | congruence].
Qed.

Section Ignored.
Variable env : Env.

Lemma rest_of_body_untouched p sid (b1 b2 b3 : bool) :
  keeps loop_untouched
    ((if b1 then on_started env p sid None else ret tt) ≫= fun _ =>
     (if b2 then on_cancelled sid else ret tt) ≫= fun _ =>
     (if b3 then on_finished sid else ret tt)).
Proof.
  k_bind; [apply keeps_if; [unfold on_started; k_ret | k_ret]|intros _].
  k_bind; [apply keeps_if; [|k_ret]|intros _].
  { unfold on_cancelled. k_get_bind; intros st Hk.
    rewrite (Hk sid). simpl. split; [exact Hk | reflexivity]. }
  apply keeps_if; [|k_ret].
  apply keeps_modify; intros s Hk; split; [|reflexivity].
  intros z; simpl. destruct (decide (z = sid)) as [->|Hne].
  - apply lookup_delete_eq.
  - rewrite lookup_delete_ne by congruence. apply Hk.
Qed.

Lemma process_notification_unmatched n st :
  matches (refineries (db st)) n = false ->
  loop_untouched st (final_state (process_notification env n st)).
Proof.
  intros H. apply matches_false_cases in H.
  unfold process_notification. rewrite final_state_bind.
  destruct H as [[e He]|[Ht|(p & Hp & Hs)]].
  - rewrite He. simpl. reflexivity.
  - destruct (text n) as [e|p]; simpl; [reflexivity|]. rewrite Ht. reflexivity.
  - rewrite Hp. simpl.
    destruct (bool_decide (type n ∈ extraction_types)); [|reflexivity].
    rewrite final_state_bind.
    destruct Hs as [Hs|(sid & Hs & Hr)]; rewrite Hs; simpl; [reflexivity|].
    rewrite final_state_bind. simpl. rewrite Hr.
    match goal with
    | |- loop_untouched _ (final_state (?m st)) =>
        assert (Hk : keeps loop_untouched m); [|apply (keeps_run Hk)]
    end.
    k_bind; [|intros _; apply rest_of_body_untouched].
    unfold update_moon_once. k_bind; [k_get | intros _; k_ret].
Qed.

Lemma unmatched_loop_untouched l st :
  no_int_key st ->
  Forall (fun m => matches (refineries (db st)) m = false) l ->
  db (final_state (for_each (process_notification env) l st)) = db st.
Proof.
  revert st; induction l as [|n l IH]; intros st Hk Hl; [reflexivity|].
  apply Forall_cons in Hl as [Hn Hl].
  rewrite final_state_for_each_cons.
  destruct (process_notification_unmatched n st Hn Hk) as [Hk' Hdb].
  destruct (process_notification env n st) as [[] st'|e st']; simpl in *;
    [|exact Hdb].
  rewrite <- Hdb. apply IH; [exact Hk'|]. rewrite Hdb. exact Hl.
Qed.

End Ignored.

(** X1.  The loop of [run_refineries_update] ignores notifications for
    refineries that are not stored, as the comment at line 271 says: when
    no notification is of an extraction type for a stored refinery, the
    database after the loop is the database before it, whether the loop
    ends normally or by an exception. *)
Theorem notifications_for_unknown_refineries_are_ignored
  (env : Env) (notifications : list Notification) (d : DB) :
  Forall (fun n => matches (refineries d) n = false) notifications ->
  final_state (process_notifications env notifications d) = d.
Proof.
  intros Hl.
  assert (Hs : Forall (fun n => matches (refineries d) n = false)
                 (sorted_by_timestamp notifications)).
  { rewrite sorted_by_timestamp_perm. exact Hl. }
  pose proof (unmatched_loop_untouched env (sorted_by_timestamp notifications)
                (initial_loop_state d)) as H.
  unfold process_notifications.
  destruct (for_each _ _ _); simpl in *; apply H; try exact Hs;
    intros z; apply lookup_empty.
Qed.

Lemma notifications_for_unknown_refineries_are_ignored_witness :
  final_state
    (process_notifications (Sample.env (inr []) (inr []))
       [ Sample.started 10 5 Sample.moon_1;
         Sample.cancelled 20 5 Sample.moon_1 ] Sample.db)
  = Sample.db.
Proof.
  apply notifications_for_unknown_refineries_are_ignored.
  repeat constructor.
Defined.

(** *** Rows that the task keeps *)

#[local] Instance same_extractions_preorder : PreOrder same_extractions.
Proof.
  split; [intros d; reflexivity|].
  intros d1 d2 d3 H1 H2; unfold same_extractions in *; congruence.
Qed.

#[local] Instance keeps_unique_preorder : PreOrder keeps_unique.
Proof. split; [intros d H; exact H|]. intros d1 d2 d3 H1 H2 H; auto. Qed.

#[local] Instance loop_keeps_unique_preorder : PreOrder loop_keeps_unique.
Proof.
  split; [intros st H; exact H|].
  intros s1 s2 s3 H1 H2 H; unfold loop_keeps_unique in *; auto.
Qed.

#[local] Instance refineries_stay_preorder : PreOrder refineries_stay.
Proof.
  split; [intros d; unfold refineries_stay; reflexivity|].
  intros d1 d2 d3 H1 H2; unfold refineries_stay in *; set_solver.
Qed.

#[local] Instance same_corporations_preorder' : PreOrder same_corporations.
Proof.
  split; [intros d; reflexivity|].
  intros d1 d2 d3 H1 H2; unfold same_corporations in *; congruence.
Qed.

#[local] Instance same_refineries_preorder' : PreOrder same_refineries.
Proof.
  split; [intros d; reflexivity|].
  intros d1 d2 d3 H1 H2; unfold same_refineries in *; congruence.
Qed.

#[local] Instance extractions_kept_preorder' : PreOrder extractions_kept.
Proof.
  split; [intros d; unfold extractions_kept; reflexivity|].
  intros d1 d2 d3 H1 H2; unfold extractions_kept in *; etransitivity; eauto.
Qed.

#[local] Instance loop_keeps_extractions_preorder' :
  PreOrder loop_keeps_extractions.
Proof.
  split; [intros st H; split; [exact H | reflexivity]|].
  intros s1 s2 s3 H1 H2 Hk. destruct (H1 Hk) as [Hk2 Hs12].
  destruct (H2 Hk2) as [Hk3 Hs23]. split; [exact Hk3|].
  etransitivity; eauto.
Qed.

Ltac frame :=
  split; orm_unfold;
  unfold same_extractions, same_refineries, refineries_stay;
  intros d; simpl; try done;
  repeat (case_match; simplify_eq/=; try done).

Lemma same_extractions_unique {A} (m : M DB A) :
  keeps same_extractions m -> keeps keeps_unique m.
Proof.
  intros [H]; split; intros d Hu. specialize (H d).
  unfold unique_extractions, same_extractions in *. rewrite H. exact Hu.
Qed.

Lemma same_refineries_stay {A} (m : M DB A) :
  keeps same_refineries m -> keeps refineries_stay m.
Proof.
  intros [H]; split; intros d. specialize (H d).
  unfold refineries_stay, same_refineries in *. rewrite H. reflexivity.
Qed.

Section Rows.
Variable env : Env.

Lemma EveType_same_extractions id b :
  keeps same_extractions (EveType_get_or_create_esi env id b).
Proof. frame. Qed.
Lemma EveMoon_same_extractions id :
  keeps same_extractions (EveMoon_get_or_create_esi env id).
Proof. frame. Qed.
Lemma Moon_same_extractions id : keeps same_extractions (Moon_get_or_create id).
Proof. frame. Qed.
Lemma Refinery_save_same_extractions id row :
  keeps same_extractions (Refinery_save id row).
Proof. frame. Qed.
Lemma ExtractionProduct_same_extractions e t v :
  keeps same_extractions (ExtractionProduct_get_or_create e t v).
Proof. frame. Qed.
Lemma EveSolarSystem_refineries id :
  keeps same_refineries (EveSolarSystem_get_or_create_esi env id).
Proof. frame. Qed.

Lemma Refinery_save_stay id row : keeps refineries_stay (Refinery_save id row).
Proof.
  split; intros d. unfold Refinery_save, modify, refineries_stay. simpl.
  rewrite dom_insert_L. set_solver.
Qed.

(** No row has the refinery and the ready time when the query of
    [get_or_create] finds none. *)
Lemma nothing_found (m : gmap Z ExtractionRow) (refinery ready_time : Z) :
  filter (fun kv : Z * ExtractionRow =>
            bool_decide (ext_refinery kv.2 = refinery
                         /\ ext_ready_time kv.2 = ready_time))
         (map_to_list m) = [] ->
  forall k row, m !! k = Some row ->
    ~ (ext_refinery row = refinery /\ ext_ready_time row = ready_time).
Proof.
  intros Hnil k row Hk Hrow.
  assert (Hin : (k, row) ∈ filter
                  (fun kv : Z * ExtractionRow =>
                     bool_decide (ext_refinery kv.2 = refinery
                                  /\ ext_ready_time kv.2 = ready_time))
                  (map_to_list m)).
  { apply list_elem_of_filter. split.
    - apply bool_decide_spec. exact Hrow.
    - apply elem_of_map_to_list. exact Hk. }
  rewrite Hnil in Hin. inversion Hin.
Qed.

Lemma Extraction_get_or_create_unique r t a :
  keeps keeps_unique (Extraction_get_or_create r t a).
Proof.
  split; intros d Hu.
  unfold Extraction_get_or_create, mbind, M_bind, bind, get, modify, ret, raise.
  destruct (filter _ (map_to_list (extractions d))) as [|kv [|kv' found]] eqn:E;
    simpl; try exact Hu.
  pose proof (nothing_found _ _ _ E) as Hnone.
  intros k1 k2 r1 r2. simpl.
  rewrite !lookup_insert.
  repeat case_decide; intros H1 H2 Hr Ht; simplify_eq/=; try reflexivity.
  - exfalso. apply (Hnone k2 r2 H2). auto.
  - exfalso. apply (Hnone k1 r1 H1). auto.
  - exact (Hu k1 k2 r1 r2 H1 H2 Hr Ht).
Qed.

Lemma Extraction_delete_unique pk : keeps keeps_unique (Extraction_delete pk).
Proof.
  split; intros d Hu.
  unfold Extraction_delete, mbind, M_bind, bind, modify. simpl.
  intros k1 k2 r1 r2. simpl.
  rewrite !lookup_delete_Some. intros [_ H1] [_ H2]. apply Hu; assumption.
Qed.

(** What [get_or_create] returns is an extraction of the refinery with the
    ready time. *)
Lemma Extraction_get_or_create_returns r t a d pk d' :
  Extraction_get_or_create r t a d = Ok pk d' ->
  exists row, extractions d' !! pk = Some row
              /\ ext_refinery row = r /\ ext_ready_time row = t.
Proof.
  unfold Extraction_get_or_create, mbind, M_bind, bind, get, modify, ret, raise.
  destruct (filter _ (map_to_list (extractions d))) as [|kv [|kv' found]] eqn:E;
    simpl; intros H; [| |discriminate]; injection H as <- <-.
  - eexists. simpl. rewrite lookup_insert_eq. split; [reflexivity|]. auto.
  - assert (Hin : kv ∈ filter
                    (fun kv : Z * ExtractionRow =>
                       bool_decide (ext_refinery kv.2 = r
                                    /\ ext_ready_time kv.2 = t))
                    (map_to_list (extractions d))) by (rewrite E; left).
    apply list_elem_of_filter in Hin as [Hp Hin].
    apply bool_decide_spec in Hp. destruct kv as [k row].
    apply elem_of_map_to_list in Hin. exists row. auto.
Qed.

#[local] Instance loop_refineries_stay_preorder : PreOrder loop_refineries_stay.
Proof.
  split; [intros st; unfold loop_refineries_stay; reflexivity|].
  intros s1 s2 s3 H1 H2; unfold loop_refineries_stay in *;
    etransitivity; eauto.
Qed.

Lemma on_db_loop_keeps_unique {A} (m : M DB A) :
  keeps keeps_unique m -> keeps loop_keeps_unique (on_db m).
Proof.
  intros H; apply (keeps_on_db keeps_unique); [exact H|].
  intros st d' Hd; exact Hd.
Qed.

Lemma on_db_loop_refineries_stay {A} (m : M DB A) :
  keeps refineries_stay m -> keeps loop_refineries_stay (on_db m).
Proof.
  intros H; apply (keeps_on_db refineries_stay); [exact H|].
  intros st d' Hd; exact Hd.
Qed.

(** One rule for each shape of code in the loop body and in
    [update_refinery]. *)
Ltac rows_go :=
  repeat first
    [ apply on_db_loop_keeps_unique | apply on_db_loop_refineries_stay
    | apply Extraction_get_or_create_unique | apply Extraction_delete_unique
    | apply Refinery_save_stay
    | apply same_extractions_unique;
      first [ apply EveType_same_extractions | apply EveMoon_same_extractions
            | apply Moon_same_extractions
            | apply Refinery_save_same_extractions
            | apply ExtractionProduct_same_extractions ]
    | apply same_refineries_stay;
      first [ apply EveType_refineries | apply EveMoon_refineries
            | apply Moon_refineries | apply EveSolarSystem_refineries
            | apply Extraction_get_or_create_refineries
            | apply ExtractionProduct_refineries
            | apply Extraction_delete_refineries ]
    | k_ret | k_raise | k_call | k_subscript | k_get
    | apply keeps_if
    | apply keeps_modify; intros ?;
      first [ unfold loop_keeps_unique; simpl; intros ?; assumption
            | unfold loop_refineries_stay, refineries_stay; simpl;
              reflexivity ]
    | k_for_each; intros ? _
    | k_bind; [|intros ?]
    | case_match ].

Lemma process_notification_unique n :
  keeps loop_keeps_unique (process_notification env n).
Proof.
  unfold process_notification, update_moon_once, on_started, on_cancelled,
    on_finished.
  rows_go.
Qed.

Lemma process_notification_refineries_stay n :
  keeps loop_refineries_stay (process_notification env n).
Proof.
  unfold process_notification, update_moon_once, on_started, on_cancelled,
    on_finished.
  rows_go.
Qed.

Lemma process_notifications_refineries_stay notifications :
  keeps refineries_stay (process_notifications env notifications).
Proof.
  split; intros d. unfold process_notifications.
  assert (Hk : keeps loop_refineries_stay
                 (for_each (process_notification env)
                    (sorted_by_timestamp notifications))).
  { k_for_each. intros n _. apply process_notification_refineries_stay. }
  pose proof (keeps_run Hk (initial_loop_state d)) as H.
  destruct (for_each _ _ _); exact H.
Qed.

Lemma update_refinery_refineries_stay pk structure :
  keeps refineries_stay (update_refinery env pk structure).
Proof. unfold update_refinery. rows_go. Qed.

Lemma run_refineries_update_refineries_stay pk :
  keeps refineries_stay (run_refineries_update env pk).
Proof.
  unfold run_refineries_update.
  k_bind; [k_get|intros d].
  destruct (mining_corporations d !! pk) as [corp|]; [|k_raise].
  destruct (character corp) as [character_id|]; [|k_ret].
  k_bind; [k_call|intros _].
  k_bind; [k_call|intros _].
  k_bind; [k_call|intros structures].
  k_bind; [k_for_each; intros x _; apply update_refinery_refineries_stay
          |intros _].
  k_bind; [k_call|intros _].
  k_bind; [k_call|intros notifications].
  apply process_notifications_refineries_stay.
Qed.

End Rows.

(** X2.  The loop of [run_refineries_update] never stores a second
    extraction for a refinery and a ready time: when no two extractions
    have the same refinery and ready time before the loop, none have after
    it, however often the API reports the start of an extraction and
    whether the loop ends normally or not. *)
Theorem extractions_stay_unique
  (env : Env) (notifications : list Notification) (d : DB) :
  unique_extractions d ->
  unique_extractions (final_state (process_notifications env notifications d)).
Proof.
  intros Hu. unfold process_notifications.
  assert (Hk : keeps loop_keeps_unique
                 (for_each (process_notification env)
                    (sorted_by_timestamp notifications))).
  { k_for_each. intros n _. apply process_notification_unique. }
  pose proof (keeps_run Hk (initial_loop_state d) Hu) as H.
  destruct (for_each _ _ _); exact H.
Qed.

Lemma extractions_stay_unique_witness :
  unique_extractions
    (final_state
       (process_notifications (Sample.env (inr []) (inr []))
          [ Sample.started 10 Sample.refinery_1 Sample.moon_1;
            Sample.started 20 Sample.refinery_1 Sample.moon_1 ] Sample.db)).
Proof.
  apply extractions_stay_unique.
  intros k1 k2 r1 r2 H1. simpl in H1. rewrite lookup_empty in H1.
  discriminate.
Defined.

(** X3.  [run_refineries_update] never removes a refinery: every refinery that
    is stored before the task is stored after it, whether or not the API
    still lists its structure and whether the task ends normally or by an
    exception. *)
Theorem refineries_are_never_removed (env : Env) (pk : Z) (d : DB) :
  dom (refineries d)
  ⊆ dom (refineries (final_state (run_refineries_update env pk d))).
Proof. apply (keeps_run (run_refineries_update_refineries_stay env pk) d). Qed.

(** *** Extractions that the loop stores *)

#[local] Existing Instance loop_refineries_stay_preorder.

(** When a sequence returns, so does its first part, and the rest returns
    from where the first part ended. *)
Lemma bind_Ok {S A B} (m : M S A) (k : A -> M S B) (s s'' : S) (b : B) :
  (m ≫= k) s = Ok b s'' ->
  exists a s', m s = Ok a s' /\ k a s' = Ok b s''.
Proof.
  unfold mbind, M_bind, bind. destruct (m s) as [a s'|e s']; [eauto|].
  discriminate.
Qed.

Lemma for_each_app_Ok {S A} (f : A -> M S unit) (l1 l2 : list A) (s s'' : S) :
  for_each f (l1 ++ l2) s = Ok tt s'' ->
  exists s', for_each f l1 s = Ok tt s' /\ for_each f l2 s' = Ok tt s''.
Proof.
  rewrite for_each_app. destruct (for_each f l1 s) as [[] s'|e s']; [eauto|].
  discriminate.
Qed.

Lemma has_extraction_kept d d' refinery ready_time :
  extractions_kept d d' ->
  has_extraction d refinery ready_time ->
  has_extraction d' refinery ready_time.
Proof.
  intros Hk (pk & row & Hrow & H). exists pk, row. split; [|exact H].
  eapply lookup_weaken; [exact Hrow | exact Hk].
Qed.

Section Stored.
Variable env : Env.

Lemma loop_extractions_kept l st :
  no_int_key st ->
  no_int_key (final_state (for_each (process_notification env) l st))
  /\ extractions_kept (db st)
       (db (final_state (for_each (process_notification env) l st))).
Proof.
  assert (Hk : keeps loop_keeps_extractions
                 (for_each (process_notification env) l)).
  { k_for_each. intros n _. apply process_notification_extractions. }
  apply (keeps_run Hk st).
Qed.

Lemma loop_refineries_known l st sid :
  is_Some (refineries (db st) !! sid) ->
  is_Some (refineries
             (db (final_state (for_each (process_notification env) l st)))
           !! sid).
Proof.
  assert (Hk : keeps loop_refineries_stay
                 (for_each (process_notification env) l)).
  { k_for_each. intros n _. apply process_notification_refineries_stay. }
  pose proof (keeps_run Hk st) as H.
  unfold loop_refineries_stay, refineries_stay in H.
  rewrite <- !elem_of_dom. intros Hin. apply H, Hin.
Qed.

(** The started branch, when it returns, has an extraction of the refinery
    with the ready time of the notification. *)
Lemma on_started_stores p sid r st st' ready_time :
  readyTime p = Some ready_time ->
  no_int_key st ->
  on_started env p sid (Some r) st = Ok tt st' ->
  has_extraction (db st') sid (ldap_time_2_datetime ready_time).
Proof.
  intros Hready Hk. unfold on_started. rewrite Hready.
  intros H. apply bind_Ok in H as (rt & s1 & H1 & H).
  injection H1 as <- <-.
  apply bind_Ok in H as (auto_time & s2 & H2 & H).
  assert (s2 = st) as ->.
  { destruct (autoTime p); simpl in H2; [injection H2 as _ <-|discriminate].
    reflexivity. }
  apply bind_Ok in H as (extraction & s3 & H3 & H).
  assert (Hhas : has_extraction (db s3) sid (ldap_time_2_datetime ready_time)).
  { unfold on_db in H3.
    destruct (Extraction_get_or_create _ _ _ (db st)) as [pk d'|e d'] eqn:E;
      [|discriminate].
    injection H3 as <- <-. simpl.
    destruct (Extraction_get_or_create_returns _ _ _ _ _ _ E) as (row & Hrow).
    exists pk, row. exact Hrow. }
  assert (Hk3 : no_int_key s3).
  { unfold on_db in H3.
    destruct (Extraction_get_or_create _ _ _ (db st)); [|discriminate].
    injection H3 as <- <-. exact Hk. }
  match type of H with
  | ?m s3 = _ =>
      assert (Hkeep : keeps loop_keeps_extractions m)
  end.
  { k_bind; [|intros _].
    { apply keeps_modify; intros s Hs; split; [|reflexivity].
      intros z; simpl. rewrite lookup_insert_ne by discriminate. apply Hs. }
    k_bind; [k_subscript|intros ore].
    k_for_each; intros item _.
    k_bind; [apply on_db_loop_keeps_extractions, EveType_extractions|intros _].
    apply on_db_loop_keeps_extractions, ExtractionProduct_extractions. }
  destruct (keeps_run Hkeep s3 Hk3) as [_ Hkept].
  rewrite H in Hkept. simpl in Hkept.
  eapply has_extraction_kept; [exact Hkept | exact Hhas].
Qed.

(** A started notification for a stored refinery, when its processing
    returns, has its extraction stored. *)
Lemma process_notification_stores n st st' sid ready_time :
  started_at n sid ready_time ->
  is_Some (refineries (db st) !! sid) ->
  no_int_key st ->
  process_notification env n st = Ok tt st' ->
  has_extraction (db st') sid (ldap_time_2_datetime ready_time).
Proof.
  intros (Htype & p & Hp & Hsid & Hready) [r Hr] Hk.
  unfold process_notification. rewrite Hp, Htype.
  intros H. apply bind_Ok in H as (p' & s1 & H1 & H).
  injection H1 as <- <-.
  rewrite bool_decide_eq_true_2 in H
    by (unfold extraction_types; set_solver).
  rewrite Hsid in H.
  apply bind_Ok in H as (sid' & s1 & H1 & H). injection H1 as <- <-.
  apply bind_Ok in H as (st0 & s1 & H1 & H). injection H1 as <- <-.
  cbv zeta in H. rewrite Hr in H.
  apply bind_Ok in H as ([] & s1 & H1 & H).
  assert (Hk1 : no_int_key s1).
  { destruct (keeps_run (update_moon_once_extractions env p sid (Some r))
                st Hk) as [Hk1 _].
    rewrite H1 in Hk1. exact Hk1. }
  rewrite (bool_decide_eq_true_2
             ("MoonminingExtractionStarted" = "MoonminingExtractionStarted"))
    in H by reflexivity.
  apply bind_Ok in H as ([] & s2 & H2 & H).
  pose proof (on_started_stores p sid r s1 s2 ready_time Hready Hk1 H2) as Hhas.
  rewrite (bool_decide_eq_false_2
             ("MoonminingExtractionStarted" = "MoonminingExtractionCancelled")),
    (bool_decide_eq_false_2
       ("MoonminingExtractionStarted" = "MoonminingExtractionFinished"))
    in H by discriminate.
  unfold mbind, M_bind, bind, ret in H. injection H as <-. exact Hhas.
Qed.

End Stored.

(** X4.  After a run of the loop that ends normally, every notification
    of a started extraction at a refinery that was stored before the loop
    has its extraction in the database: one of that refinery with the
    ready time of the notification, whatever notifications came after
    it. *)
Theorem started_extractions_are_stored
  (env : Env) (notifications : list Notification) (d d' : DB)
  (n : Notification) (structure_id ready_time : Z) :
  process_notifications env notifications d = Ok tt d' ->
  n ∈ notifications ->
  started_at n structure_id ready_time ->
  is_Some (refineries d !! structure_id) ->
  has_extraction d' structure_id (ldap_time_2_datetime ready_time).
Proof.
  intros Hrun Hin Hstarted Hknown. unfold process_notifications in Hrun.
  destruct (for_each (process_notification env)
              (sorted_by_timestamp notifications) (initial_loop_state d))
    as [[] st|e st] eqn:E; [|discriminate].
  injection Hrun as <-.
  assert (Hin' : n ∈ sorted_by_timestamp notifications)
    by (rewrite sorted_by_timestamp_perm; exact Hin).
  apply list_elem_of_split in Hin' as (l1 & l2 & Hsplit).
  rewrite Hsplit in E.
  apply for_each_app_Ok in E as (s1 & E1 & E2).
  simpl in E2. apply (bind_Ok (process_notification env n)) in E2
    as ([] & s2 & En & E2).
  assert (Hk0 : no_int_key (initial_loop_state d))
    by (intros z; apply lookup_empty).
  destruct (loop_extractions_kept env l1 _ Hk0) as [Hk1 _].
  pose proof (loop_refineries_known env l1 (initial_loop_state d)
                structure_id Hknown) as Hknown1.
  rewrite E1 in Hk1, Hknown1. simpl in Hk1, Hknown1.
  pose proof (process_notification_stores env n s1 s2 structure_id ready_time
                Hstarted Hknown1 Hk1 En) as Hhas.
  destruct (keeps_run (process_notification_extractions env n) s1 Hk1)
    as [Hk2 _].
  rewrite En in Hk2. simpl in Hk2.
  destruct (loop_extractions_kept env l2 s2 Hk2) as [_ Hkept].
  rewrite E2 in Hkept. simpl in Hkept.
  eapply has_extraction_kept; [exact Hkept | exact Hhas].
Qed.

Lemma started_extractions_are_stored_witness :
  has_extraction
    (final_state
       (process_notifications (Sample.env (inr []) (inr []))
          [ Sample.cancelled 20 Sample.refinery_1 Sample.moon_1;
            Sample.started 10 Sample.refinery_1 Sample.moon_1 ] Sample.db))
    Sample.refinery_1 (ldap_time_2_datetime 132000000000000000).
Proof.
  eapply (started_extractions_are_stored (Sample.env (inr []) (inr []))
            [ Sample.cancelled 20 Sample.refinery_1 Sample.moon_1;
              Sample.started 10 Sample.refinery_1 Sample.moon_1 ] Sample.db _
            (Sample.started 10 Sample.refinery_1 Sample.moon_1)).
  - vm_compute. reflexivity.
  - right. left.
  - split; [reflexivity|]. eexists. repeat split; reflexivity.
  - eexists. vm_compute. reflexivity.
Defined.

End PlannerMoreFacts.

(** ** moonmining/views.py: further properties of the views *)

Module ViewsMoreFacts.
Import Views MoonViews ViewsSpec ViewsFacts.

(** *** [moons_data] *)

Lemma collect_from {A B} (f : A -> exn + B) (l : list A) (ys : list B) :
  collect f l = inr ys ->
  Forall (fun y => exists x, x ∈ l /\ f x = inr y) ys.
Proof.
  revert ys; induction l as [|x l IH]; simpl; intros ys H.
  - injection H as <-. constructor.
  - destruct (f x) as [e|y] eqn:Ef; [discriminate|].
    destruct (collect f l) as [e|ys'] eqn:Ec; [discriminate|].
    injection H as <-. constructor.
    + exists x. split; [left | exact Ef].
    + eapply Forall_impl; [apply IH; reflexivity|].
      intros y' (x' & Hx' & Hy'). exists x'. split; [right; exact Hx' | exact Hy'].
Qed.

Lemma gate_open {A} (perms : list string)
  (view : Request -> exn + Response A) (request : Request) (data : A) :
  login_required (permission_required perms view) request
    = inr (JsonResponse data) ->
  is_authenticated request = true
  /\ Forall (fun perm => has_perm request perm = true) perms
  /\ view request = inr (JsonResponse data).
Proof.
  unfold login_required, permission_required.
  destruct (is_authenticated request); [|discriminate].
  destruct (forallb (has_perm request) perms) eqn:E; [|discriminate].
  intros H. split; [reflexivity|]. split; [|exact H].
  apply Forall_forall. intros perm Hin.
  rewrite forallb_forall in E. apply E, list_elem_of_In, Hin.
Qed.

Lemma moons_data_rows label user all_moons category request data :
  moons_data label user all_moons category request = inr (JsonResponse data) ->
  is_authenticated request = true
  /\ has_perm request "moonmining.basic_access" = true
  /\ Forall (fun row =>
               exists entry,
                 entry ∈ all_moons
                 /\ moon_data label request entry = inr row
                 /\ permitted user category request entry) data.
Proof.
  intros H. apply gate_open in H as (Hauth & Hperms & Hview).
  split; [exact Hauth|]. split; [inversion Hperms; assumption|].
  unfold moons_data_view in Hview.
  assert (Hlisted : forall query,
            match collect (moon_data label request) query with
            | inl e => inl e
            | inr rows => inr (JsonResponse rows)
            end = inr (JsonResponse data) ->
            Forall (fun row =>
                      exists entry, entry ∈ query
                                    /\ moon_data label request entry = inr row)
                   data).
  { intros query Hq.
    destruct (collect (moon_data label request) query) as [e|rows] eqn:Ec;
      [discriminate|].
    injection Hq as <-. apply collect_from, Ec. }
  destruct (bool_decide (category = "all_moons")
            && has_perm request "moonmining.view_all_moons") eqn:E1.
  { apply andb_true_iff in E1 as [Hc Hp]. apply bool_decide_eq_true in Hc.
    eapply Forall_impl; [apply Hlisted, Hview|].
    intros row (entry & Hin & Hrow). exists entry.
    split; [exact Hin|]. split; [exact Hrow|]. left. split; assumption. }
  destruct (bool_decide (category = "our_moons")
            && has_perm request "moonmining.extractions_access") eqn:E2.
  { apply andb_true_iff in E2 as [Hc Hp]. apply bool_decide_eq_true in Hc.
    eapply Forall_impl; [apply Hlisted, Hview|].
    intros row (entry & Hin & Hrow).
    apply list_elem_of_filter in Hin as [Hr Hin]. exists entry.
    split; [exact Hin|]. split; [exact Hrow|]. right; left.
    repeat split; assumption. }
  destruct (bool_decide (category = "uploads")
            && has_perm request "moonmining.upload_moon_scan") eqn:E3.
  { apply andb_true_iff in E3 as [Hc Hp]. apply bool_decide_eq_true in Hc.
    eapply Forall_impl; [apply Hlisted, Hview|].
    intros row (entry & Hin & Hrow).
    apply list_elem_of_filter in Hin as [Hr Hin]. exists entry.
    split; [exact Hin|]. split; [exact Hrow|]. right; right.
    repeat split; assumption. }
  injection Hview as <-. constructor.
Qed.

Lemma moon_data_id label request entry row :
  moon_data label request entry = inr row ->
  moon_id row = pk (moon entry)
  /\ has_refinery row = bool_decide (is_Some (moon_refinery (moon entry)))
  /\ (forall target,
        details row = Some target ->
        target = pk (moon entry)
        /\ (has_perm request "moonmining.view_all_moons" = true
            \/ has_perm request "moonmining.extractions_access" = true)).
Proof.
  unfold moon_data.
  destruct (label (rarity_class (moon entry))) as [e|l]; [discriminate|].
  intros [= <-]. cbn. split; [reflexivity|]. split; [reflexivity|].
  intros target.
  destruct (moon_refinery (moon entry)) as [r|];
    destruct (has_perm request "moonmining.extractions_access"),
             (has_perm request "moonmining.view_all_moons");
    cbn; intros [= <-]; auto.
Qed.

(** X5.  [moons_data] discloses a moon only to a user who may see it: when
    the view answers with a list, the user is logged in and has
    basic_access, and every element of the list is a stored moon that the
    category lets this user see: any moon under "all_moons" with
    view_all_moons, a moon with a refinery under "our_moons" with
    extractions_access, a moon whose products the user uploaded under
    "uploads" with upload_moon_scan.  For any other category, and without
    the permission of the category, the list is empty. *)
Theorem moons_data_shows_only_permitted_moons
  (label : Z -> exn + string) (user : Z) (all_moons : list MoonEntry)
  (category : string) (request : Request) (data : list MoonData) :
  moons_data label user all_moons category request = inr (JsonResponse data) ->
  is_authenticated request = true
  /\ has_perm request "moonmining.basic_access" = true
  /\ Forall (fun row =>
               exists entry,
                 entry ∈ all_moons
                 /\ moon_id row = pk (moon entry)
                 /\ has_refinery row
                    = bool_decide (is_Some (moon_refinery (moon entry)))
                 /\ permitted user category request entry) data.
Proof.
  intros H. apply moons_data_rows in H as (Hauth & Hbasic & Hrows).
  split; [exact Hauth|]. split; [exact Hbasic|].
  eapply Forall_impl; [exact Hrows|].
  intros row (entry & Hin & Hrow & Hperm).
  apply moon_data_id in Hrow as (Hid & Href & _).
  exists entry. repeat split; assumption.
Qed.

Lemma moons_data_shows_only_permitted_moons_witness :
  exists data,
    moons_data Sample.label 1001 Sample.moons "our_moons" Sample.miner
      = inr (JsonResponse data)
    /\ Forall (fun row => has_refinery row = true) data
    /\ length data = 1%nat.
Proof.
  eexists. split; [vm_compute; reflexivity|].
  split; [|reflexivity].
  destruct (moons_data_shows_only_permitted_moons Sample.label 1001
              Sample.moons "our_moons" Sample.miner _ eq_refl)
    as (_ & _ & Hrows).
  eapply Forall_impl; [exact Hrows|].
  intros row (entry & _ & _ & -> & [[Hc _]|[(_ & _ & Hr)|[Hc _]]]);
    [discriminate | | discriminate].
  apply bool_decide_eq_true. exact Hr.
Defined.

(** X6.  A details button that [moons_data] shows leads somewhere: for
    the same user and the same database, [moon_details] for the moon of
    the button answers with the details page of that moon, neither with
    404 nor with 401. *)
Theorem moons_data_details_button_opens_page
  (label : Z -> exn + string) (user : Z) (all_moons : list MoonEntry)
  (all_extractions : list ExtractionRow) (category : string)
  (request : Request) (data : list MoonData) (row : MoonData) (target : Z) :
  moons_data label user all_moons category request = inr (JsonResponse data) ->
  row ∈ data ->
  details row = Some target ->
  exists context,
    moon_details (moon <$> all_moons) all_extractions target request
      = inr (render "moonmining/moon_details.html" context)
    /\ pk (context_moon context) = target.
Proof.
  intros H Hrow Hbutton.
  apply moons_data_rows in H as (Hauth & Hbasic & Hrows).
  rewrite Forall_forall in Hrows.
  destruct (Hrows row Hrow) as (entry & Hin & Hdata & _).
  apply moon_data_id in Hdata as (_ & _ & Hdetails).
  destruct (Hdetails target Hbutton) as [-> Hperm].
  unfold moon_details. rewrite gate_passed;
    [|exact Hauth | repeat constructor; exact Hbasic].
  unfold moon_details_view.
  destruct (filter (fun m => pk m = pk (moon entry)) (moon <$> all_moons))
    as [|found rest] eqn:E.
  { exfalso.
    assert (Hm : moon entry ∈ filter (fun m => pk m = pk (moon entry))
                                     (moon <$> all_moons)).
    { apply list_elem_of_filter. split; [reflexivity|].
      apply list_elem_of_fmap. exists entry. split; [reflexivity | exact Hin]. }
    rewrite E in Hm. inversion Hm. }
  assert (Hfound : pk found = pk (moon entry)).
  { assert (Hm : found ∈ filter (fun m => pk m = pk (moon entry))
                                (moon <$> all_moons))
      by (rewrite E; left).
    apply list_elem_of_filter in Hm as [Hm _]. exact Hm. }
  assert (negb (has_perm request "moonmining.view_all_moons")
          && negb (has_perm request "moonmining.extractions_access") = false)
    as ->.
  { destruct Hperm as [-> | ->]; [reflexivity|]. apply andb_false_r. }
  eexists. split; [reflexivity|]. exact Hfound.
Qed.

Lemma moons_data_details_button_opens_page_witness :
  exists context,
    moon_details (moon <$> Sample.moons) Views.Sample.extractions 40161708
      Sample.miner
    = inr (render "moonmining/moon_details.html" context)
    /\ pk (context_moon context) = 40161708.
Proof.
  eapply (moons_data_details_button_opens_page Sample.label 1001 Sample.moons
            Views.Sample.extractions "our_moons" Sample.miner).
  - vm_compute. reflexivity.
  - left.
  - reflexivity.
Defined.

(** *** [extractions_data]: the flag [is_ready] *)

Lemma extraction_data_fields request extraction row :
  extraction_data request extraction = inr row ->
  data_ready_time row = ready_time extraction
  /\ data_is_ready row = bool_decide (ready_time extraction <= now request).
Proof.
  unfold extraction_data.
  destruct (moon_details_button_html _); [discriminate|].
  intros [= <-]. split; reflexivity.
Qed.

(** X7.  In the list of [extractions_data] the flag [is_ready] says that
    the ready time has come.  When the setting
    MOONMINING_EXTRACTIONS_HOURS_UNTIL_STALE is not negative, every
    extraction under "past" is ready, and an extraction under "upcoming"
    that is ready became so within that many hours before now. *)
Theorem past_extractions_are_ready
  (settings : Settings) (all_extractions : list ExtractionRow)
  (category : string) (request : Request) (data : list ExtractionData) :
  0 <= MOONMINING_EXTRACTIONS_HOURS_UNTIL_STALE settings ->
  extractions_data settings all_extractions category request
    = inr (JsonResponse data) ->
  Forall (fun row =>
            (data_is_ready row = true <-> data_ready_time row <= now request)
            /\ (category = "past" -> data_is_ready row = true)
            /\ (category = "upcoming" ->
                now request
                - timedelta_hours
                    (MOONMINING_EXTRACTIONS_HOURS_UNTIL_STALE settings)
                <= data_ready_time row)) data.
Proof.
  intros Hstale H. apply gate_open in H as (_ & _ & Hview).
  unfold extractions_data_view in Hview. cbv zeta in Hview.
  destruct (collect _ _) as [e|rows] eqn:Ec; [discriminate|].
  injection Hview as <-. apply collect_from in Ec.
  eapply Forall_impl; [exact Ec|].
  intros row (extraction & Hin & Hrow). cbv beta in *.
  apply extraction_data_fields in Hrow as [-> ->].
  split; [apply bool_decide_eq_true|].
  unfold timedelta_hours in *.
  split; intros ->.
  - rewrite bool_decide_eq_true_2 in Hin by reflexivity.
    apply list_elem_of_filter in Hin as [Hlt _].
    apply bool_decide_eq_true. lia.
  - rewrite bool_decide_eq_false_2 in Hin by discriminate.
    rewrite bool_decide_eq_true_2 in Hin by reflexivity.
    apply list_elem_of_filter in Hin as [Hle _]. exact Hle.
Qed.

Lemma past_extractions_are_ready_witness :
  exists data,
    extractions_data Views.Sample.settings Views.Sample.extractions "past" Views.Sample.member
      = inr (JsonResponse data)
    /\ Forall (fun row => data_is_ready row = true) data
    /\ length data = 1%nat.
Proof.
  eexists. split; [vm_compute; reflexivity|]. split; [|reflexivity].
  pose proof (past_extractions_are_ready Views.Sample.settings Views.Sample.extractions
                "past" Views.Sample.member _ ltac:(simpl; lia) eq_refl) as H.
  eapply Forall_impl; [exact H|].
  intros row (_ & Hpast & _). apply Hpast. reflexivity.
Defined.

(** *** [moon_details]: the pulls of the page *)

Lemma gate_open_page {A} (perms : list string)
  (view : Request -> exn + Response A) (request : Request)
  (template : string) (context : A) :
  login_required (permission_required perms view) request
    = inr (render template context) ->
  view request = inr (render template context).
Proof.
  unfold login_required, permission_required.
  destruct (is_authenticated request); [|discriminate].
  destruct (forallb (has_perm request) perms); [|discriminate].
  intros H; exact H.
Qed.

Lemma insert_desc_perm {A} (key : A -> Z) x l : insert_desc key x l ≡ₚ x :: l.
Proof.
  induction l as [|y l IH]; simpl; [reflexivity|].
  destruct (key y <=? key x)%Z; [reflexivity|].
  rewrite IH. apply perm_swap.
Qed.

Lemma order_by_desc_perm {A} (key : A -> Z) l : order_by_desc key l ≡ₚ l.
Proof.
  unfold order_by_desc. induction l as [|x l IH]; simpl; [reflexivity|].
  rewrite insert_desc_perm, IH. reflexivity.
Qed.

Lemma first_elem_of (l : list ExtractionRow) e : first l = Some e -> e ∈ l.
Proof.
  unfold first. revert e; induction l as [|x l IH]; simpl; intros e H;
    [discriminate|].
  destruct (foldr _ None l) as [b|] eqn:E.
  - destruct (extraction_pk x <=? extraction_pk b)%Z; injection H as <-;
      [left | right; apply IH; reflexivity].
  - injection H as <-. left.
Qed.

Lemma foldl_sum {A} (f : A -> Q) (a : Q) (l : list A) :
  (foldl (fun acc x => acc + f x) a l == a + sumQ (f <$> l))%Q.
Proof.
  revert a; induction l as [|x l IH]; intros a; cbn [foldl fmap list_fmap].
  - unfold sumQ. cbn [foldr]. ring.
  - rewrite (IH (a + f x)%Q). unfold sumQ. cbn [foldr]. ring.
Qed.

(** X8.  The page of [moon_details] is consistent: it shows the moon that
    was asked for, one row for each of its products, and past pulls only
    together with a next pull.  The next pull is an extraction of the
    moon's refinery that is not yet ready, its total volume and total
    value are the sums over the product rows shown with it (a product
    without a value counting as 0), and every past pull is an extraction
    of the same refinery whose ready time has passed. *)
Theorem moon_details_page_is_consistent
  (all_moons : list MoonRow) (all_extractions : list ExtractionRow)
  (moon_pk : Z) (request : Request) (context : MoonDetailsContext) :
  moon_details all_moons all_extractions moon_pk request
    = inr (render "moonmining/moon_details.html" context) ->
  context_moon context ∈ all_moons
  /\ pk (context_moon context) = moon_pk
  /\ length (product_rows context)
     = length (moon_products (context_moon context))
  /\ (next_pull context = None <-> ppulls context = None)
  /\ (forall p,
        next_pull context = Some p ->
        now request <= pull_ready_time p
        /\ (total_volume p == sumQ (pull_volume <$> pull_products p))%Q
        /\ (total_value p
            == sumQ ((fun r => default_if_none (pull_value r) 0%Q)
                     <$> pull_products p))%Q
        /\ exists e,
             e ∈ all_extractions /\ of_moon (context_moon context) e
             /\ ready_time e = pull_ready_time p
             /\ auto_time e = pull_auto_time p)
  /\ (forall l e,
        ppulls context = Some l -> e ∈ l ->
        ready_time e < now request
        /\ e ∈ all_extractions /\ of_moon (context_moon context) e).
Proof.
  intros H. apply gate_open_page in H. unfold moon_details_view in H.
  destruct (filter (fun m => pk m = moon_pk) all_moons) as [|moon rest] eqn:E;
    [discriminate|].
  assert (Hmoon : moon ∈ filter (fun m => pk m = moon_pk) all_moons)
    by (rewrite E; left).
  apply list_elem_of_filter in Hmoon as [Hpk Hin].
  destruct (negb _ && negb _); [discriminate|].
  injection H as <-. unfold moon_details_context. cbn [context_moon].
  split; [exact Hin|]. split; [exact Hpk|]. split.
  { cbn [product_rows]. rewrite length_fmap.
    apply Permutation_length, order_by_desc_perm. }
  destruct (moon_refinery moon) as [r|] eqn:Er; cbn [next_pull ppulls];
    [|repeat split; intros; discriminate].
  destruct (first _) as [next|] eqn:Ef; cbn [fst snd];
    [|repeat split; intros; discriminate].
  apply first_elem_of in Ef.
  apply list_elem_of_filter in Ef as [Hready Ef].
  apply list_elem_of_filter in Ef as [Hr Hnext].
  split; [split; intros; discriminate|]. split.
  - intros p [= <-].
    cbn [pull_ready_time pull_auto_time total_volume total_value
         pull_products].
    split; [exact Hready|]. split; [|split].
    + rewrite foldl_sum, <- list_fmap_compose, Qplus_0_l. reflexivity.
    + rewrite (foldl_sum (fun product =>
                            default_if_none (product_value product) 0%Q)).
      rewrite <- list_fmap_compose, Qplus_0_l. reflexivity.
    + exists next. split; [exact Hnext|]. split; [|split; reflexivity].
      exists r. split; [exact Er | exact Hr].
  - intros l e [= <-] He.
    apply list_elem_of_filter in He as [Hpast He].
    apply list_elem_of_filter in He as [Hre He].
    split; [exact Hpast|]. split; [exact He|].
    exists r. split; [exact Er | exact Hre].
Qed.

Lemma moon_details_page_is_consistent_witness :
  exists context,
    moon_details Views.Sample.moons Views.Sample.extractions 40161708 Views.Sample.member
      = inr (render "moonmining/moon_details.html" context)
    /\ pk (context_moon context) = 40161708.
Proof.
  eexists. split; [vm_compute; reflexivity|].
  apply (moon_details_page_is_consistent Views.Sample.moons Views.Sample.extractions
           40161708 Views.Sample.member _ eq_refl).
Defined.

(** *** [report_owned_value_data]: the percentages *)








(** *** [report_owned_value_data]: the rows *)

Lemma elem_of_concat {A} (x : A) (ls : list (list A)) :
  x ∈ concat ls <-> exists l, x ∈ l /\ l ∈ ls.
Proof.
  rewrite list_elem_of_In, in_concat. split.
  - intros (l & Hl & Hx). exists l. rewrite !list_elem_of_In. split; assumption.
  - intros (l & Hx & Hl). exists l. rewrite <- !list_elem_of_In.
    split; assumption.
Qed.

Lemma filter_none {A} (P : A -> Prop) `{forall x, Decision (P x)} (l : list A) :
  (forall x, x ∈ l -> ~ P x) -> filter P l = [].
Proof.
  intros Hl. destruct (filter P l) as [|x rest] eqn:E; [reflexivity|].
  assert (Hx : x ∈ filter P l) by (rewrite E; left).
  apply list_elem_of_filter in Hx as [HP Hx]. destruct (Hl x Hx HP).
Qed.

Lemma grouped_owner l corporation_moons m :
  grouped l corporation_moons -> m ∈ l -> owner_of m ∈ corporation_moons.*1.
Proof.
  intros (_ & Hfilter & Hperm) Hm. rewrite <- Hperm in Hm.
  apply elem_of_concat in Hm as (ms & Hm & Hms).
  apply list_elem_of_fmap in Hms as (entry & -> & Hentry).
  rewrite Forall_forall in Hfilter. rewrite (Hfilter _ Hentry) in Hm.
  apply list_elem_of_filter in Hm as [Hown _].
  apply list_elem_of_fmap. exists entry. split; [exact Hown | exact Hentry].
Qed.

Lemma filter_snoc_owner (key : string) l moon :
  filter (fun m => owner_of m = key) (l ++ [moon])%list
  = (filter (fun m => owner_of m = key) l
     ++ if decide (owner_of moon = key) then [moon] else [])%list.
Proof.
  rewrite filter_app. reflexivity.
Qed.

Lemma add_moon_grouped moon l corporation_moons :
  NoDup corporation_moons.*1 ->
  Forall (fun entry =>
            moons entry.2 = filter (fun m => owner_of m = entry.1) l)
         corporation_moons ->
  (owner_of moon ∉ corporation_moons.*1 ->
   filter (fun m => owner_of m = owner_of moon) l = []) ->
  let added := add_moon (owner_of moon) moon corporation_moons in
  Forall (fun entry =>
            moons entry.2
            = filter (fun m => owner_of m = entry.1) (l ++ [moon])%list) added
  /\ (added.*1 = corporation_moons.*1
      \/ ((owner_of moon ∉ corporation_moons.*1)
          /\ added.*1 = (corporation_moons.*1 ++ [owner_of moon])%list))
  /\ concat ((fun entry => moons entry.2) <$> added)
     ≡ₚ (concat ((fun entry => moons entry.2) <$> corporation_moons) ++ [moon])%list.
Proof.
  cbv zeta.
  induction corporation_moons as [|[key details] rest IH];
    intros Hnd Hall Hnew; cbn [add_moon].
  - split; [|split].
    + constructor; [|constructor]. cbn [fst snd moons].
      rewrite filter_snoc_owner, Hnew by (cbn; apply not_elem_of_nil).
      rewrite decide_True by reflexivity. reflexivity.
    + right. split; [cbn; apply not_elem_of_nil | reflexivity].
    + cbn. reflexivity.
  - cbn [fmap list_fmap fst] in Hnd. apply NoDup_cons in Hnd as [Hkey Hnd].
    apply Forall_cons in Hall as [Hhead Hall]. cbn [fst snd] in Hhead.
    case_bool_decide as Hk.
    + subst key. split; [|split].
      * constructor.
        -- cbn [fst snd moons]. rewrite filter_snoc_owner, Hhead.
           rewrite decide_True by reflexivity. reflexivity.
        -- rewrite Forall_forall in Hall. apply Forall_forall.
           intros entry Hentry. rewrite filter_snoc_owner, (Hall _ Hentry).
           rewrite decide_False; [rewrite app_nil_r; reflexivity|].
           intros Heq. apply Hkey. rewrite Heq.
           apply list_elem_of_fmap. exists entry. split; [reflexivity|exact Hentry].
      * left. reflexivity.
      * cbn [fmap list_fmap concat snd moons].
        rewrite <- !app_assoc. apply Permutation_app_head.
        apply Permutation_app_comm.
    + destruct (IH Hnd Hall) as (Hall' & Hkeys & Hperm).
      { intros Hnot. apply Hnew. cbn [fmap list_fmap fst].
        intros Hin. apply elem_of_cons in Hin as [Hin|Hin]; [|exact (Hnot Hin)].
        apply Hk. symmetry. exact Hin. }
      split; [|split].
      * constructor; [|exact Hall']. cbn [fst snd].
        rewrite filter_snoc_owner, Hhead, decide_False;
          [rewrite app_nil_r; reflexivity|].
        intros Heq. apply Hk. symmetry. exact Heq.
      * cbn [fmap list_fmap fst].
        destruct Hkeys as [->|[Hnot ->]]; [left; reflexivity|].
        right. split; [|reflexivity].
        intros Hin. apply elem_of_cons in Hin as [Hin|Hin]; [|exact (Hnot Hin)].
        apply Hk. symmetry. exact Hin.
      * cbn [fmap list_fmap concat snd]. rewrite Hperm, app_assoc. reflexivity.
Qed.

Lemma group_by_corporation_grouped l pre corporation_moons :
  Forall (fun m => is_Some (moon_refinery m)) l ->
  grouped pre corporation_moons ->
  exists result,
    group_by_corporation l corporation_moons = inr result
    /\ grouped (pre ++ l)%list result.
Proof.
  intros Hl; revert pre corporation_moons.
  induction Hl as [|moon l [r Hr] _ IH]; intros pre corporation_moons Hg;
    cbn [group_by_corporation].
  - exists corporation_moons. rewrite app_nil_r. split; [reflexivity | exact Hg].
  - assert (Hname : corporation_name_of moon = inr (owner_of moon)).
    { unfold corporation_name_of, owner_of. rewrite Hr. reflexivity. }
    rewrite Hname.
    destruct (IH (pre ++ [moon])%list
                 (add_moon (owner_of moon) moon corporation_moons))
      as (result & Hresult & Hgrouped).
    { destruct Hg as (Hnd & Hall & Hperm).
      destruct (add_moon_grouped moon pre corporation_moons Hnd Hall)
        as (Hall' & Hkeys & Hperm').
      { intros Hnot. apply filter_none.
        intros m Hm Heq. apply Hnot. rewrite <- Heq.
        apply (grouped_owner pre); [repeat split; assumption | exact Hm]. }
      split; [|split].
      - destruct Hkeys as [->|[Hnot ->]]; [exact Hnd|].
        apply NoDup_app. split; [exact Hnd|]. split; [|apply NoDup_singleton].
        intros x Hx Hx'. apply list_elem_of_singleton in Hx'. subst x.
        exact (Hnot Hx).
      - exact Hall'.
      - rewrite Hperm', Hperm. reflexivity. }
    exists result. split; [exact Hresult|].
    rewrite <- app_assoc in Hgrouped. exact Hgrouped.
Qed.

Lemma moons_data_shows grand_total moon_ranks corporation counter l rows :
  Views.moons_data grand_total moon_ranks corporation counter l = inr rows ->
  Forall2 (shows moon_ranks corporation) l rows.
Proof.
  revert counter rows.
  induction l as [|moon l IH]; intros counter rows; cbn [Views.moons_data].
  - intros [= <-]. constructor.
  - unfold Views.moon_data. rewrite percent_of_spec.
    destruct (Views.moons_data _ _ _ (S counter) l) as [e|rows'] eqn:E;
      [discriminate|].
    intros [= <-]. constructor; [|eapply IH; exact E].
    repeat split.
Qed.

Lemma corporation_data_shows grand_total moon_ranks entry rows :
  corporation_data grand_total moon_ranks entry = inr rows ->
  exists moon_part total_row,
    rows = (moon_part ++ [total_row])%list
    /\ Forall2 (shows moon_ranks (entry.1, length (moons entry.2)))
         (moons entry.2) moon_part
    /\ is_total total_row = true
    /\ report_corporation total_row = (entry.1, length (moons entry.2))
    /\ report_total total_row = Some (total entry.2)
    /\ report_value total_row = None
    /\ report_rank total_row = None.
Proof.
  unfold corporation_data.
  destruct (Views.moons_data _ _ _ _ _) as [e|mrows] eqn:E; [discriminate|].
  intros [= <-]. eexists _, _. split; [reflexivity|].
  split; [eapply moons_data_shows; exact E|]. repeat split.
Qed.








(** *** [report_owned_value_data]: the ranks *)

Lemma report_row_origin all_moons request data :
  report_owned_value_data all_moons request = inr (JsonResponse data) ->
  Forall (fun row =>
            (is_total row = true
             /\ report_value row = None /\ report_rank row = None)
            \/ exists m corporation,
                 m ∈ owned all_moons
                 /\ shows (pk <$> order_by_value_desc
                             (filter (fun m => is_Some (value m))
                                (owned all_moons)))
                      corporation m row) data.
Proof.
  intros H. apply gate_open in H as (_ & _ & Hview).
  unfold report_owned_value_data_view in Hview. cbv zeta in Hview.
  destruct (group_by_corporation_grouped (order_by_name (owned all_moons))
              [] []) as (corporation_moons & Hgroup & (_ & _ & Hperm)).
  { rewrite order_by_name_perm. unfold owned.
    apply Forall_forall. intros m Hm.
    apply list_elem_of_filter in Hm as [Hm _]. exact Hm. }
  { split; [constructor|]. split; [constructor | reflexivity]. }
  rewrite Hgroup in Hview.
  destruct (collect _ _) as [e|rows_list] eqn:Ec; [discriminate|].
  injection Hview as <-. apply collect_from in Ec.
  rewrite Forall_forall in Ec. apply Forall_forall. intros row Hrow.
  apply elem_of_concat in Hrow as (rows & Hrow & Hrows).
  destruct (Ec rows Hrows) as (entry & Hentry & Hdata).
  apply corporation_data_shows in Hdata
    as (part & total_row & -> & Hpart & Htotal & _ & _ & Hvalue & Hrank).
  apply elem_of_app in Hrow as [Hrow|Hrow].
  - right. apply list_elem_of_lookup in Hrow as [i Hi].
    destruct (Forall2_lookup_r _ _ _ _ _ Hpart Hi) as (m & Hm & Hshows).
    exists m, (entry.1, length (moons entry.2)). split; [|exact Hshows].
    rewrite <- (order_by_name_perm (owned all_moons)), <- Hperm.
    apply elem_of_concat. exists (moons entry.2).
    split; [eapply list_elem_of_lookup_2; exact Hm|].
    apply list_elem_of_fmap. exists entry. split; [reflexivity | exact Hentry].
  - apply list_elem_of_singleton in Hrow. subst row. left. auto.
Qed.

Lemma insert_by_value_perm x l : insert_by_value x l ≡ₚ x :: l.
Proof.
  induction l as [|y l IH]; simpl; [reflexivity|].
  destruct (Qle_bool _ _); [reflexivity|].
  rewrite IH. apply perm_swap.
Qed.

Lemma order_by_value_desc_perm l : order_by_value_desc l ≡ₚ l.
Proof.
  unfold order_by_value_desc. induction l as [|x l IH]; simpl; [reflexivity|].
  rewrite insert_by_value_perm, IH. reflexivity.
Qed.

Lemma insert_by_value_sorted x l :
  StronglySorted not_below l -> StronglySorted not_below (insert_by_value x l).
Proof.
  induction 1 as [|y l Hs IH Hy]; simpl.
  - constructor; constructor.
  - destruct (Qle_bool _ _) eqn:E.
    + apply Qle_bool_iff in E. constructor; [constructor; assumption|].
      constructor; [exact E|].
      eapply Forall_impl; [exact Hy|].
      intros z Hz. unfold not_below in *. eapply Qle_trans; eassumption.
    + constructor; [exact IH|].
      rewrite insert_by_value_perm. constructor; [|exact Hy].
      unfold not_below. apply Qlt_le_weak, Qnot_le_lt.
      intros Hle. apply Qle_bool_iff in Hle. congruence.
Qed.

Lemma order_by_value_desc_sorted l :
  StronglySorted not_below (order_by_value_desc l).
Proof.
  unfold order_by_value_desc. induction l as [|x l IH]; simpl.
  - constructor.
  - apply insert_by_value_sorted, IH.
Qed.

Lemma NoDup_fmap_filter {A B} (f : A -> B) (P : A -> Prop)
  `{forall x, Decision (P x)} (l : list A) :
  NoDup (f <$> l) -> NoDup (f <$> filter P l).
Proof.
  induction l as [|x l IH]; [intros; constructor|].
  rewrite fmap_cons, NoDup_cons. intros [Hx Hl].
  rewrite filter_cons. destruct (decide (P x)); [|apply IH, Hl].
  rewrite fmap_cons. apply NoDup_cons. split; [|apply IH, Hl].
  intros Hin. apply Hx.
  apply list_elem_of_fmap in Hin as (y & -> & Hy).
  apply list_elem_of_filter in Hy as [_ Hy].
  apply list_elem_of_fmap. exists y. split; [reflexivity | exact Hy].
Qed.

Lemma rank_of_lookup (l : list MoonRow) (i : nat) (m : MoonRow) :
  NoDup (pk <$> l) -> l !! i = Some m -> rank_of (pk m) (pk <$> l) = Some i.
Proof.
  revert i; induction l as [|x l IH]; intros i Hnd Hi;
    [rewrite lookup_nil in Hi; discriminate|].
  rewrite fmap_cons in *. apply NoDup_cons in Hnd as [Hx Hnd].
  cbn [rank_of]. destruct i as [|i]; cbn in Hi.
  - injection Hi as ->. rewrite bool_decide_eq_true_2 by reflexivity.
    reflexivity.
  - rewrite bool_decide_eq_false_2.
    + rewrite (IH i Hnd Hi). reflexivity.
    + intros Heq. apply Hx. rewrite Heq.
      apply list_elem_of_fmap. exists m.
      split; [reflexivity | eapply list_elem_of_lookup_2; exact Hi].
Qed.

Lemma rank_of_None (l : list Z) (x : Z) : x ∉ l -> rank_of x l = None.
Proof.
  induction l as [|y l IH]; intros Hx; [reflexivity|]. cbn [rank_of].
  rewrite bool_decide_eq_false_2.
  - rewrite IH; [reflexivity|]. intros Hin. apply Hx. right. exact Hin.
  - intros ->. apply Hx. left.
Qed.

(** X11.  The ranks of the report follow the values, when no two moons
    have the same primary key: a moon with a value has a rank between 1
    and the number of moons with a refinery and a value, a moon with a
    higher value has a smaller rank, and a moon without a value, like the
    total of a corporation, has no rank. *)
Theorem report_ranks_follow_values
  (all_moons : list MoonRow) (request : Request) (data : list ReportData) :
  NoDup (pk <$> all_moons) ->
  report_owned_value_data all_moons request = inr (JsonResponse data) ->
  Forall (fun row =>
            match report_value row with
            | None => report_rank row = None
            | Some _ =>
                exists rank,
                  report_rank row = Some rank
                  /\ (1 <= rank
                      <= length (filter (fun m => is_Some (value m))
                                   (owned all_moons)))%nat
            end) data
  /\ (forall a b va vb ra rb,
        a ∈ data -> b ∈ data ->
        report_value a = Some va -> report_value b = Some vb ->
        report_rank a = Some ra -> report_rank b = Some rb ->
        (vb < va)%Q -> (ra < rb)%nat).
Proof.
  intros Hnd H. apply report_row_origin in H.
  set (valued := filter (fun m => is_Some (value m)) (owned all_moons)) in *.
  set (sorted := order_by_value_desc valued) in *.
  assert (Hkeys : NoDup (pk <$> sorted)).
  { unfold sorted. rewrite order_by_value_desc_perm. unfold valued, owned.
    apply NoDup_fmap_filter, NoDup_fmap_filter, Hnd. }
  assert (Hvalued : forall m v,
            m ∈ owned all_moons -> value m = Some v ->
            exists i, sorted !! i = Some m
                      /\ rank_of (pk m) (pk <$> sorted) = Some i
                      /\ (i < length valued)%nat).
  { intros m v Hm Hv.
    assert (Hin : m ∈ sorted).
    { unfold sorted. rewrite order_by_value_desc_perm.
      apply list_elem_of_filter. split; [rewrite Hv; eauto | exact Hm]. }
    apply list_elem_of_lookup in Hin as [i Hi]. exists i.
    split; [exact Hi|]. split; [apply rank_of_lookup; assumption|].
    apply lookup_lt_Some in Hi. unfold sorted in Hi.
    rewrite (Permutation_length (order_by_value_desc_perm valued)) in Hi.
    exact Hi. }
  rewrite Forall_forall in H. split.
  - apply Forall_forall. intros row Hrow.
    destruct (H row Hrow)
      as [(_ & -> & Hrank)|(m & corporation & Hm & _ & _ & Hv & Hr & _)];
      [exact Hrank|].
    rewrite Hv, Hr. destruct (value m) as [v|] eqn:Ev.
    + destruct (Hvalued m v Hm Ev) as (i & _ & -> & Hlt).
      exists (S i). split; [reflexivity | lia].
    + rewrite rank_of_None; [reflexivity|].
      intros Hin. apply list_elem_of_fmap in Hin as (m' & Hpk & Hm').
      unfold sorted in Hm'. rewrite order_by_value_desc_perm in Hm'.
      apply list_elem_of_filter in Hm' as [[v Hv'] Hm'].
      assert (m = m'); [|congruence].
      assert (Hown : NoDup (pk <$> owned all_moons))
        by (apply NoDup_fmap_filter, Hnd).
      apply list_elem_of_lookup in Hm as [i Hi].
      apply list_elem_of_lookup in Hm' as [j Hj].
      assert ((pk <$> owned all_moons) !! i = Some (pk m))
        as Hi' by (rewrite list_lookup_fmap, Hi; reflexivity).
      assert ((pk <$> owned all_moons) !! j = Some (pk m))
        as Hj' by (rewrite list_lookup_fmap, Hj, Hpk; reflexivity).
      pose proof (NoDup_lookup _ _ _ _ Hown Hi' Hj') as ->.
      congruence.
  - intros a b va vb ra rb Ha Hb Hva Hvb Hra Hrb Hlt.
    destruct (H a Ha)
      as [(_ & Hnone & _)|(ma & ca & Hma & _ & _ & Hav & Har & _)];
      [congruence|].
    destruct (H b Hb)
      as [(_ & Hnone & _)|(mb & cb & Hmb & _ & _ & Hbv & Hbr & _)];
      [congruence|].
    rewrite Hva in Hav. rewrite Hvb in Hbv.
    destruct (Hvalued ma va Hma (eq_sym Hav)) as (i & Hi & Hri & _).
    destruct (Hvalued mb vb Hmb (eq_sym Hbv)) as (j & Hj & Hrj & _).
    rewrite Hra, Hri in Har. rewrite Hrb, Hrj in Hbr.
    cbn in Har, Hbr. injection Har as ->. injection Hbr as ->.
    destruct (decide (i < j)%nat) as [|Hge]; [lia|exfalso].
    destruct (decide (i = j)) as [->|Hne].
    + rewrite Hi in Hj. injection Hj as ->.
      rewrite <- Hav in Hbv. injection Hbv as ->.
      exact (Qlt_irrefl _ Hlt).
    + assert (Hji : (j < i)%nat) by lia.
      pose proof (PlannerFacts.StronglySorted_lookup_lt not_below _ j i mb ma
                    (order_by_value_desc_sorted valued) Hj Hi Hji) as Hle.
      unfold not_below in Hle. rewrite <- Hav, <- Hbv in Hle. cbn in Hle.
      exact (Qlt_not_le _ _ Hlt Hle).
Qed.

Lemma report_ranks_follow_values_witness :
  exists data,
    report_owned_value_data Sample.ranked_moons Views.Sample.member
      = inr (JsonResponse data)
    /\ Forall (fun row =>
                match report_value row with
                | None => report_rank row = None
                | Some _ =>
                    exists rank,
                      report_rank row = Some rank /\ (1 <= rank <= 2)%nat
                end) data.
Proof.
  eexists. split; [vm_compute; reflexivity|].
  apply (report_ranks_follow_values Sample.ranked_moons Views.Sample.member).
  - apply (bool_decide_unpack _). vm_compute. exact I.
  - vm_compute. reflexivity.
Defined.

End ViewsMoreFacts.

(** ** Moon surveys: further properties *)

Module SurveyMoreFacts.
Import Survey SurveySpec SurveyFacts.

(** *** The parser *)

Lemma index_fresh {A} `{EqDecision A} (x : A) (pre rest : list A) :
  x ∉ pre -> index x (pre ++ x :: rest)%list = Some (length pre).
Proof.
  induction pre as [|y pre IH]; intros Hx; cbn [index app length].
  - rewrite decide_True by reflexivity. reflexivity.
  - rewrite decide_False.
    + rewrite IH; [reflexivity|]. intros Hin. apply Hx. right. exact Hin.
    + intros ->. apply Hx. left.
Qed.

Lemma find_sublists_length lines rest sublists :
  find_sublists lines rest = inr sublists ->
  length sublists = length (filter (fun l => starts_survey l = true) rest).
Proof.
  revert sublists; induction rest as [|line rest IH]; intros sublists;
    cbn [find_sublists].
  - intros [= <-]. reflexivity.
  - destruct line as [|cell cells]; [discriminate|].
    rewrite filter_cons. cbn [starts_survey].
    case_bool_decide as Hc; cbn [negb].
    + rewrite decide_False by discriminate. apply IH.
    + rewrite decide_True by reflexivity.
      destruct (index _ lines) as [i|]; [|discriminate].
      destruct (find_sublists lines rest) as [e|l]; [discriminate|].
      intros [= <-]. cbn [length]. rewrite (IH l eq_refl). reflexivity.
Qed.

Lemma separate_length lines sublists :
  length (separate lines sublists) = length sublists.
Proof.
  induction sublists as [|a rest IH]; [reflexivity|].
  cbn [separate length]. rewrite IH. reflexivity.
Qed.

Lemma find_sublists_positions (pre rest : list Line) :
  Forall (fun line : Line => line <> []) rest ->
  NoDup (filter (fun l => starts_survey l = true) (pre ++ rest)%list) ->
  find_sublists (pre ++ rest)%list rest = inr (positions (length pre) rest).
Proof.
  revert pre; induction rest as [|line rest IH]; intros pre Hne Hnd;
    [reflexivity|].
  apply Forall_cons in Hne as [Hline Hne].
  destruct line as [|cell cells]; [congruence|].
  assert (Hshift : (pre ++ (cell :: cells) :: rest
                    = (pre ++ [cell :: cells]) ++ rest)%list)
    by (rewrite <- app_assoc; reflexivity).
  assert (Hrest : find_sublists (pre ++ (cell :: cells) :: rest)%list rest
                  = inr (positions (S (length pre)) rest)).
  { rewrite Hshift. rewrite IH.
    - rewrite length_app. cbn [length]. rewrite Nat.add_1_r. reflexivity.
    - exact Hne.
    - rewrite <- Hshift. exact Hnd. }
  cbn [find_sublists positions starts_survey].
  case_bool_decide as Hc; cbn [negb]; [exact Hrest|].
  match goal with
  | |- context [find_sublists ?l rest] =>
      replace (find_sublists l rest)
        with (inr (positions (S (length pre)) rest) : exn + list nat)
        by (symmetry; exact Hrest)
  end.
  match goal with
  | |- context [@index ?A ?H ?x ?l] =>
      assert (@index A H x l = Some (length pre)) as ->; [|reflexivity]
  end.
  apply index_fresh. intros Hin.
  rewrite filter_app, filter_cons in Hnd. cbn [starts_survey] in Hnd.
  rewrite bool_decide_eq_false_2 in Hnd by exact Hc. cbn [negb] in Hnd.
  rewrite decide_True in Hnd by reflexivity.
  apply NoDup_app in Hnd as (_ & Hdisjoint & _).
  apply (Hdisjoint (cell :: cells)); [|left].
  apply list_elem_of_filter. split; [|exact Hin].
  cbn [starts_survey]. rewrite bool_decide_eq_false_2 by exact Hc. reflexivity.
Qed.

Lemma positions_nil offset rest :
  positions offset rest = [] -> products_after rest = rest.
Proof.
  revert offset; induction rest as [|line rest IH]; intros offset;
    [reflexivity|].
  cbn [positions products_after]. destruct (starts_survey line);
    [discriminate|].
  intros H. rewrite (IH _ H). reflexivity.
Qed.

Lemma positions_head offset rest b others :
  positions offset rest = b :: others ->
  (offset <= b)%nat /\ take (b - offset) rest = products_after rest.
Proof.
  revert offset; induction rest as [|line rest IH]; intros offset;
    [discriminate|].
  cbn [positions products_after]. destruct (starts_survey line).
  - intros [= <- _]. split; [lia|]. rewrite Nat.sub_diag. reflexivity.
  - intros H. destruct (IH _ H) as [Hle Htake]. split; [lia|].
    replace (b - offset)%nat with (S (b - S offset)) by lia.
    cbn [take]. rewrite Htake. reflexivity.
Qed.

Lemma separate_positions (pre rest : list Line) :
  separate (pre ++ rest)%list (positions (length pre) rest) = groups rest.
Proof.
  revert pre; induction rest as [|line rest IH]; intros pre; [reflexivity|].
  assert (Hshift : (pre ++ line :: rest = (pre ++ [line]) ++ rest)%list)
    by (rewrite <- app_assoc; reflexivity).
  assert (Hrest : separate (pre ++ line :: rest)%list
                    (positions (S (length pre)) rest) = groups rest).
  { specialize (IH (pre ++ [line])%list).
    rewrite length_app in IH. cbn [length] in IH.
    rewrite Nat.add_1_r in IH. rewrite Hshift. exact IH. }
  cbn [positions groups]. destruct (starts_survey line); [|exact Hrest].
  cbn [separate]. rewrite Hrest. f_equal.
  destruct (positions (S (length pre)) rest) as [|b others] eqn:E.
  - unfold slice_from. rewrite drop_app_length.
    rewrite (positions_nil _ _ E). reflexivity.
  - destruct (positions_head _ _ _ _ E) as [Hle Htake].
    unfold slice. rewrite drop_app_length.
    replace (b - length pre)%nat with (S (b - S (length pre))) by lia.
    cbn [take]. rewrite Htake. reflexivity.
Qed.

(** X12.  The parser of the two survey functions never fails and gives
    both the same surveys, one for each line of the input (after the
    header) whose first cell is not empty.  When no two of these lines are
    equal, the surveys are the groups that the input shows: each such line
    with the lines that follow it up to the next one. *)
Theorem survey_parser_groups_lines (scans : string) :
  exists lines surveys,
    drop_header (split_lines scans) = inr lines
    /\ tasks_parse scans = inr surveys
    /\ _parse_scans scans = (surveys, None)
    /\ length surveys
       = length (filter (fun l => starts_survey l = true) lines)
    /\ (NoDup (filter (fun l => starts_survey l = true) lines) ->
        surveys = groups lines).
Proof.
  destruct (tasks_parse_total scans) as [surveys Hparse].
  pose proof (parsers_agree scans) as Hagree. rewrite Hparse in Hagree.
  unfold tasks_parse in Hparse.
  destruct (drop_header (split_lines scans)) as [e|lines] eqn:Ed;
    [discriminate|].
  assert (Hcells : Forall (fun line : Line => line <> []) lines).
  { pose proof (split_lines_cells scans) as Hall.
    unfold drop_header in Ed.
    destruct (split_lines scans) as [|first rest]; [discriminate|].
    apply Forall_cons in Hall as [Hfirst Hrest].
    case_bool_decide; [injection Ed as <-; exact Hrest|].
    destruct first as [|cell cells]; [discriminate|].
    case_bool_decide; injection Ed as <-; [exact Hrest|].
    constructor; assumption. }
  destruct (find_sublists lines lines) as [e|sublists] eqn:Ef; [discriminate|].
  injection Hparse as <-.
  exists lines, (separate lines sublists).
  split; [reflexivity|].
  split; [unfold tasks_parse; rewrite Ed, Ef; reflexivity|].
  split; [exact Hagree|]. split.
  - rewrite separate_length. eapply find_sublists_length. exact Ef.
  - intros Hnd.
    pose proof (find_sublists_positions [] lines Hcells Hnd) as Hpos.
    cbn [app length] in Hpos. rewrite Hpos in Ef. injection Ef as <-.
    apply (separate_positions [] lines).
Qed.

(** *** The report to the user *)

#[local] Instance same_notifications_preorder : PreOrder same_notifications.
Proof.
  split; [intros d; split; reflexivity|].
  intros d1 d2 d3 [H1 H1'] [H2 H2']; split; congruence.
Qed.

#[local] Instance task_same_notifications_preorder :
  PreOrder task_same_notifications.
Proof.
  split; [intros st; split; reflexivity|].
  intros s1 s2 s3 [H1 H1'] [H2 H2']; split; congruence.
Qed.

Lemma keeps_on_task_db {A} (R : DB -> DB -> Prop) (m : M DB A) :
  keeps R m ->
  keeps (fun st st' => R (task_db st) (task_db st')) (on_task_db m).
Proof.
  intros [Hm]; split; intros st. unfold on_task_db. specialize (Hm (task_db st)).
  destruct (m (task_db st)); exact Hm.
Qed.

Lemma keeps_task_atomic {A} (R : DB -> DB -> Prop) `{!PreOrder R}
  (m : M TaskState A) :
  keeps (fun st st' => R (task_db st) (task_db st')) m ->
  keeps (fun st st' => R (task_db st) (task_db st')) (task_atomic m).
Proof.
  intros [Hm]; split; intros st. unfold task_atomic. specialize (Hm st).
  destruct (m st); simpl in *; [exact Hm | reflexivity].
Qed.

(** Steps that write no notification. *)
Ltac quiet :=
  repeat first
    [ k_ret | k_raise | k_call | k_get
    | apply keeps_modify; intros ?; split; reflexivity
    | apply keeps_if
    | apply keeps_map_m; [apply _|intros ?]
    | k_for_each; intros ? _
    | apply keeps_atomic; [apply _|]
    | apply keeps_try_except; [apply _| |intros ?]
    | match goal with
      | |- keeps _ (match ?x with _ => _ end) => destruct x
      end
    | k_bind; [|intros ?] ].

Section Report.
Variable env : Env.

Lemma managers_process_survey_quiet user survey :
  keeps same_notifications (managers_process_survey env user survey).
Proof.
  unfold managers_process_survey, managers_store_survey, managers_prepare,
    managers_replace_products, managers_make_product,
    Moon_update_calculated_properties, MoonProduct_bulk_create,
    MoonProduct_create, delete_products, EveMoon_get_or_create_esi,
    EveType_get_or_create_esi, Moon_get_or_create.
  quiet.
Qed.

Lemma managers_loop_quiet user surveys :
  keeps same_notifications (map_m (managers_process_survey env user) surveys).
Proof.
  apply keeps_map_m; [apply _|]. intros survey.
  apply managers_process_survey_quiet.
Qed.

Lemma on_task_db_quiet {A} (m : M DB A) :
  keeps same_notifications m -> keeps task_same_notifications (on_task_db m).
Proof. apply (keeps_on_task_db same_notifications). Qed.

Lemma tasks_process_survey_quiet survey :
  keeps task_same_notifications (tasks_process_survey env survey).
Proof.
  unfold tasks_process_survey, tasks_store_survey.
  k_bind; [|intros _; apply keeps_modify; intros st; split; reflexivity].
  apply keeps_try_except; [apply _| |intros e;
    apply keeps_modify; intros st; split; reflexivity].
  k_bind; [|intros _; apply keeps_modify; intros st; split; reflexivity].
  apply (keeps_task_atomic same_notifications).
  change (keeps task_same_notifications
            (first ← call (item survey 0);
             name ← call (item first 0);
             modify (set_task_moon_name (Some name));;
             second ← call (item survey 1);
             moon_id ← call (item second 6);
             eve_moon ← on_task_db (EveMoon_get_or_create_esi env moon_id);
             moon ← on_task_db (Moon_get_or_create eve_moon);
             on_task_db (delete_products eve_moon);;
             for_each (fun product_data =>
                         on_task_db (tasks_store_product env eve_moon
                                       product_data))
                      (drop 1 survey);;
             on_task_db (Moon_update_income_estimate env eve_moon moon))).
  repeat first
    [ k_call
    | apply keeps_modify; intros ?; split; reflexivity
    | apply on_task_db_quiet;
      unfold tasks_store_product, Moon_update_income_estimate,
        MoonProduct_create, delete_products, EveMoon_get_or_create_esi,
        EveType_get_or_create_esi, Moon_get_or_create; quiet
    | k_for_each; intros ? _
    | k_bind; [|intros ?] ].
Qed.

End Report.

(** X13.  [update_moons_from_survey] always returns, and it tells the
    user the result exactly once: when a user is given, one notification
    for that user is added, and its title says OK exactly when the
    function returns [True]; without a user none is added.  With no
    survey in the input it returns [False]. *)
Theorem update_moons_from_survey_notifies_once
  (env : Env) (scans : string) (user : option Z) (d : DB) :
  exists b d',
    update_moons_from_survey env scans user d = Ok b d'
    /\ match user with
       | Some u =>
           exists msg,
             notifications d'
             = (notifications d
                ++ [ {| notified_user := u; title_ok := b;
                        message := msg |} ])%list
       | None => notifications d' = notifications d
       end
    /\ ((_parse_scans scans).1 = [] -> b = false).
Proof.
  unfold update_moons_from_survey.
  destruct (managers_loop_total env user (_parse_scans scans).1 d)
    as (results & d1 & Hloop & Hlen).
  pose proof (keeps_run (managers_loop_quiet env user (_parse_scans scans).1) d)
    as [Hnotes _].
  rewrite Hloop in Hnotes. cbn [final_state] in Hnotes.
  destruct ((_parse_scans scans).1) as [|survey surveys] eqn:E.
  - cbn in Hloop. injection Hloop as <- <-.
    destruct user as [u|]; eexists _, _; (split; [reflexivity|]);
      cbn; (split; [|reflexivity]); eauto.
  - unfold _process_surveys, mbind, M_bind, bind. rewrite Hloop. cbn.
    destruct user as [u|]; eexists _, _; (split; [reflexivity|]);
      cbn; (split; [|discriminate]).
    + rewrite Hnotes. eauto.
    + exact Hnotes.
Qed.

(** X14.  [process_survey_input] tells the user the result exactly once:
    for a user id that is given and belongs to a user, the task returns
    and adds one notification for that user, whose title says OK exactly
    when the task returns [True].  For an id that belongs to no user the
    task raises [User.DoesNotExist] after every survey has been processed,
    with the database as the surveys left it, and notifies nobody.  Without an id (or with the id 0) it
    returns and adds no notification. *)
Theorem process_survey_input_notifies_once
  (env : Env) (scans : string) (user_pk : option Z) (d : DB) :
  match given user_pk with
  | Some pk =>
      if bool_decide (pk ∈ users d) then
        exists b d' msg,
          process_survey_input env scans user_pk d = Ok b d'
          /\ notifications d'
             = (notifications d
                ++ [ {| notified_user := pk; title_ok := b;
                        message := msg |} ])%list
      else
        exists surveys st',
          tasks_parse scans = inr surveys
          /\ for_each (tasks_process_survey env) surveys
               (set_task_outcome true None (initial_task_state d)) = Ok tt st'
          /\ process_survey_input env scans user_pk d
             = Raise DoesNotExist (task_db st')
          /\ notifications (task_db st') = notifications d
  | None =>
      exists b d',
        process_survey_input env scans user_pk d = Ok b d'
        /\ notifications d' = notifications d
  end.
Proof.
  destruct (tasks_parse_total scans) as [surveys Hparse].
  destruct (tasks_loop_total env surveys
              (set_task_outcome true None (initial_task_state d)))
    as (st' & Hloop & _ & _); [reflexivity|].
  assert (Hquiet : keeps task_same_notifications
                     (for_each (tasks_process_survey env) surveys)).
  { k_for_each. intros survey _. apply tasks_process_survey_quiet. }
  pose proof (keeps_run Hquiet
                (set_task_outcome true None (initial_task_state d)))
    as [Hnotes Husers].
  rewrite Hloop in Hnotes, Husers. cbn in Hnotes, Husers.
  unfold process_survey_input. rewrite Hparse.
  unfold mbind, M_bind, bind, modify. rewrite Hloop.
  unfold tasks_report, mbind, M_bind, bind, get.
  destruct (given user_pk) as [pk|].
  - rewrite Husers. case_bool_decide; cbn.
    + eexists _, _, _. split; [reflexivity|]. cbn. rewrite Hnotes.
      reflexivity.
    + exists surveys, st'. split; [reflexivity|]. split; [exact Hloop|].
      split; [reflexivity | exact Hnotes].
  - cbn. eexists _, _. split; [reflexivity | exact Hnotes].
Qed.

(** *** The moons that a survey does not name *)

Lemma on_task_db_inv {A} (m : M DB A) st a st' :
  on_task_db m st = Ok a st' -> exists d', m (task_db st) = Ok a d'.
Proof.
  unfold on_task_db. destruct (m (task_db st)) as [a' d'|e d'];
    [|discriminate].
  intros [= -> _]. eauto.
Qed.

#[local] Existing Instance SurveyFacts.same_products_preorder.

Section OtherMoons.
Variable env : Env.
Variable moon : Z.

#[local] Instance same_products_of_preorder : PreOrder (same_products_of moon).
Proof.
  split; [intros d; reflexivity|].
  intros d1 d2 d3 H1 H2; unfold same_products_of in *; congruence.
Qed.

#[local] Instance task_same_products_of_preorder :
  PreOrder (task_same_products_of moon).
Proof.
  split; [intros st; reflexivity|].
  intros s1 s2 s3 H1 H2;
    unfold task_same_products_of, same_products_of in *; congruence.
Qed.

Lemma same_products_weaken {A} (m : M DB A) :
  keeps same_products m -> keeps (same_products_of moon) m.
Proof.
  intros [Hm]; split; intros d. unfold same_products_of.
  rewrite (Hm d). reflexivity.
Qed.

Lemma Moon_update_income_estimate_products id row :
  keeps same_products (Moon_update_income_estimate env id row).
Proof.
  unfold Moon_update_income_estimate. k_bind; [k_get|intros d].
  k_bind; [k_call|intros row']. apply keeps_modify; intros s; reflexivity.
Qed.

Lemma EveMoon_returns id d eve_moon d' :
  EveMoon_get_or_create_esi env id d = Ok eve_moon d' ->
  to_int env id = inr eve_moon.
Proof.
  unfold EveMoon_get_or_create_esi. intros H.
  apply bind_inv in H as (moon_id & d1 & Hcall & H).
  apply call_inv in Hcall. rewrite Hcall.
  apply bind_inv in H as (d2 & d3 & _ & H).
  destruct (bool_decide _).
  - injection H as -> _. reflexivity.
  - apply bind_inv in H as (? & ? & _ & H).
    apply bind_inv in H as (? & ? & _ & H).
    injection H as -> _. reflexivity.
Qed.

Lemma delete_products_other eve_moon :
  eve_moon <> moon -> keeps (same_products_of moon) (delete_products eve_moon).
Proof.
  intros Hne. apply keeps_modify. intros d.
  unfold same_products_of, products_of. cbn.
  rewrite list_filter_filter. apply list_filter_iff.
  intros row. split; [tauto|]. intros H. split; [exact H | congruence].
Qed.

Lemma MoonProduct_create_other eve_moon amount_text eve_type :
  eve_moon <> moon ->
  keeps (same_products_of moon)
        (MoonProduct_create env eve_moon amount_text eve_type).
Proof.
  intros Hne. unfold MoonProduct_create. k_bind; [k_call|intros a].
  apply keeps_modify. intros d. unfold same_products_of, products_of. cbn.
  rewrite filter_app, filter_cons, filter_nil. cbn.
  rewrite decide_False by exact Hne. apply app_nil_r.
Qed.

Lemma MoonProduct_bulk_create_other moon_products :
  Forall (fun p : Z * string * Z => p.1.1 <> moon) moon_products ->
  keeps (same_products_of moon) (MoonProduct_bulk_create env moon_products).
Proof.
  intros Hall. unfold MoonProduct_bulk_create. k_for_each. intros p Hp.
  rewrite Forall_forall in Hall. apply MoonProduct_create_other, Hall, Hp.
Qed.

Lemma make_products_moon eve_moon l d moon_products d' :
  map_m (managers_make_product env eve_moon) l d = Ok moon_products d' ->
  Forall (fun p : Z * string * Z => p.1.1 = eve_moon) moon_products.
Proof.
  revert d moon_products d'; induction l as [|x l IH];
    intros d moon_products d'; cbn [map_m].
  - intros [= <- _]. constructor.
  - intros H. apply bind_inv in H as (y & d1 & Hy & H).
    apply bind_inv in H as (ys & d2 & Hys & H).
    injection H as <- _. constructor; [|eapply IH; exact Hys].
    unfold managers_make_product in Hy.
    apply bind_inv in Hy as (? & ? & _ & Hy).
    apply bind_inv in Hy as (? & ? & _ & Hy).
    apply bind_inv in Hy as (? & ? & _ & Hy).
    injection Hy as <- _. reflexivity.
Qed.

Lemma managers_prepare_names user survey d prepared d' :
  managers_prepare env user survey d = Ok prepared d' ->
  named_moon env survey = Some prepared.1.1
  /\ Forall (fun p : Z * string * Z => p.1.1 = prepared.1.1) prepared.2.
Proof.
  unfold managers_prepare. intros H.
  apply bind_inv in H as (first & d1 & _ & H).
  apply bind_inv in H as (name & d2 & _ & H).
  apply bind_inv in H as (second & d3 & Hsecond & H).
  apply call_inv in Hsecond.
  apply bind_inv in H as (moon_id & d4 & Hcell & H).
  apply call_inv in Hcell.
  apply bind_inv in H as (eve_moon & d5 & Hmoon & H).
  apply EveMoon_returns in Hmoon.
  apply bind_inv in H as (row & d6 & _ & H).
  cbv zeta in H.
  apply bind_inv in H as (moon_products & d7 & Hproducts & H).
  injection H as <- _. cbn [fst snd]. split.
  - unfold named_moon. rewrite Hsecond, Hcell, Hmoon. reflexivity.
  - eapply make_products_moon. exact Hproducts.
Qed.

Lemma managers_process_survey_other user survey :
  named_moon env survey <> Some moon ->
  keeps (same_products_of moon) (managers_process_survey env user survey).
Proof.
  intros Hnamed. unfold managers_process_survey.
  apply keeps_try_except; [apply _| |intros e; k_ret].
  k_bind; [|intros _; k_ret].
  unfold managers_store_survey.
  apply (keeps_bind_post _
           (fun prepared : Z * MoonRow * list (Z * string * Z) =>
              prepared.1.1 <> moon
              /\ Forall (fun p : Z * string * Z => p.1.1 = prepared.1.1)
                   prepared.2)).
  - intros d prepared d' H.
    apply managers_prepare_names in H as [Hname Hall].
    split; [|exact Hall]. intros Heq. apply Hnamed. rewrite Hname, Heq.
    reflexivity.
  - apply same_products_weaken, managers_prepare_products.
  - intros prepared [Hne Hall].
    k_bind;
      [|intros _;
        apply same_products_weaken, Moon_update_calculated_properties_products].
    unfold managers_replace_products.
    apply keeps_atomic; [apply _|].
    k_bind; [apply delete_products_other, Hne|intros _].
    apply MoonProduct_bulk_create_other.
    eapply Forall_impl; [exact Hall|]. intros p Hp. cbv beta in *. congruence.
Qed.

Lemma managers_loop_other user surveys :
  Forall (fun survey => named_moon env survey <> Some moon) surveys ->
  keeps (same_products_of moon)
        (map_m (managers_process_survey env user) surveys).
Proof.
  induction 1 as [|survey surveys Hsurvey _ IH]; cbn [map_m]; [k_ret|].
  k_bind; [apply managers_process_survey_other, Hsurvey|intros r].
  k_bind; [exact IH|intros rs]. k_ret.
Qed.

Lemma on_task_db_other {A} (m : M DB A) :
  keeps (same_products_of moon) m ->
  keeps (task_same_products_of moon) (on_task_db m).
Proof. apply (keeps_on_task_db (same_products_of moon)). Qed.

Lemma tasks_store_product_other eve_moon product_data :
  eve_moon <> moon ->
  keeps (same_products_of moon) (tasks_store_product env eve_moon product_data).
Proof.
  intros Hne. unfold tasks_store_product.
  k_bind; [k_call|intros type_text].
  k_bind; [apply same_products_weaken, EveType_products|intros eve_type].
  k_bind; [k_call|intros amount_text].
  apply MoonProduct_create_other, Hne.
Qed.

Lemma tasks_process_survey_other survey :
  named_moon env survey <> Some moon ->
  keeps (task_same_products_of moon) (tasks_process_survey env survey).
Proof.
  intros Hnamed. unfold tasks_process_survey, tasks_store_survey.
  k_bind; [|intros _; apply keeps_modify; intros st; reflexivity].
  apply keeps_try_except; [apply _| |intros e;
    apply keeps_modify; intros st; reflexivity].
  k_bind; [|intros _; apply keeps_modify; intros st; reflexivity].
  apply (keeps_task_atomic (same_products_of moon)).
  change (keeps (task_same_products_of moon)
            (first ← call (item survey 0);
             name ← call (item first 0);
             modify (set_task_moon_name (Some name));;
             second ← call (item survey 1);
             moon_id ← call (item second 6);
             eve_moon ← on_task_db (EveMoon_get_or_create_esi env moon_id);
             row ← on_task_db (Moon_get_or_create eve_moon);
             on_task_db (delete_products eve_moon);;
             for_each (fun product_data =>
                         on_task_db (tasks_store_product env eve_moon
                                       product_data))
                      (drop 1 survey);;
             on_task_db (Moon_update_income_estimate env eve_moon row))).
  k_bind; [k_call|intros first].
  k_bind; [k_call|intros name].
  k_bind; [apply keeps_modify; intros st; reflexivity|intros _].
  apply (keeps_bind_post _ (fun second => item survey 1 = inr second));
    [intros st second st' H; eapply call_inv; exact H | k_call |].
  intros second Hsecond.
  apply (keeps_bind_post _ (fun cell => item second 6 = inr cell));
    [intros st cell st' H; eapply call_inv; exact H | k_call |].
  intros cell Hcell.
  apply (keeps_bind_post _ (fun eve_moon => to_int env cell = inr eve_moon)).
  { intros st eve_moon st' H. apply on_task_db_inv in H as [d' H].
    eapply EveMoon_returns. exact H. }
  { apply on_task_db_other, same_products_weaken, EveMoon_products. }
  intros eve_moon Hmoon.
  assert (Hne : eve_moon <> moon).
  { intros ->. apply Hnamed. unfold named_moon.
    rewrite Hsecond, Hcell, Hmoon. reflexivity. }
  k_bind;
    [apply on_task_db_other, same_products_weaken, Moon_get_or_create_products
    |intros row].
  k_bind; [apply on_task_db_other, delete_products_other, Hne|intros _].
  k_bind; [|intros _;
    apply on_task_db_other, same_products_weaken,
      Moon_update_income_estimate_products].
  k_for_each. intros product_data _.
  apply on_task_db_other, tasks_store_product_other, Hne.
Qed.

Lemma process_survey_input_other scans user_pk d :
  Forall (fun survey => named_moon env survey <> Some moon)
         (_parse_scans scans).1 ->
  same_products_of moon d
    (final_state (process_survey_input env scans user_pk d)).
Proof.
  intros Hall. rewrite parsers_agree in Hall.
  unfold process_survey_input.
  match goal with
  | |- context [?task (initial_task_state d)] =>
      assert (Hk : keeps (task_same_products_of moon) task);
      [|pose proof (keeps_run Hk (initial_task_state d)) as H;
        destruct (task (initial_task_state d)); exact H]
  end.
  k_bind.
  - destruct (tasks_parse scans) as [e|surveys];
      [apply keeps_modify; intros st; reflexivity|].
    k_bind; [apply keeps_modify; intros st; reflexivity|intros _].
    k_for_each. intros survey Hsurvey. rewrite Forall_forall in Hall.
    apply tasks_process_survey_other, Hall, Hsurvey.
  - intros _. unfold tasks_report. k_bind; [k_get|intros st].
    destruct (given user_pk) as [pk|]; [|k_ret].
    k_bind; [apply keeps_if; [k_ret|k_raise]|intros _].
    k_bind; [|intros _; k_ret].
    apply on_task_db_other. apply keeps_modify. intros s. reflexivity.
Qed.

Lemma update_moons_from_survey_other scans user d :
  Forall (fun survey => named_moon env survey <> Some moon)
         (_parse_scans scans).1 ->
  same_products_of moon d
    (final_state (update_moons_from_survey env scans user d)).
Proof.
  intros Hall. apply (keeps_run (R := same_products_of moon)).
  unfold update_moons_from_survey. cbv zeta.
  k_bind.
  - destruct ((_parse_scans scans).1) as [|survey surveys] eqn:E; [k_ret|].
    k_bind; [|intros r; k_ret]. unfold _process_surveys.
    k_bind; [apply managers_loop_other, Hall | intros rs; k_ret].
  - intros r. destruct user as [u|]; [|k_ret].
    unfold _send_survey_process_report_to_user. cbv zeta.
    k_bind; [|intros _; k_ret].
    apply keeps_modify. intros s. reflexivity.
Qed.

End OtherMoons.

(** X15.  A survey input changes the products of the moons it names and
    of no other moon: for a moon that no survey of the input names (by the
    seventh cell of its second line), the stored products are the same
    after [update_moons_from_survey] and after [process_survey_input] as
    before, whether the surveys succeed or fail. *)
Theorem surveys_leave_other_moons_alone
  (env : Env) (scans : string) (user : option Z) (moon : Z) (d : DB) :
  Forall (fun survey => named_moon env survey <> Some moon)
         (_parse_scans scans).1 ->
  products_of moon
    (products (final_state (update_moons_from_survey env scans user d)))
  = products_of moon (products d)
  /\ products_of moon
       (products (final_state (process_survey_input env scans user d)))
     = products_of moon (products d).
Proof.
  intros Hall. split.
  - apply (update_moons_from_survey_other env moon scans user d Hall).
  - apply (process_survey_input_other env moon scans user d Hall).
Qed.

Lemma surveys_leave_other_moons_alone_witness :
  let scans := Sample.scans [Sample.bad_survey] in
  products_of 40161708
    (products
       (final_state
          (update_moons_from_survey (Sample.env false) scans None Sample.db)))
  = [Sample.old_product].
Proof.
  cbv zeta.
  apply (surveys_leave_other_moons_alone (Sample.env false)
           (Sample.scans [Sample.bad_survey]) None 40161708 Sample.db).
  vm_compute. repeat constructor; discriminate.
Defined.

End SurveyMoreFacts.

(** ** moonplanner/tasks.py: the refineries after the task *)

Module RefineryFacts.
Import Planner PlannerSpec PlannerFacts.

#[local] Existing Instance PlannerFacts.same_refineries_preorder.
#[local] Existing Instance PlannerFacts.loop_same_preorder.

#[local] Instance fields_kept_preorder : PreOrder fields_kept.
Proof.
  split.
  - intros d id row H. exists row. auto.
  - intros d1 d2 d3 H1 H2 id row H.
    destruct (H1 id row H) as (row' & H' & Hn & Ht & Hc).
    destruct (H2 id row' H') as (row'' & H'' & Hn' & Ht' & Hc').
    exists row''. repeat split; congruence.
Qed.

#[local] Instance loop_fields_kept_preorder : PreOrder loop_fields_kept.
Proof.
  split; [intros st; unfold loop_fields_kept; reflexivity|].
  intros s1 s2 s3 H1 H2; unfold loop_fields_kept in *; etransitivity; eauto.
Qed.

Section Refineries.
Variable env : Env.

#[local] Instance same_groups_preorder : PreOrder (same_groups env).
Proof.
  split; [intros d id; reflexivity|].
  intros d1 d2 d3 H1 H2 id. rewrite H2. apply H1.
Qed.

(** *** The moon of the first notification *)

Lemma same_refineries_fields {A} (m : M DB A) :
  keeps same_refineries m -> keeps fields_kept m.
Proof.
  intros [H]; split; intros d id row Hrow. specialize (H d).
  unfold same_refineries in H. rewrite H. exists row. auto.
Qed.

Lemma loop_same_fields {A} (m : M LoopState A) :
  keeps loop_same m -> keeps loop_fields_kept m.
Proof.
  intros [H]; split; intros st id row Hrow. destruct (H st) as [Hr _].
  rewrite Hr. exists row. auto.
Qed.

(** What [update_moon_once] does to the refineries when it finds the
    refinery and the flag is not yet set. *)
Lemma update_moon_once_first p sid r mid st st' :
  moon_updated st = false ->
  refineries (db st) !! sid = Some r ->
  moonID p = Some mid ->
  update_moon_once env p sid (Some r) st = Ok tt st' ->
  refineries (db st') = <[sid := with_moon r mid]> (refineries (db st)).
Proof.
  intros Hflag Hr Hmid.
  unfold update_moon_once, EveMoon_get_or_create_esi, Moon_get_or_create,
    Refinery_save.
  unfold mbind, M_bind, bind, get, modify, subscript, ret, on_db, call, raise.
  rewrite Hflag, Hmid. cbn.
  destruct (bool_decide (mid ∈ eve_moons (db st))); cbn.
  - case_bool_decide as Hne; cbn; intros [= <-]; cbn; [reflexivity|].
    symmetry. apply insert_id. rewrite Hr. f_equal.
    destruct r; cbn in *. subst. reflexivity.
  - destruct (esi_moon env mid); cbn; [discriminate|].
    case_bool_decide as Hne; cbn; intros [= <-]; cbn; [reflexivity|].
    symmetry. apply insert_id. rewrite Hr. f_equal.
    destruct r; cbn in *. subst. reflexivity.
Qed.

Lemma rest_of_body_found p sid r (b1 b2 b3 : bool) :
  keeps loop_same
    ((if b1 then on_started env p sid (Some r) else ret tt) ≫= fun _ =>
     (if b2 then on_cancelled sid else ret tt) ≫= fun _ =>
     (if b3 then on_finished sid else ret tt)).
Proof.
  k_bind; [apply keeps_if; [apply on_started_same | k_ret]|intros _].
  k_bind; [apply keeps_if; [apply on_cancelled_same | k_ret]|intros _].
  apply keeps_if; [apply on_finished_same | k_ret].
Qed.

Lemma process_notification_first n p sid r mid st st' :
  type n ∈ extraction_types ->
  text n = inr p -> structureID p = Some sid -> moonID p = Some mid ->
  moon_updated st = false ->
  refineries (db st) !! sid = Some r ->
  process_notification env n st = Ok tt st' ->
  refineries (db st') = <[sid := with_moon r mid]> (refineries (db st)).
Proof.
  intros Ht Hp Hs Hmid Hflag Hr H. unfold process_notification in H.
  rewrite Hp, (bool_decide_eq_true_2 _ Ht) in H.
  apply bind_inv in H as (p' & s1 & Hcall & H).
  injection Hcall as <- <-. rewrite Hs in H.
  apply bind_inv in H as (sid' & s1 & Hsub & H).
  injection Hsub as <- <-.
  apply bind_inv in H as (st0 & s1 & Hget & H).
  injection Hget as <- <-. cbv zeta in H. rewrite Hr in H.
  apply bind_inv in H as ([] & s1 & Hupdate & H).
  rewrite <- (update_moon_once_first p sid r mid st s1 Hflag Hr Hmid Hupdate).
  pose proof (keeps_run
                (rest_of_body_found p sid r
                   (bool_decide (type n = "MoonminingExtractionStarted"))
                   (bool_decide (type n = "MoonminingExtractionCancelled"))
                   (bool_decide (type n = "MoonminingExtractionFinished")))
                s1) as [Hsame _].
  rewrite H in Hsame. exact Hsame.
Qed.

(** *** The structures of the corporation *)

Lemma EveType_result id d row d' :
  EveType_get_or_create_esi env id false d = Ok row d' ->
  inr (eve_group_id row) = group_of env d id.
Proof.
  unfold EveType_get_or_create_esi, group_of.
  unfold mbind, M_bind, bind, get, call, modify, ret, raise.
  destruct (eve_types d !! id) as [cached|]; cbn.
  - intros [= <- _]. reflexivity.
  - destruct (esi_type env id) as [e|g]; cbn; [discriminate|].
    intros [= <- _]. reflexivity.
Qed.

Lemma EveType_groups id : keeps (same_groups env)
                            (EveType_get_or_create_esi env id false).
Proof.
  split; intros d. unfold EveType_get_or_create_esi.
  unfold mbind, M_bind, bind, get, call, modify, ret, raise.
  destruct (eve_types d !! id) as [cached|] eqn:E; cbn; [reflexivity|].
  destruct (esi_type env id) as [e|g] eqn:Eg; cbn; [reflexivity|].
  intros id'. unfold group_of. cbn.
  destruct (decide (id' = id)) as [->|Hne].
  - rewrite lookup_insert_eq, E. cbn. symmetry. exact Eg.
  - rewrite lookup_insert_ne by congruence. reflexivity.
Qed.

Lemma same_types_groups {A} (m : M DB A) :
  (forall d, eve_types (final_state (m d)) = eve_types d) ->
  keeps (same_groups env) m.
Proof.
  intros H; split; intros d id. unfold group_of. rewrite H. reflexivity.
Qed.

Lemma update_refinery_groups pk s :
  keeps (same_groups env) (update_refinery env pk s).
Proof.
  unfold update_refinery.
  k_bind; [apply EveType_groups|intros eve_type].
  apply keeps_if; [|k_ret].
  k_bind; [k_call|intros _]. k_bind; [k_call|intros info].
  k_bind; [|intros _].
  { apply same_types_groups. intros d.
    unfold EveSolarSystem_get_or_create_esi.
    unfold mbind, M_bind, bind, get, call, modify, ret, raise.
    destruct (bool_decide _); cbn; [reflexivity|].
    destruct (esi_solar_system env _); reflexivity. }
  k_bind; [k_call|intros nearest].
  k_bind; [|intros moon].
  { destruct nearest as [c|]; [|k_ret]. apply keeps_if; [|k_ret].
    k_bind; [|intros _; k_ret].
    apply same_types_groups. intros d. reflexivity. }
  k_bind; [apply EveType_groups|intros _].
  apply same_types_groups. intros d. reflexivity.
Qed.

#[local] Instance adds_only_preorder (ids : Z -> Prop) :
  PreOrder (adds_only ids).
Proof.
  split; [intros d id H; left; exact H|].
  intros d1 d2 d3 H1 H2 id H.
  destruct (H2 id H) as [H'|H']; [apply H1, H' | right; exact H'].
Qed.

#[local] Instance stays_stored_preorder info pk sid :
  PreOrder (stays_stored info pk sid).
Proof.
  split; [intros d H; exact H|].
  intros d1 d2 d3 H1 H2 H. apply H2, H1, H.
Qed.

Lemma same_refineries_adds {A} (ids : Z -> Prop) (m : M DB A) :
  keeps same_refineries m -> keeps (adds_only ids) m.
Proof.
  intros [H]; split; intros d id Hid. left.
  specialize (H d). unfold same_refineries in H. rewrite <- H. exact Hid.
Qed.

(** The part of [update_refinery] for a structure of the refinery group
    adds no refinery but that of the structure. *)
Lemma update_refinery_adds pk s d :
  adds_only (fun id => id = structure_id s
                       /\ group_of env d (type_id s)
                          = inr (EVE_GROUP_ID_REFINERY env))
            d (final_state (update_refinery env pk s d)).
Proof.
  unfold update_refinery. rewrite final_state_bind.
  pose proof (keeps_run (EveType_refineries env (type_id s) false) d) as Hr.
  destruct (EveType_get_or_create_esi env (type_id s) false d)
    as [row d1|e d1] eqn:E; cbn in Hr; unfold same_refineries in Hr;
    [|intros id Hid; left; rewrite <- Hr; exact Hid].
  apply EveType_result in E.
  destruct (Z.eqb_spec (eve_group_id row) (EVE_GROUP_ID_REFINERY env))
    as [Hg|Hg]; [|intros id Hid; left; rewrite <- Hr; exact Hid].
  rewrite Hg in E.
  match goal with
  | |- adds_only ?ids d (final_state (?body d1)) =>
      assert (Hk : keeps (adds_only (fun id => id = structure_id s)) body)
  end.
  { k_bind; [k_call|intros _]. k_bind; [k_call|intros info].
    k_bind; [apply same_refineries_adds,
               PlannerMoreFacts.EveSolarSystem_refineries|intros _].
    k_bind; [k_call|intros nearest].
    k_bind; [|intros moon].
    { destruct nearest as [c|]; [|k_ret]. apply keeps_if; [|k_ret].
      k_bind; [apply same_refineries_adds, Moon_refineries|intros _; k_ret]. }
    k_bind; [apply same_refineries_adds, EveType_refineries|intros _].
    apply keeps_modify. intros d2 id Hid. cbn in Hid.
    destruct (decide (id = structure_id s)) as [->|Hne]; [right; reflexivity|].
    rewrite lookup_insert_ne in Hid by congruence. left. exact Hid. }
  intros id Hid. destruct (keeps_run Hk d1 id Hid) as [H|H].
  - left. rewrite <- Hr. exact H.
  - right. split; [exact H | symmetry; exact E].
Qed.

Lemma structures_loop_adds pk l d0 d :
  same_groups env d0 d ->
  let d' := final_state (for_each (update_refinery env pk) l d) in
  adds_only (fun id => exists s, s ∈ l /\ structure_id s = id
                                 /\ is_refinery env d0 s) d d'.
Proof.
  cbv zeta. revert d; induction l as [|s l IH]; intros d Hgroups.
  - intros id Hid. left. exact Hid.
  - rewrite final_state_for_each_cons.
    pose proof (update_refinery_adds pk s d) as Hs.
    pose proof (keeps_run (update_refinery_groups pk s) d) as Hg.
    assert (Hhead : adds_only
                      (fun id => exists s', s' ∈ s :: l /\ structure_id s' = id
                                            /\ is_refinery env d0 s')
                      d (final_state (update_refinery env pk s d))).
    { intros id Hid. destruct (Hs id Hid) as [H|[-> H]]; [left; exact H|].
      right. exists s. split; [left|]. split; [reflexivity|].
      unfold is_refinery. rewrite <- (Hgroups (type_id s)). exact H. }
    destruct (update_refinery env pk s d) as [[] d1|e d1]; cbn in *;
      [|exact Hhead].
    intros id Hid.
    destruct (IH d1 ltac:(etransitivity; eassumption) id Hid)
      as [H|(s' & Hs' & Hid' & Href)].
    + apply Hhead, H.
    + right. exists s'. split; [right; exact Hs'|]. split; assumption.
Qed.

Lemma update_moon_once_refineries p sid st :
  let st' := final_state
               (update_moon_once env p sid (refineries (db st) !! sid) st) in
  refineries (db st') = refineries (db st)
  \/ exists r mid,
       refineries (db st) !! sid = Some r
       /\ refineries (db st') = <[sid := with_moon r mid]> (refineries (db st)).
Proof.
  cbv zeta.
  unfold update_moon_once, EveMoon_get_or_create_esi, Moon_get_or_create,
    Refinery_save.
  unfold mbind, M_bind, bind, get, modify, subscript, ret, on_db, call, raise.
  destruct (refineries (db st) !! sid) as [r|] eqn:Hr; cbn; [|left; reflexivity].
  destruct (moon_updated st); cbn; [left; reflexivity|].
  destruct (moonID p) as [mid|]; cbn; [|left; reflexivity].
  destruct (bool_decide (mid ∈ eve_moons (db st))); cbn.
  - case_bool_decide; cbn; [|left; reflexivity].
    right. exists r, mid. split; reflexivity.
  - destruct (esi_moon env mid); cbn; [left; reflexivity|].
    case_bool_decide; cbn; [|left; reflexivity].
    right. exists r, mid. split; reflexivity.
Qed.

Lemma update_moon_once_fields p sid st :
  loop_fields_kept st
    (final_state (update_moon_once env p sid (refineries (db st) !! sid) st)).
Proof.
  destruct (update_moon_once_refineries p sid st) as [H|(r & mid & Hr & H)];
    intros id row Hrow; rewrite H.
  - exists row. auto.
  - destruct (decide (id = sid)) as [->|Hne].
    + rewrite lookup_insert_eq. rewrite Hr in Hrow. injection Hrow as <-.
      eexists. split; [reflexivity|]. auto.
    + rewrite lookup_insert_ne by congruence. exists row. auto.
Qed.

Lemma process_notification_fields n :
  keeps loop_fields_kept (process_notification env n).
Proof.
  unfold process_notification.
  k_bind; [k_call|intros p]. apply keeps_if; [|k_ret].
  k_bind; [k_subscript|intros sid].
  k_get_bind. intros st. cbv zeta. rewrite final_state_bind.
  pose proof (update_moon_once_fields p sid st) as Hu.
  destruct (update_moon_once env p sid (refineries (db st) !! sid) st)
    as [[] st'|e st']; cbn in Hu; [|exact Hu].
  etransitivity; [exact Hu|].
  match goal with
  | |- loop_fields_kept st' (final_state (?rest st')) =>
      assert (Hk : keeps loop_same rest);
      [|apply (keeps_run (loop_same_fields _ Hk))]
  end.
  k_bind; [apply keeps_if; [apply on_started_same | k_ret]|intros _].
  k_bind; [apply keeps_if; [apply on_cancelled_same | k_ret]|intros _].
  apply keeps_if; [apply on_finished_same | k_ret].
Qed.

Lemma process_notifications_fields notifications :
  keeps fields_kept (process_notifications env notifications).
Proof.
  split; intros d. unfold process_notifications.
  assert (Hk : keeps loop_fields_kept
                 (for_each (process_notification env)
                    (sorted_by_timestamp notifications))).
  { k_for_each. intros n _. apply process_notification_fields. }
  pose proof (keeps_run Hk (initial_loop_state d)) as H.
  destruct (for_each _ _ _); exact H.
Qed.

Lemma same_refineries_stays {A} info pk sid (m : M DB A) :
  keeps same_refineries m -> keeps (stays_stored info pk sid) m.
Proof.
  intros [H]; split; intros d (row & Hrow & Hfields). specialize (H d).
  unfold same_refineries in H. exists row. rewrite H. auto.
Qed.

Lemma update_refinery_stays pk s info sid :
  get_universe_structures_structure_id env sid = inr info ->
  keeps (stays_stored info pk sid) (update_refinery env pk s).
Proof.
  intros Hinfo. unfold update_refinery.
  k_bind; [apply same_refineries_stays, EveType_refineries|intros eve_type].
  apply keeps_if; [|k_ret].
  k_bind; [k_call|intros _].
  apply (keeps_bind_post _
           (fun info' =>
              get_universe_structures_structure_id env (structure_id s)
              = inr info'));
    [intros d info' d' H; eapply call_inv; exact H | k_call |].
  intros info' Hinfo'.
  k_bind; [apply same_refineries_stays,
             PlannerMoreFacts.EveSolarSystem_refineries|intros _].
  k_bind; [k_call|intros nearest].
  k_bind; [|intros moon].
  { destruct nearest as [c|]; [|k_ret]. apply keeps_if; [|k_ret].
    k_bind; [apply same_refineries_stays, Moon_refineries|intros _; k_ret]. }
  k_bind; [apply same_refineries_stays, EveType_refineries|intros _].
  apply keeps_modify. intros d (row & Hrow & Hfields).
  destruct (decide (structure_id s = sid)) as [Heq|Hne].
  - rewrite Heq, Hinfo in Hinfo'. injection Hinfo' as <-.
    eexists. cbn. rewrite Heq, lookup_insert_eq. split; [reflexivity|].
    cbn. auto.
  - exists row. cbn. rewrite lookup_insert_ne by exact Hne. auto.
Qed.

Lemma update_refinery_stores pk s d d' :
  group_of env d (type_id s) = inr (EVE_GROUP_ID_REFINERY env) ->
  update_refinery env pk s d = Ok tt d' ->
  exists info,
    get_universe_structures_structure_id env (structure_id s) = inr info
    /\ stored_as info pk d' (structure_id s).
Proof.
  intros Hgroup H. unfold update_refinery in H.
  apply bind_inv in H as (row & d1 & E & H).
  apply EveType_result in E. rewrite Hgroup in E. injection E as E.
  rewrite E, Z.eqb_refl in H.
  apply bind_inv in H as ([] & d2 & _ & H).
  apply bind_inv in H as (info & d3 & Hinfo & H).
  apply call_inv in Hinfo. exists info. split; [exact Hinfo|].
  apply bind_inv in H as ([] & d4 & _ & H).
  apply bind_inv in H as (nearest & d5 & _ & H).
  apply bind_inv in H as (moon & d6 & _ & H).
  apply bind_inv in H as (eve_type & d7 & _ & H).
  injection H as <-. eexists. cbn. rewrite lookup_insert_eq.
  split; [reflexivity|]. cbn. auto.
Qed.

Lemma structures_loop_stores pk l d0 d d' s :
  same_groups env d0 d ->
  for_each (update_refinery env pk) l d = Ok tt d' ->
  s ∈ l -> is_refinery env d0 s ->
  exists info,
    get_universe_structures_structure_id env (structure_id s) = inr info
    /\ stored_as info pk d' (structure_id s).
Proof.
  revert d; induction l as [|s' l IH]; intros d Hgroups Hrun Hin Href;
    [inversion Hin|].
  cbn [for_each] in Hrun.
  apply (bind_inv (update_refinery env pk s')) in Hrun as ([] & d1 & Hs' & Hrun).
  pose proof (keeps_run (update_refinery_groups pk s') d) as Hg.
  rewrite Hs' in Hg. cbn in Hg.
  assert (Hgroups1 : same_groups env d0 d1)
    by (etransitivity; eassumption).
  apply elem_of_cons in Hin as [->|Hin];
    [|exact (IH d1 Hgroups1 Hrun Hin Href)].
  destruct (update_refinery_stores pk s' d d1) as (info & Hinfo & Hstored);
    [rewrite (Hgroups (type_id s')); exact Href | exact Hs' |].
  exists info. split; [exact Hinfo|].
  assert (Hk : keeps (stays_stored info pk (structure_id s'))
                 (for_each (update_refinery env pk) l)).
  { k_for_each. intros x _. apply update_refinery_stays, Hinfo. }
  pose proof (keeps_run Hk d1 Hstored) as H. rewrite Hrun in H. exact H.
Qed.

Lemma process_notifications_adds_none notifications d :
  adds_only (fun _ => False) d
    (final_state (process_notifications env notifications d)).
Proof.
  pose proof (keeps_run
                (PlannerMoreFacts.process_notifications_refineries_stay env
                   notifications) d) as _.
  unfold process_notifications.
  assert (Hk : keeps (fun st st' : LoopState =>
                        adds_only (fun _ => False) (db st) (db st'))
                 (for_each (process_notification env)
                    (sorted_by_timestamp notifications))).
  { assert (PreOrder (fun st st' : LoopState =>
                        adds_only (fun _ => False) (db st) (db st'))).
    { split; [intros st; reflexivity|].
      intros s1 s2 s3 H1 H2. etransitivity; eassumption. }
    assert (Hsame : forall A (m : M LoopState A),
              keeps loop_same m ->
              keeps (fun st st' : LoopState =>
                       adds_only (fun _ => False) (db st) (db st')) m).
    { intros A m [Hm]; split; intros st id Hid. left.
      destruct (Hm st) as [Hr _]. rewrite <- Hr. exact Hid. }
    k_for_each. intros n _. unfold process_notification.
    k_bind; [k_call|intros p]. apply keeps_if; [|k_ret].
    k_bind; [k_subscript|intros sid].
    k_get_bind. intros st. cbv zeta. rewrite final_state_bind.
    assert (Hu : adds_only (fun _ => False) (db st)
                   (db (final_state
                          (update_moon_once env p sid
                             (refineries (db st) !! sid) st)))).
    { destruct (update_moon_once_refineries p sid st)
        as [H'|(r & mid & Hr & H')]; intros id Hid; rewrite H' in Hid;
        left; [exact Hid|].
      destruct (decide (id = sid)) as [->|Hne]; [rewrite Hr; eauto|].
      rewrite lookup_insert_ne in Hid by congruence. exact Hid. }
    destruct (update_moon_once env p sid (refineries (db st) !! sid) st)
      as [[] st'|e st']; cbn in Hu; [|exact Hu].
    etransitivity; [exact Hu|].
    match goal with
    | |- adds_only _ (db st') (db (final_state (?rest st'))) =>
        assert (Hrest : keeps loop_same rest);
        [|apply (keeps_run (Hsame _ _ Hrest))]
    end.
    k_bind; [apply keeps_if; [apply on_started_same | k_ret]|intros _].
    k_bind; [apply keeps_if; [apply on_cancelled_same | k_ret]|intros _].
    apply keeps_if; [apply on_finished_same | k_ret]. }
  pose proof (keeps_run Hk (initial_loop_state d)) as H.
  destruct (for_each _ _ _); exact H.
Qed.

End Refineries.

(** X17.  After [run_refineries_update] has returned for a corporation
    with a character, every structure of the refinery group that the API
    lists for the corporation is stored as a refinery, with the name and
    the type that the API gives for the structure and with this
    corporation, whatever the notifications did to its moon.  The group
    of the structure's type is the one stored before the task, or the one
    the API gives when the type is not stored. *)
Theorem listed_refineries_are_stored
  (env : Env) (pk : Z) (d d' : DB) (corp : MiningCorporationRow)
  (character_id : Z) (all_structures : list Structure) (s : Structure) :
  mining_corporations d !! pk = Some corp ->
  character corp = Some character_id ->
  get_corporations_corporation_id_structures env (corporation_id corp)
    = inr all_structures ->
  s ∈ all_structures ->
  is_refinery env d s ->
  run_refineries_update env pk d = Ok tt d' ->
  exists info,
    get_universe_structures_structure_id env (structure_id s) = inr info
    /\ stored_as info pk d' (structure_id s).
Proof.
  intros Hcorp Hchar Hstructures Hin Href Hrun.
  unfold run_refineries_update in Hrun.
  apply bind_inv in Hrun as (d0 & d1 & Hget & Hrun).
  injection Hget as <- <-. rewrite Hcorp, Hchar in Hrun.
  apply bind_inv in Hrun as ([] & d1 & Htoken & Hrun).
  apply call_state in Htoken as ->.
  apply bind_inv in Hrun as ([] & d1 & Hvalid & Hrun).
  apply call_state in Hvalid as ->.
  apply bind_inv in Hrun as (l & d1 & Hl & Hrun).
  pose proof (call_state _ _ _ _ Hl) as ->.
  apply call_inv in Hl. rewrite Hstructures in Hl. injection Hl as <-.
  apply bind_inv in Hrun as ([] & d1 & Hloop & Hrun).
  apply bind_inv in Hrun as ([] & d2 & Hvalid' & Hrun).
  apply call_state in Hvalid' as ->.
  apply bind_inv in Hrun as (notifications & d2 & Hnotes & Hrun).
  apply call_state in Hnotes as ->.
  destruct (structures_loop_stores env pk all_structures d d d1 s)
    as (info & Hinfo & row & Hrow & Hname & Htype & Hc);
    [intros ty; reflexivity | exact Hloop | exact Hin | exact Href |].
  exists info. split; [exact Hinfo|].
  pose proof (keeps_run (process_notifications_fields env notifications) d1)
    as Hkept.
  rewrite Hrun in Hkept. cbn in Hkept.
  destruct (Hkept _ _ Hrow) as (row' & Hrow' & Hn & Ht & Hc').
  exists row'. repeat split; congruence.
Qed.

Lemma listed_refineries_are_stored_witness :
  exists info,
    get_universe_structures_structure_id
      (Sample.env (inr [ {| type_id := Sample.athanor;
                            structure_id := Sample.refinery_1 |} ]) (inr []))
      Sample.refinery_1 = inr info
    /\ stored_as info 1
         (final_state
            (run_refineries_update
               (Sample.env (inr [ {| type_id := Sample.athanor;
                                     structure_id := Sample.refinery_1 |} ])
                  (inr [])) 1 Sample.empty_db))
         Sample.refinery_1.
Proof.
  eapply (listed_refineries_are_stored
            (Sample.env (inr [ {| type_id := Sample.athanor;
                                  structure_id := Sample.refinery_1 |} ])
               (inr [])) 1 Sample.empty_db _ Sample.corporation 1001
            [ {| type_id := Sample.athanor;
                 structure_id := Sample.refinery_1 |} ]
            {| type_id := Sample.athanor;
               structure_id := Sample.refinery_1 |}).
  - reflexivity.
  - reflexivity.
  - reflexivity.
  - left.
  - reflexivity.
  - vm_compute. reflexivity.
Defined.

(** X18.  [run_refineries_update] adds no refinery but those of the
    structures of the refinery group that the API lists for the
    corporation: a refinery that is stored after the task, however the
    task ends, was stored before it or belongs to such a structure. *)
Theorem only_listed_refineries_are_added
  (env : Env) (pk : Z) (d : DB) (id : Z) :
  is_Some (refineries (final_state (run_refineries_update env pk d)) !! id) ->
  is_Some (refineries d !! id)
  \/ exists corp all_structures s,
       mining_corporations d !! pk = Some corp
       /\ get_corporations_corporation_id_structures env (corporation_id corp)
          = inr all_structures
       /\ s ∈ all_structures
       /\ structure_id s = id
       /\ is_refinery env d s.
Proof.
  intros Hid.
  pose (listed := fun id : Z =>
          exists corp all_structures s,
            mining_corporations d !! pk = Some corp
            /\ get_corporations_corporation_id_structures env
                 (corporation_id corp) = inr all_structures
            /\ s ∈ all_structures /\ structure_id s = id
            /\ is_refinery env d s).
  assert (Hweak : forall corp all_structures d1,
            mining_corporations d !! pk = Some corp ->
            get_corporations_corporation_id_structures env
              (corporation_id corp) = inr all_structures ->
            adds_only (fun id => exists s, s ∈ all_structures
                                           /\ structure_id s = id
                                           /\ is_refinery env d s) d d1 ->
            adds_only listed d d1).
  { intros corp all_structures d1 Hcorp Hstructures Hadds id' Hid'.
    destruct (Hadds id' Hid') as [H|(s & Hs & Hsid & Hr)]; [left; exact H|].
    right. exists corp, all_structures, s. auto. }
  assert (Hsame : adds_only listed d d) by (intros id' H; left; exact H).
  cut (adds_only listed d (final_state (run_refineries_update env pk d)));
    [intros H; exact (H id Hid)|].
  clearbody listed. clear Hid.
  unfold run_refineries_update. rewrite final_state_bind. cbn [get].
  destruct (mining_corporations d !! pk) as [corp|] eqn:Hcorp;
    [|exact Hsame].
  destruct (character corp) as [character_id|]; [|exact Hsame].
  rewrite final_state_bind.
  destruct (fetch_token env corp); cbn [call raise ret]; [exact Hsame|].
  rewrite final_state_bind.
  destruct (valid_access_token env) eqn:Hvalid; cbn [call raise ret];
    [exact Hsame|].
  rewrite final_state_bind.
  destruct (get_corporations_corporation_id_structures env
              (corporation_id corp)) as [e|all_structures] eqn:Hstructures;
    cbn [call raise ret]; [exact Hsame|].
  rewrite final_state_bind.
  pose proof (Hweak corp all_structures _ eq_refl Hstructures
                (structures_loop_adds env pk all_structures d d
                   (fun ty => eq_refl))) as Hloop.
  destruct (for_each (update_refinery env pk) all_structures d)
    as [[] d1|e d1]; cbn [final_state] in Hloop; [|exact Hloop].
  rewrite final_state_bind. cbn [call raise ret].
  rewrite final_state_bind.
  destruct (get_characters_character_id_notifications env character_id)
    as [e|notifications]; cbn [call raise ret]; [exact Hloop|].
  intros id' Hid'.
  destruct (process_notifications_adds_none env notifications d1 id' Hid')
    as [H|[]].
  exact (Hloop id' H).
Qed.


(** X16.  The loop of [run_refineries_update] takes the moon of a refinery
    from the first notification that it acts on for a stored refinery.
    Let the order of processing be [pre], then [n], then [post], where no
    notification of [pre] is of an extraction type for a stored refinery
    and [n] is, for the refinery [sid] with the moon [mid].  After a loop
    that ends normally that refinery has the moon [mid], with its name,
    type and corporation as before, and every other refinery is as it
    was. *)
Theorem moon_is_taken_from_first_notification
  (env : Env) (d d' : DB) (notifications pre post : list Notification)
  (n : Notification) (p : ParsedText) (sid mid : Z) (r : RefineryRow) :
  sorted_by_timestamp notifications = (pre ++ n :: post)%list ->
  Forall (fun m => matches (refineries d) m = false) pre ->
  type n ∈ extraction_types ->
  text n = inr p -> structureID p = Some sid -> moonID p = Some mid ->
  refineries d !! sid = Some r ->
  process_notifications env notifications d = Ok tt d' ->
  refineries d' = <[sid := with_moon r mid]> (refineries d).
Proof.
  intros Hsorted Hpre Ht Hp Hs Hmid Hr Hrun.
  unfold process_notifications in Hrun. rewrite Hsorted in Hrun.
  destruct (for_each (process_notification env) (pre ++ n :: post)
              (initial_loop_state d)) as [[] st|e st] eqn:E; [|discriminate].
  injection Hrun as <-.
  apply PlannerMoreFacts.for_each_app_Ok in E as (s1 & E1 & E2).
  pose proof (unmatched_loop_same env pre (initial_loop_state d) Hpre)
    as [Hrefs Hflag].
  rewrite E1 in Hrefs, Hflag. cbn in Hrefs, Hflag.
  cbn [for_each] in E2.
  apply (bind_inv (process_notification env n)) in E2 as ([] & s2 & En & E2).
  rewrite <- Hrefs in Hr.
  pose proof (process_notification_first env n p sid r mid s1 s2
                Ht Hp Hs Hmid Hflag Hr En) as Hfirst.
  assert (Hset : moon_updated s2 = true).
  { pose proof (process_notification_match_sets_flag env n s1) as Hm.
    rewrite En in Hm. apply Hm; [|exact Hflag].
    unfold matches. rewrite (bool_decide_eq_true_2 _ Ht), Hp, Hs. cbn.
    apply bool_decide_eq_true. eauto. }
  pose proof (flagged_loop_same env post s2 Hset) as [Hpost _].
  rewrite E2 in Hpost. cbn in Hpost.
  rewrite Hpost, Hfirst, Hrefs. reflexivity.
Qed.

Lemma moon_is_taken_from_first_notification_witness :
  refineries
    (final_state
       (process_notifications (Sample.env (inr []) (inr []))
          [ Sample.started 10 Sample.refinery_2 Sample.moon_2 ] Sample.db))
  = <[ Sample.refinery_2 := Sample.refinery_row (Some Sample.moon_2) ]>
      (refineries Sample.db).
Proof.
  eapply (moon_is_taken_from_first_notification
            (Sample.env (inr []) (inr [])) Sample.db _
            [ Sample.started 10 Sample.refinery_2 Sample.moon_2 ] [] []
            (Sample.started 10 Sample.refinery_2 Sample.moon_2)
            _ Sample.refinery_2 Sample.moon_2 (Sample.refinery_row None)).
  - reflexivity.
  - constructor.
  - unfold extraction_types. set_solver.
  - reflexivity.
  - reflexivity.
  - reflexivity.
  - reflexivity.
  - vm_compute. reflexivity.
Defined.

Lemma only_listed_refineries_are_added_witness :
  let env := Sample.env (inr [ {| type_id := Sample.athanor;
                                  structure_id := Sample.refinery_1 |} ])
               (inr []) in
  is_Some (refineries Sample.empty_db !! Sample.refinery_1)
  \/ exists corp all_structures s,
       mining_corporations Sample.empty_db !! 1 = Some corp
       /\ get_corporations_corporation_id_structures env (corporation_id corp)
          = inr all_structures
       /\ s ∈ all_structures
       /\ structure_id s = Sample.refinery_1
       /\ is_refinery env Sample.empty_db s.
Proof.
  cbv zeta.
  apply (only_listed_refineries_are_added
           (Sample.env (inr [ {| type_id := Sample.athanor;
                                 structure_id := Sample.refinery_1 |} ])
              (inr [])) 1 Sample.empty_db Sample.refinery_1).
  eexists. vm_compute. reflexivity.
Defined.

End RefineryFacts.

(** ** moonplanner/tasks.py: running the loop again *)

Module RerunFacts.
Import Planner PlannerSpec PlannerFacts.

#[local] Existing Instance PlannerFacts.same_refineries_preorder.
#[local] Existing Instance PlannerFacts.loop_same_preorder.

#[local] Instance grows_preorder : PreOrder grows.
Proof.
  split.
  - intros d. repeat split; auto.
  - intros d1 d2 d3 (Ha & Hb & Hc & Hd & He) (Ha' & Hb' & Hc' & Hd' & He').
    split; [set_solver|]. split; [set_solver|]. repeat split; auto.
Qed.

#[local] Instance loop_grows_preorder : PreOrder loop_grows.
Proof.
  split; [intros st H; split; [exact H | reflexivity]|].
  intros s1 s2 s3 H1 H2 Hk. destruct (H1 Hk) as [Hk2 H12].
  destruct (H2 Hk2) as [Hk3 H23]. split; [exact Hk3|].
  etransitivity; eassumption.
Qed.

#[local] Instance loop_same_refinery_ids_preorder :
  PreOrder loop_same_refinery_ids.
Proof.
  split; [intros st; reflexivity|].
  intros s1 s2 s3 H1 H2.
  unfold loop_same_refinery_ids, same_refinery_ids in *. congruence.
Qed.

Section Rerun.
Variable env : Env.

(** *** What the loop never loses *)

Lemma EveType_grows id b :
  keeps grows (EveType_get_or_create_esi env id b).
Proof.
  assert (Hload : forall d g,
            (forall row, eve_types d !! id = Some row ->
                         type_materials row = true -> b = true) ->
            grows d (set_eve_types
                       <[id := {| eve_group_id := g; type_materials := b |}]>
                       d)).
  { intros d g Hb. unfold grows; cbn. split; [reflexivity|].
    split; [reflexivity|]. split; [|split; auto].
    intros id' (row & Hrow & Hm). unfold has_materials; cbn.
    destruct (decide (id' = id)) as [->|Hne].
    - rewrite lookup_insert_eq. eexists. split; [reflexivity|]. cbn.
      exact (Hb row Hrow Hm).
    - rewrite lookup_insert_ne by congruence. eauto. }
  split; intros d. unfold EveType_get_or_create_esi.
  unfold mbind, M_bind, bind, get, call, modify, raise, ret.
  destruct (eve_types d !! id) as [cached|] eqn:E; cbn.
  - destruct (b && negb (type_materials cached)) eqn:Eb; cbn; [|reflexivity].
    destruct (esi_type env id) as [e|g]; cbn; [reflexivity|].
    apply Hload. intros row _ _. apply andb_true_iff in Eb as [Eb _]. exact Eb.
  - destruct (esi_type env id) as [e|g]; cbn; [reflexivity|].
    apply Hload. intros row Hrow. congruence.
Qed.

Lemma EveMoon_grows id : keeps grows (EveMoon_get_or_create_esi env id).
Proof.
  split; intros d. unfold EveMoon_get_or_create_esi.
  unfold mbind, M_bind, bind, get, call, modify, raise, ret.
  destruct (bool_decide (id ∈ eve_moons d)); cbn; [reflexivity|].
  destruct (esi_moon env id); cbn; [reflexivity|].
  unfold grows; cbn. split; [set_solver|]. repeat split; auto.
Qed.

Lemma Moon_grows id : keeps grows (Moon_get_or_create id).
Proof.
  split; intros d. unfold Moon_get_or_create, modify; cbn.
  unfold grows; cbn. split; [reflexivity|].
  split; [set_solver|]. repeat split; auto.
Qed.

Lemma Refinery_save_grows id row : keeps grows (Refinery_save id row).
Proof.
  split; intros d. unfold Refinery_save, modify; cbn.
  unfold grows; cbn. repeat split; auto.
Qed.

Lemma ExtractionProduct_grows e t v :
  keeps grows (ExtractionProduct_get_or_create e t v).
Proof.
  split; intros d. unfold ExtractionProduct_get_or_create.
  unfold mbind, M_bind, bind, get, call, modify, raise, ret.
  destruct (extraction_products d !! (e, t)) eqn:E; cbn; [reflexivity|].
  unfold grows; cbn. split; [reflexivity|].
  split; [reflexivity|]. split; [auto|]. split; [|auto].
  intros key Hkey. destruct (decide (key = (e, t))) as [->|Hne].
  - rewrite lookup_insert_eq. eauto.
  - rewrite lookup_insert_ne by congruence. exact Hkey.
Qed.

Lemma Extraction_get_or_create_grows r t a :
  keeps grows (Extraction_get_or_create r t a).
Proof.
  split; intros d.
  unfold Extraction_get_or_create, mbind, M_bind, bind, get, modify, ret, raise.
  destruct (filter _ (map_to_list (extractions d))) as [|kv [|kv' found]] eqn:E;
    cbn; try reflexivity.
  pose proof (PlannerMoreFacts.nothing_found _ _ _ E) as Hnone.
  unfold grows; cbn. split; [reflexivity|]. split; [reflexivity|].
  split; [auto|]. split; [auto|].
  intros r' t' k (row & Hrow & Hr & Ht & Honly).
  assert (Hfresh : k <> next_pk (extractions d)).
  { intros ->. rewrite next_pk_fresh in Hrow. discriminate. }
  exists row. cbn. rewrite lookup_insert_ne by congruence.
  split; [exact Hrow|]. split; [exact Hr|]. split; [exact Ht|].
  intros k' row' Hrow' Hr' Ht'.
  destruct (decide (k' = next_pk (extractions d))) as [->|Hne].
  - rewrite lookup_insert_eq in Hrow'. injection Hrow' as <-. cbn in *.
    exfalso. apply (Hnone k row Hrow). split; congruence.
  - rewrite lookup_insert_ne in Hrow' by congruence.
    exact (Honly k' row' Hrow' Hr' Ht').
Qed.

Lemma on_db_loop_grows {A} (m : M DB A) :
  keeps grows m -> keeps loop_grows (on_db m).
Proof.
  intros H; apply (keeps_on_db grows); [exact H|].
  intros st d' Hg Hk. split; [exact Hk | exact Hg].
Qed.

Ltac grow :=
  repeat first
    [ apply on_db_loop_grows
    | apply EveType_grows | apply EveMoon_grows | apply Moon_grows
    | apply Refinery_save_grows | apply ExtractionProduct_grows
    | apply Extraction_get_or_create_grows
    | k_ret | k_raise | k_call | k_subscript | k_get
    | apply keeps_if
    | k_for_each; intros ? _
    | k_bind; [|intros ?] ].

Lemma update_moon_once_grows p sid r :
  keeps loop_grows (update_moon_once env p sid r).
Proof.
  unfold update_moon_once. k_bind; [k_get|intros st].
  destruct r; [apply keeps_if|]; grow.
  apply keeps_modify; intros s Hk; split; [exact Hk | reflexivity].
Qed.

Lemma on_started_grows p sid r : keeps loop_grows (on_started env p sid r).
Proof.
  unfold on_started. destruct r; grow.
  apply keeps_modify; intros s Hk; split; [|reflexivity].
  intros z; cbn. rewrite lookup_insert_ne by discriminate. apply Hk.
Qed.

Lemma on_cancelled_grows sid : keeps loop_grows (on_cancelled sid).
Proof.
  unfold on_cancelled. k_get_bind; intros st Hk.
  rewrite (Hk sid). cbn. split; [exact Hk | reflexivity].
Qed.

Lemma on_finished_grows sid : keeps loop_grows (on_finished sid).
Proof.
  apply keeps_modify; intros s Hk; split; [|reflexivity].
  intros z; cbn. destruct (decide (z = sid)) as [->|Hne].
  - apply lookup_delete_eq.
  - rewrite lookup_delete_ne by congruence. apply Hk.
Qed.

Lemma rest_of_body_grows p sid r (b1 b2 b3 : bool) :
  keeps loop_grows
    ((if b1 then on_started env p sid r else ret tt) ≫= fun _ =>
     (if b2 then on_cancelled sid else ret tt) ≫= fun _ =>
     (if b3 then on_finished sid else ret tt)).
Proof.
  k_bind; [apply keeps_if; [apply on_started_grows | k_ret]|intros _].
  k_bind; [apply keeps_if; [apply on_cancelled_grows | k_ret]|intros _].
  apply keeps_if; [apply on_finished_grows | k_ret].
Qed.

Lemma process_notification_grows n :
  keeps loop_grows (process_notification env n).
Proof.
  unfold process_notification.
  k_bind; [k_call|intros p]. apply keeps_if; [|k_ret].
  k_bind; [k_subscript|intros sid].
  k_bind; [k_get|intros st]. cbv zeta.
  k_bind; [apply update_moon_once_grows|intros _].
  apply rest_of_body_grows.
Qed.

Lemma loop_grows_run l st st' :
  no_int_key st ->
  for_each (process_notification env) l st = Ok tt st' ->
  no_int_key st' /\ grows (db st) (db st').
Proof.
  intros Hk Hrun.
  assert (H : keeps loop_grows (for_each (process_notification env) l)).
  { k_for_each. intros n _. apply process_notification_grows. }
  pose proof (keeps_run H st Hk) as Hg. rewrite Hrun in Hg. exact Hg.
Qed.

(** The loop stores no new refinery and removes none. *)
Lemma process_notification_ids n :
  keeps loop_same_refinery_ids (process_notification env n).
Proof.
  assert (Hsame : forall A (m : M LoopState A),
            keeps loop_same m -> keeps loop_same_refinery_ids m).
  { intros A m [Hm]; split; intros st. destruct (Hm st) as [Hr _].
    unfold loop_same_refinery_ids, same_refinery_ids. rewrite Hr.
    reflexivity. }
  unfold process_notification.
  k_bind; [k_call|intros p]. apply keeps_if; [|k_ret].
  k_bind; [k_subscript|intros sid].
  k_get_bind. intros st. cbv zeta. rewrite final_state_bind.
  assert (Hu : loop_same_refinery_ids st
                 (final_state
                    (update_moon_once env p sid
                       (refineries (db st) !! sid) st))).
  { unfold loop_same_refinery_ids, same_refinery_ids.
    destruct (RefineryFacts.update_moon_once_refineries env p sid st)
      as [H'|(r & mid & Hr & H')]; rewrite H'; [reflexivity|].
    rewrite dom_insert_L.
    apply subseteq_union_1_L, singleton_subseteq_l, elem_of_dom.
    rewrite Hr. eauto. }
  destruct (update_moon_once env p sid (refineries (db st) !! sid) st)
    as [[] st'|e st']; cbn in Hu; [|exact Hu].
  etransitivity; [exact Hu|].
  match goal with
  | |- loop_same_refinery_ids st' (final_state (?rest st')) =>
      assert (Hrest : keeps loop_same rest);
      [|apply (keeps_run (Hsame _ _ Hrest))]
  end.
  k_bind; [apply keeps_if; [apply on_started_same | k_ret]|intros _].
  k_bind; [apply keeps_if; [apply on_cancelled_same | k_ret]|intros _].
  apply keeps_if; [apply on_finished_same | k_ret].
Qed.

Lemma loop_ids_run l st st' :
  for_each (process_notification env) l st = Ok tt st' ->
  dom (refineries (db st')) = dom (refineries (db st)).
Proof.
  intros Hrun.
  assert (H : keeps loop_same_refinery_ids
                (for_each (process_notification env) l)).
  { k_for_each. intros n _. apply process_notification_ids. }
  pose proof (keeps_run H st) as Hg. rewrite Hrun in Hg. exact Hg.
Qed.

(** *** What a run of the loop leaves behind *)

Lemma subscript_inv {S A} (o : option A) (s s' : S) (a : A) :
  subscript o s = Ok a s' -> o = Some a /\ s' = s.
Proof. destruct o; [|discriminate]. intros [= -> ->]. auto. Qed.

Lemma on_db_inv {A} (m : M DB A) st a st' :
  on_db m st = Ok a st' ->
  exists d', m (db st) = Ok a d' /\ st' = set_db (fun _ => d') st.
Proof.
  unfold on_db. destruct (m (db st)) as [a' d'|e d']; [|discriminate].
  intros [= -> <-]. eauto.
Qed.

Lemma Extraction_get_or_create_only r t a d k d' :
  Extraction_get_or_create r t a d = Ok k d' -> only_extraction d' r t k.
Proof.
  unfold Extraction_get_or_create, mbind, M_bind, bind, get, modify, ret, raise.
  destruct (filter _ (map_to_list (extractions d))) as [|kv [|kv' found]] eqn:E;
    cbn; intros H; [| |discriminate]; injection H as <- <-.
  - pose proof (PlannerMoreFacts.nothing_found _ _ _ E) as Hnone.
    eexists. cbn. rewrite lookup_insert_eq. split; [reflexivity|].
    split; [reflexivity|]. split; [reflexivity|].
    intros k' row' Hrow' Hr' Ht'.
    destruct (decide (k' = next_pk (extractions d))) as [->|Hne];
      [reflexivity|].
    rewrite lookup_insert_ne in Hrow' by congruence.
    exfalso. apply (Hnone k' row' Hrow'). auto.
  - assert (Hall : forall x,
              x ∈ filter (fun kv : Z * ExtractionRow =>
                            bool_decide (ext_refinery kv.2 = r
                                         /\ ext_ready_time kv.2 = t))
                         (map_to_list (extractions d)) <-> x = kv).
    { intros x. rewrite E. apply list_elem_of_singleton. }
    assert (Hkv : kv ∈ filter (fun kv : Z * ExtractionRow =>
                                 bool_decide (ext_refinery kv.2 = r
                                              /\ ext_ready_time kv.2 = t))
                              (map_to_list (extractions d)))
      by (apply Hall; reflexivity).
    apply list_elem_of_filter in Hkv as [Hp Hkv].
    apply bool_decide_spec in Hp as [Hr Ht]. destruct kv as [k row].
    apply elem_of_map_to_list in Hkv. exists row. cbn in *.
    split; [exact Hkv|]. split; [exact Hr|]. split; [exact Ht|].
    intros k' row' Hrow' Hr' Ht'.
    assert (Hin : (k', row') = (k, row)); [|congruence].
    apply Hall. apply list_elem_of_filter. split.
    + apply bool_decide_spec. auto.
    + apply elem_of_map_to_list. exact Hrow'.
Qed.

Lemma EveType_materials id d row d' :
  EveType_get_or_create_esi env id true d = Ok row d' -> has_materials d' id.
Proof.
  unfold EveType_get_or_create_esi.
  unfold mbind, M_bind, bind, get, call, modify, raise, ret.
  destruct (eve_types d !! id) as [cached|] eqn:E; cbn.
  - destruct (type_materials cached) eqn:Em; cbn.
    + intros [= <- <-]. exists cached. auto.
    + destruct (esi_type env id); cbn; [discriminate|].
      intros [= <- <-]. eexists. cbn. rewrite lookup_insert_eq. eauto.
  - destruct (esi_type env id); cbn; [discriminate|].
    intros [= <- <-]. eexists. cbn. rewrite lookup_insert_eq. eauto.
Qed.

Lemma ExtractionProduct_stored e t v d d' :
  ExtractionProduct_get_or_create e t v d = Ok tt d' ->
  is_Some (extraction_products d' !! (e, t)).
Proof.
  unfold ExtractionProduct_get_or_create.
  unfold mbind, M_bind, bind, get, call, modify, raise, ret.
  destruct (extraction_products d !! (e, t)) eqn:E; cbn; intros [= <-].
  - rewrite E. eauto.
  - cbn. rewrite lookup_insert_eq. eauto.
Qed.

(** The loop over the ores of a started extraction. *)
Lemma ores_settle k ores st st' :
  no_int_key st ->
  for_each (fun item : Z * Q =>
              on_db (EveType_get_or_create_esi env item.1 true);;
              on_db (ExtractionProduct_get_or_create k item.1 item.2))
           ores st = Ok tt st' ->
  grows (db st) (db st')
  /\ no_int_key st'
  /\ Forall (fun item : Z * Q =>
               has_materials (db st') item.1
               /\ is_Some (extraction_products (db st') !! (k, item.1))) ores.
Proof.
  revert st; induction ores as [|item ores IH]; intros st Hk Hrun.
  - injection Hrun as <-. split; [reflexivity|]. split; [exact Hk|constructor].
  - cbn [for_each] in Hrun.
    match type of Hrun with
    | bind ?m _ _ = _ => apply (bind_inv m) in Hrun as ([] & s2 & Hitem & Hrun)
    end.
    apply bind_inv in Hitem as (row & s1 & Htype & Hproduct).
    apply on_db_inv in Htype as (d1 & Htype & ->).
    apply on_db_inv in Hproduct as (d2 & Hproduct & ->).
    cbn in Hproduct.
    pose proof (EveType_materials _ _ _ _ Htype) as Hm.
    pose proof (ExtractionProduct_stored _ _ _ _ _ Hproduct) as Hs.
    pose proof (keeps_run (EveType_grows item.1 true) (db st)) as Hg1.
    rewrite Htype in Hg1. cbn in Hg1.
    pose proof (keeps_run (ExtractionProduct_grows k item.1 item.2) d1) as Hg2.
    rewrite Hproduct in Hg2. cbn in Hg2.
    destruct (IH (set_db (fun _ => d2) (set_db (fun _ => d1) st)) Hk Hrun)
      as (Hg3 & Hk' & Hall).
    cbn in Hg3.
    split; [etransitivity; [exact Hg1|]; etransitivity; eassumption|].
    split; [exact Hk'|]. constructor; [|exact Hall].
    destruct Hg2 as (_ & _ & Hmat2 & _).
    destruct Hg3 as (_ & _ & Hmat3 & Hprod3 & _).
    split; [apply Hmat3, Hmat2, Hm | apply Hprod3, Hs].
Qed.

Lemma on_started_settles p sid r st st' :
  no_int_key st ->
  on_started env p sid (Some r) st = Ok tt st' ->
  exists ready_time auto_time ores k,
    readyTime p = Some ready_time
    /\ autoTime p = Some auto_time
    /\ oreVolumeByType p = Some ores
    /\ only_extraction (db st') sid (ldap_time_2_datetime ready_time) k
    /\ Forall (fun item : Z * Q =>
                 has_materials (db st') item.1
                 /\ is_Some (extraction_products (db st') !! (k, item.1))) ores.
Proof.
  intros Hk H. unfold on_started in H.
  apply bind_inv in H as (ready_time & s1 & Hready & H).
  apply subscript_inv in Hready as [Hready ->].
  apply bind_inv in H as (auto_time & s1 & Hauto & H).
  apply subscript_inv in Hauto as [Hauto ->].
  apply bind_inv in H as (k & s1 & Hcreate & H).
  apply on_db_inv in Hcreate as (d1 & Hcreate & ->).
  apply Extraction_get_or_create_only in Hcreate.
  apply bind_inv in H as ([] & s2 & Hdict & H).
  injection Hdict as <-.
  apply bind_inv in H as (ores & s3 & Hores & H).
  apply subscript_inv in Hores as [Hores ->].
  apply ores_settle in H as ((_ & _ & _ & _ & Honly) & _ & Hall).
  - exists ready_time, auto_time, ores, k. repeat split; try assumption.
    apply Honly. exact Hcreate.
  - intros z. cbn. rewrite lookup_insert_ne by discriminate. apply Hk.
Qed.

Lemma update_moon_once_settles p sid r st st' :
  moon_updated st = false ->
  refineries (db st) !! sid = Some r ->
  update_moon_once env p sid (Some r) st = Ok tt st' ->
  exists mid,
    moonID p = Some mid
    /\ mid ∈ eve_moons (db st') /\ mid ∈ moons (db st')
    /\ refineries (db st') = <[sid := with_moon r mid]> (refineries (db st)).
Proof.
  intros Hflag Hr H.
  destruct (moonID p) as [mid|] eqn:Hmid.
  - exists mid. split; [reflexivity|].
    pose proof (RefineryFacts.update_moon_once_first env p sid r mid st st'
                  Hflag Hr Hmid H) as Hrefs.
    split; [|split; [|exact Hrefs]].
    + revert H.
      unfold update_moon_once, EveMoon_get_or_create_esi, Moon_get_or_create,
        Refinery_save.
      unfold mbind, M_bind, bind, get, modify, subscript, ret, on_db, call,
        raise.
      rewrite Hflag, Hmid. cbn.
      destruct (decide (mid ∈ eve_moons (db st))) as [Em|Em].
      * rewrite (bool_decide_eq_true_2 _ Em). cbn.
        case_bool_decide; cbn; intros [= <-]; cbn; exact Em.
      * rewrite (bool_decide_eq_false_2 _ Em). cbn.
        destruct (esi_moon env mid); cbn; [discriminate|].
        case_bool_decide; cbn; intros [= <-]; cbn;
          apply elem_of_union_l, elem_of_singleton; reflexivity.
    + revert H.
      unfold update_moon_once, EveMoon_get_or_create_esi, Moon_get_or_create,
        Refinery_save.
      unfold mbind, M_bind, bind, get, modify, subscript, ret, on_db, call,
        raise.
      rewrite Hflag, Hmid. cbn.
      destruct (bool_decide (mid ∈ eve_moons (db st))); cbn.
      * case_bool_decide; cbn; intros [= <-]; cbn; set_solver.
      * destruct (esi_moon env mid); cbn; [discriminate|].
        case_bool_decide; cbn; intros [= <-]; cbn; set_solver.
  - exfalso. revert H. unfold update_moon_once.
    unfold mbind, M_bind, bind, get, modify, subscript, ret, raise.
    rewrite Hflag, Hmid. cbn. discriminate.
Qed.

End Rerun.

End RerunFacts.
